(** * Data-quality rule engine of [etl.py] ([run_part2_etl])

    A shallow embedding of the Part 2 ETL: the cell values that a SQL
    result set delivers, the Python conversions the rules apply to them
    ([float], [int], [str], [pd.isna], [str.strip]), the pandas frame
    operations the function uses, and the four rule blocks with their
    exception lists and the Performance discard set.

    The function is modelled from the frames it reads up to the cleaned
    Performance frame: the four result sets are its input, and the
    exception lists, the discard set and the cleaned frame its output.
    Writing the reports and the cleaned frame out, and the summary read
    back from the written files, are left out. *)

From Stdlib Require Import ZArith String Ascii List Bool Lia.
From Stdlib Require Import Floats.SpecFloat.
From stdpp Require Import base tactics option list gmap sets sorting strings pretty.

Local Open Scope string_scope.
Local Open Scope Z_scope.
Local Open Scope list_scope.

(** ** Python exceptions and results *)

Module Py.

(** The exception classes that the conversions below can raise; all of
    them derive from [Exception]. *)
Inductive exn : Type :=
| TypeError
| ValueError
| OverflowError
| KeyError
| IndexError.

(** The outcome of evaluating a Python expression. *)
Inductive result (A : Type) : Type :=
| Ok (a : A)
| Raise (e : exn).

Arguments Ok {A} a.
Arguments Raise {A} e.

Definition bind {A B : Type} (m : result A) (k : A -> result B) : result B :=
  match m with
  | Ok a => k a
  | Raise e => Raise e
  end.

Global Instance result_ret : MRet result := fun A a => Ok a.
Global Instance result_bind : MBind result := fun A B k m => bind m k.
Global Instance result_fmap : FMap result :=
  fun A B f m => bind m (fun a => Ok (f a)).

(** A [for] loop whose body may raise: the state is threaded through the
    elements in order and the first exception ends the loop. *)
Fixpoint for_each {A S : Type} (body : S -> A -> result S) (l : list A) (s : S) : result S :=
  match l with
  | [] => Ok s
  | x :: l' => bind (body s x) (for_each body l')
  end.

(** ** Floats

    A Python [float] is an IEEE 754 binary64 number: [spec_float] with a
    precision of 53 bits and [emax = 1024]. *)

Definition float : Type := spec_float.

Definition prec : Z := 53.
Definition emax : Z := 1024.

Definition float_is_nan (f : float) : bool :=
  match f with
  | S754_nan => true
  | _ => false
  end.

(** [a <= b] on floats; false as soon as one side is NaN. *)
Definition float_le (a b : float) : bool := SFleb a b.

(** [float(n)] for an integer [n]: round to nearest, ties to even. *)
Definition float_of_Z (n : Z) : float := binary_normalize prec emax n 0 false.

(** [float.is_integer()]. *)
Definition float_is_integer (f : float) : bool :=
  match f with
  | S754_zero _ => true
  | S754_finite _ m e =>
      if 0 <=? e then true else (Z.pos m mod 2 ^ (- e) =? 0)
  | _ => false
  end.

(** Truncation toward zero of a finite float. *)
Definition float_trunc (f : float) : option Z :=
  match f with
  | S754_zero _ => Some 0
  | S754_finite s m e =>
      let a := if 0 <=? e then Z.pos m * 2 ^ e else Z.pos m / 2 ^ (- e) in
      Some (if s then - a else a)
  | _ => None
  end.

(** The value [(-1)^s * m * 10^e] correctly rounded to binary64; a
    magnitude beyond the largest float becomes an infinity. The two
    tests on [Z.log2 m + 3 * e] settle, without computing the power, the
    cases where [m * 10^e] is at least [2^emax] or below half of the
    least positive float: there the rounding gives an infinity or a
    zero anyway, as [8^e <= 10^e] for [0 <= e] and [10^e <= 8^e] for
    [e <= 0]. *)
Definition float_of_decimal (s : bool) (m : Z) (e : Z) : float :=
  if m =? 0 then S754_zero s
  else if (0 <? e) && (emax <=? Z.log2 m + 3 * e) then S754_infinity s
  else if (e <? 0) && (Z.log2 m + 3 * e <=? 1 - emax - prec) then S754_zero s
  else
    let num := m * 10 ^ (Z.max e 0) in
    let den := 10 ^ (Z.max (- e) 0) in
    let '(q, e', l) := SFdiv_core_binary prec emax num 0 den 0 in
    binary_round_aux prec emax s q e' l.

(** ** Text

    A Python [str] is modelled by a [string] whose characters are code
    points below 256. *)

Definition code (a : ascii) : Z := Z.of_nat (nat_of_ascii a).

(** [str.isspace] on one character: TAB..CR, FS..US, SPACE, NEL, NBSP. *)
Definition isspace (a : ascii) : bool :=
  let c := code a in
  ((9 <=? c) && (c <=? 13)) || ((28 <=? c) && (c <=? 32))
  || (c =? 133) || (c =? 160).

(** The blanks that [int] and [float] skip around a literal: the ones
    of C's [isspace], and NEL and NBSP, which they first turn into a
    space; FS..US are not among them. *)
Definition isblank (a : ascii) : bool :=
  let c := code a in
  ((9 <=? c) && (c <=? 13)) || (c =? 32) || (c =? 133) || (c =? 160).

Fixpoint lstrip_with (sp : ascii -> bool) (s : string) : string :=
  match s with
  | String a s' => if sp a then lstrip_with sp s' else s
  | EmptyString => EmptyString
  end.

(** The characters of [s] up to its last one that [sp] rejects. *)
Fixpoint rstrip_with (sp : ascii -> bool) (s : string) : string :=
  match s with
  | String a s' =>
      match rstrip_with sp s' with
      | EmptyString => if sp a then EmptyString else String a EmptyString
      | t => String a t
      end
  | EmptyString => EmptyString
  end.

(** [s.strip()] *)
Definition strip (s : string) : string := rstrip_with isspace (lstrip_with isspace s).

(** [s] without the blanks around the literal it holds. *)
Definition unblank (s : string) : string := rstrip_with isblank (lstrip_with isblank s).

Definition digit_val (a : ascii) : option Z :=
  let c := code a in
  if (48 <=? c) && (c <=? 57) then Some (c - 48) else None.

(** Reads [digit (["_"] digit)*] greedily from the front of [s]: the
    digits read so far are accumulated in [acc] as a number together with
    their count, and the unread rest is returned. [prev] tells whether the
    previous character was a digit, which an underscore requires. *)
Fixpoint digitpart (prev : bool) (acc : Z * Z) (s : string) : (Z * Z) * string :=
  match s with
  | String a s' =>
      match digit_val a with
      | Some d => digitpart true (10 * fst acc + d, snd acc + 1) s'
      | None =>
          if prev && (code a =? 95) then
            match s' with
            | String b s'' =>
                match digit_val b with
                | Some d => digitpart true (10 * fst acc + d, snd acc + 1) s''
                | None => (acc, s)
                end
            | EmptyString => (acc, s)
            end
          else (acc, s)
      end
  | EmptyString => (acc, s)
  end.

(** An optional leading sign; [true] stands for minus. *)
Definition read_sign (s : string) : bool * string :=
  match s with
  | String "-" s' => (true, s')
  | String "+" s' => (false, s')
  | _ => (false, s)
  end.

(** [sys.int_info.default_max_str_digits]: [int] refuses a literal with
    more digits. *)
Definition max_str_digits : Z := 4300.

(** [int(s)] for a string [s], base ten. *)
Definition int_of_string (s : string) : result Z :=
  let '(neg, t) := read_sign (unblank s) in
  match digitpart false (0, 0) t with
  | ((n, cnt), EmptyString) =>
      if (0 <? cnt) && (cnt <=? max_str_digits) then Ok (if neg then - n else n)
      else Raise ValueError
  | _ => Raise ValueError
  end.

Definition lower (a : ascii) : ascii :=
  let c := code a in
  if (65 <=? c) && (c <=? 90) then ascii_of_nat (Z.to_nat (c + 32)) else a.

Fixpoint lowercase (s : string) : string :=
  match s with
  | String a s' => String (lower a) (lowercase s')
  | EmptyString => EmptyString
  end.

(** The exponent part [("e" | "E") ["+" | "-"] digitpart] that may end a
    float literal; [s] is what follows the mantissa. *)
Definition read_exponent (s : string) : result Z :=
  match s with
  | EmptyString => Ok 0
  | String a r =>
      if String.eqb (lowercase (String a EmptyString)) "e" then
        let '(eneg, r') := read_sign r in
        match digitpart false (0, 0) r' with
        | ((x, cnt), EmptyString) =>
            if 0 <? cnt then Ok (if eneg then - x else x) else Raise ValueError
        | _ => Raise ValueError
        end
      else Raise ValueError
  end.

(** [float(s)] for a string [s]. *)
Definition float_of_string (s : string) : result float :=
  let '(neg, t) := read_sign (unblank s) in
  let u := lowercase t in
  if String.eqb u "inf" || String.eqb u "infinity" then Ok (S754_infinity neg)
  else if String.eqb u "nan" then Ok S754_nan
  else
    let '((ip, ni), t1) := digitpart false (0, 0) t in
    let '((m, nd), t2) :=
      match t1 with
      | String "." r => digitpart false (ip, ni) r
      | _ => ((ip, ni), t1)
      end in
    if nd =? 0 then Raise ValueError
    else bind (read_exponent t2) (fun x => Ok (float_of_decimal neg m (x + ni - nd))).

(** *** [repr] of a float

    The shortest decimal digit string that reads back as the same float,
    the closest one to the float's value when several have that length. *)

(** [num / den] is the magnitude as a fraction; [scaled k] is that
    fraction divided by [10^k]. *)
Definition scaled (num den k : Z) : Z * Z :=
  (num * 10 ^ (Z.max (- k) 0), den * 10 ^ (Z.max k 0)).

(** The least [t] in the range of binary64 with [num / den < 10^t]. *)
Definition decimal_point (num den : Z) : Z :=
  let below t := let '(xn, xd) := scaled num den t in xn <? xd in
  match find below (seqZ (-324) 634) with
  | Some t => t
  | None => 309
  end.

(** The digits to print with [p] significant digits, when some decimal
    of that length reads back as [S754_finite false m e]. *)
Definition digits_at (m : positive) (e : Z) (num den t : Z) (p : Z) : option (Z * Z) :=
  let k := t - p in
  let '(xn, xd) := scaled num den k in
  let lo := xn / xd in
  let hi := lo + 1 in
  let r := xn mod xd in
  let back d := match float_of_decimal false d k with
                | S754_finite false m' e' => (Z.pos m' =? Z.pos m) && (e' =? e)
                | _ => false
                end in
  let pick_lo := (2 * r <? xd) || ((2 * r =? xd) && Z.even lo) in
  match back lo, back hi with
  | true, true => Some (if pick_lo then lo else hi, k)
  | true, false => Some (lo, k)
  | false, true => Some (hi, k)
  | false, false => None
  end.

Fixpoint strip_zeros (d k : Z) (fuel : nat) : Z * Z :=
  match fuel with
  | O => (d, k)
  | S fuel' =>
      if (d mod 10 =? 0) && negb (d =? 0) then strip_zeros (d / 10) (k + 1) fuel'
      else (d, k)
  end.

(** The digit string and the position of the decimal point relative to
    its start, for the float [S754_finite _ m e]. *)
Definition shortest_digits (m : positive) (e : Z) : string * Z :=
  let num := if 0 <=? e then Z.pos m * 2 ^ e else Z.pos m in
  let den := if 0 <=? e then 1 else 2 ^ (- e) in
  let t := decimal_point num den in
  let found :=
    match omap (digits_at m e num den t) (seqZ 1 17) with
    | dk :: _ => dk
    | [] => let '(xn, xd) := scaled num den (t - 17) in (xn / xd, t - 17)
    end in
  let '(d, k) := strip_zeros (fst found) (snd found) 20 in
  let ds : string := pretty d in
  (ds, Z.of_nat (String.length ds) + k).

Fixpoint zeros (n : nat) : string :=
  match n with
  | O => EmptyString
  | S n' => String "0" (zeros n')
  end.

(** Layout of the digits as [repr] prints them: exponent notation when
    the decimal point lies at or before [-4] or after [16]. *)
Definition format_short (ds : string) (decpt : Z) : string :=
  let n := Z.of_nat (String.length ds) in
  if (decpt <=? -4) || (16 <? decpt) then
    let x := decpt - 1 in
    let xs : string := pretty (Z.abs x) in
    let mant :=
      match ds with
      | String a EmptyString => ds
      | String a r => String a (String "." r)
      | EmptyString => ds
      end in
    mant +:+ "e" +:+ (if x <? 0 then "-" else "+")
         +:+ (if Z.abs x <? 10 then "0" else "") +:+ xs
  else if decpt <=? 0 then "0." +:+ zeros (Z.to_nat (- decpt)) +:+ ds
  else if n <=? decpt then ds +:+ zeros (Z.to_nat (decpt - n)) +:+ ".0"
  else String.substring 0 (Z.to_nat decpt) ds +:+ "."
       +:+ String.substring (Z.to_nat decpt) (Z.to_nat (n - decpt)) ds.

(** [repr(f)], which is also [str(f)]. *)
Definition float_repr (f : float) : string :=
  match f with
  | S754_nan => "nan"
  | S754_infinity s => if s then "-inf" else "inf"
  | S754_zero s => if s then "-0.0" else "0.0"
  | S754_finite s m e =>
      let '(ds, decpt) := shortest_digits m e in
      (if s then "-" else "") +:+ format_short ds decpt
  end.

(** *** [repr] of a string *)

Definition squote : ascii := ascii_of_nat 39.
Definition dquote : ascii := ascii_of_nat 34.
Definition backslash : ascii := ascii_of_nat 92.

Fixpoint contains (q : ascii) (s : string) : bool :=
  match s with
  | String a s' => Ascii.eqb a q || contains q s'
  | EmptyString => false
  end.

Definition isprintable (a : ascii) : bool :=
  let c := code a in
  ((32 <=? c) && (c <? 127)) || ((161 <=? c) && negb (c =? 173)).

Definition hex_digit (n : Z) : ascii :=
  if n <? 10 then ascii_of_nat (Z.to_nat (48 + n)) else ascii_of_nat (Z.to_nat (87 + n)).

Fixpoint escape (q : ascii) (s : string) : string :=
  match s with
  | String a s' =>
      let c := code a in
      let this :=
        if Ascii.eqb a q || Ascii.eqb a backslash then String backslash (String a EmptyString)
        else if c =? 9 then String backslash "t"
        else if c =? 10 then String backslash "n"
        else if c =? 13 then String backslash "r"
        else if isprintable a then String a EmptyString
        else String backslash (String "x" (String (hex_digit (c / 16))
                                             (String (hex_digit (c mod 16)) EmptyString))) in
      this +:+ escape q s'
  | EmptyString => EmptyString
  end.

Definition str_repr (s : string) : string :=
  let q := if contains squote s && negb (contains dquote s) then dquote else squote in
  String q (escape q s) +:+ String q EmptyString.

(** ** Cell values

    What one cell of a frame read by [pd.read_sql] holds: [None] for a
    NULL of an object column, an integer of a SQL integer type, a float
    (NaN stands for a NULL of a numeric column) or a string. A float
    cell is a binary64 number in canonical form
    ([valid_binary prec emax f = true]). *)
Inductive value : Type :=
| VNone
| VInt (n : Z)
| VFloat (f : float)
| VStr (s : string).

Global Instance float_eq_dec : EqDecision float.
Proof. unfold float. solve_decision. Defined.

Global Instance value_eq_dec : EqDecision value.
Proof. solve_decision. Defined.

(** [pd.isna(v)] *)
Definition isna (v : value) : bool :=
  match v with
  | VNone => true
  | VFloat f => float_is_nan f
  | _ => false
  end.

(** [float(v)] *)
Definition py_float (v : value) : result float :=
  match v with
  | VNone => Raise TypeError
  | VInt n =>
      match float_of_Z n with
      | S754_infinity _ => Raise OverflowError
      | f => Ok f
      end
  | VFloat f => Ok f
  | VStr s => float_of_string s
  end.

(** [int(v)] *)
Definition py_int (v : value) : result Z :=
  match v with
  | VNone => Raise TypeError
  | VInt n => Ok n
  | VFloat S754_nan => Raise ValueError
  | VFloat (S754_infinity _) => Raise OverflowError
  | VFloat f =>
      match float_trunc f with
      | Some n => Ok n
      | None => Raise ValueError
      end
  | VStr s => int_of_string s
  end.

(** [str(v)], which is also what an f-string prints for [{v}]. *)
Definition py_str (v : value) : string :=
  match v with
  | VNone => "None"
  | VInt n => pretty n
  | VFloat f => float_repr f
  | VStr s => s
  end.

(** [repr(v)], as printed for the members of a tuple. *)
Definition py_repr (v : value) : string :=
  match v with
  | VStr s => str_repr s
  | _ => py_str v
  end.

(** [v == w] as the hash tables behind [duplicated] decide it: numbers
    compare by value, two NaN are the same key. *)
Definition value_eqb (v w : value) : bool :=
  match v, w with
  | VNone, VNone => true
  | VInt a, VInt b => a =? b
  | VFloat a, VFloat b => (float_is_nan a && float_is_nan b) || SFeqb a b
  | VInt a, VFloat b | VFloat b, VInt a =>
      float_is_integer b && match float_trunc b with Some n => n =? a | None => false end
  | VStr a, VStr b => String.eqb a b
  | _, _ => false
  end.

End Py.

(** ** Frames *)

Module Pd.
Import Py.

(** A [DataFrame]: column names, one label per row and the rows, each
    holding one cell per column. *)
Record DataFrame : Type := mkDataFrame {
  columns : list string;
  index : list nat;
  data : list (list value)
}.

(** What the engine answers to [SELECT * FROM t]: the column names of
    the table or view, which are distinct, and its rows, each with one
    cell per column. *)
Record ResultSet : Type := mkResultSet {
  rs_columns : list string;
  rs_rows : list (list value)
}.

(** [pd.read_sql]: the rows are labelled [0, 1, ...] in order. *)
Definition read_sql (t : ResultSet) : DataFrame :=
  {| columns := rs_columns t;
     index := seq 0 (length (rs_rows t));
     data := rs_rows t |}.

(** The index that [read_sql] and [reset_index] give a frame. *)
Definition range_index (df : DataFrame) : Prop :=
  index df = seq 0 (length (data df)).

(** [df.empty]: no rows or no columns. *)
Definition empty (df : DataFrame) : bool :=
  match index df, columns df with
  | [], _ | _, [] => true
  | _, _ => false
  end.

(** [c in df.columns] *)
Definition has_column (df : DataFrame) (c : string) : bool :=
  bool_decide (c ∈ columns df).

Definition column_pos (df : DataFrame) (c : string) : option nat :=
  fst <$> list_find (fun x => x = c) (columns df).

Definition cell (row : list value) (j : nat) : value :=
  default VNone (row !! j).

(** [df[c]] as the list of the column's cells; [KeyError] when [df] has
    no column [c]. *)
Definition getitem (df : DataFrame) (c : string) : result (list value) :=
  match column_pos df c with
  | Some j => Ok (map (fun row => cell row j) (data df))
  | None => Raise KeyError
  end.

(** [df[c].items()]: the pairs of a row label and the cell of column [c]. *)
Definition items (df : DataFrame) (c : string) : result (list (nat * value)) :=
  vs ← getitem df c; Ok (zip (index df) vs).

(** [df.loc[r, c]] *)
Definition loc (df : DataFrame) (r : nat) (c : string) : result value :=
  match list_find (fun x => x = r) (index df), column_pos df c with
  | Some (i, _), Some j =>
      match data df !! i with
      | Some row => Ok (cell row j)
      | None => Raise KeyError
      end
  | _, _ => Raise KeyError
  end.

(** [df.index[mask].tolist()] *)
Definition index_where (df : DataFrame) (mask : list bool) : list nat :=
  fst <$> List.filter snd (zip (index df) mask).

(** The cells of a row, one per column of the frame. *)
Definition cells (df : DataFrame) (row : list value) : list value :=
  map (cell row) (seq 0 (length (columns df))).

(** [df.isna().any(axis=1)] *)
Definition isna_any (df : DataFrame) : list bool :=
  map (fun row => existsb isna (cells df row)) (data df).

(** [df.isna().to_numpy().nonzero()]: the row and column positions of
    the null cells, row by row. *)
Definition isna_nonzero (df : DataFrame) : list (nat * nat) :=
  flat_map
    (fun '(r, row) =>
       (fun c => (r, c))
         <$> List.filter (fun c => isna (cell row c)) (seq 0 (length (columns df))))
    (zip (seq 0 (length (data df))) (data df)).

(** [df.columns[c]] *)
Definition column_name (df : DataFrame) (c : nat) : result string :=
  match columns df !! c with
  | Some name => Ok name
  | None => Raise IndexError
  end.

(** [duplicated(keep=False)] over a list of keys: a key is flagged when
    it occurs at least twice. *)
Definition duplicated {K : Type} (eqb : K -> K -> bool) (keys : list K) : list bool :=
  map (fun k => (2 <=? length (List.filter (eqb k) keys))%nat) keys.

(** Equality of two cells of a column for [DataFrame.duplicated], where
    all nulls of a column form one key. *)
Definition na_eqb (v w : value) : bool :=
  if isna v then isna w else negb (isna w) && value_eqb v w.

(** [df.duplicated(subset=[a, b], keep=False)] *)
Definition duplicated_subset (df : DataFrame) (a b : string) : result (list bool) :=
  xs ← getitem df a; ys ← getitem df b;
  Ok (duplicated (fun p q => na_eqb p.1 q.1 && na_eqb p.2 q.2) (zip xs ys)).

(** [s.dropna()] on the cells of a column. *)
Definition dropna (vs : list value) : list value :=
  List.filter (fun v => negb (isna v)) vs.

(** [df.drop(index=labels)]: a label that is not in the index raises
    [KeyError]; otherwise the rows with these labels are removed. *)
Definition drop (df : DataFrame) (labels : list nat) : result DataFrame :=
  if forallb (fun l => bool_decide (l ∈ index df)) labels then
    let kept := List.filter (fun '(r, _) => negb (bool_decide (r ∈ labels)))
                            (zip (index df) (data df)) in
    Ok {| columns := columns df; index := fst <$> kept; data := snd <$> kept |}
  else Raise KeyError.

(** [df.reset_index(drop=True)] *)
Definition reset_index (df : DataFrame) : DataFrame :=
  {| columns := columns df;
     index := seq 0 (length (data df));
     data := data df |}.

End Pd.

(** ** The ETL *)

Module Etl.
Import Py Pd.

(** One row of an exception report. *)
Record exception_record : Type := mkEx {
  row_index : nat;
  column : string;
  issue_type : string;
  details : string
}.

(** The four objects that [run_part2_etl] reads through the engine. *)
Record Engine : Type := mkEngine {
  Department_Information : ResultSet;
  Employee_Information : ResultSet;
  Student_Counceling_Information : ResultSet;
  Student_Performance_Data : ResultSet
}.

(** *** Department_Information checks *)

Definition dept_missing_body (dept : DataFrame) (dept_ex : list exception_record)
    (rc : nat * nat) : result (list exception_record) :=
  name ← column_name dept rc.2;
  Ok (dept_ex ++ [mkEx rc.1 name "Missing" "null value"]).

Definition dept_duplicate_body (dept : DataFrame) (col issue : string)
    (dept_ex : list exception_record) (r : nat) : result (list exception_record) :=
  v ← loc dept r col;
  Ok (dept_ex ++ [mkEx r col issue (col +:+ "=" +:+ py_str v)]).

Definition dept_duplicates (dept : DataFrame) (col issue : string)
    (dept_ex : list exception_record) : result (list exception_record) :=
  if has_column dept col then
    vs ← getitem dept col;
    for_each (dept_duplicate_body dept col issue)
             (index_where dept (duplicated value_eqb vs)) dept_ex
  else Ok dept_ex.

(** The [try] block of the DOE rule: whether the value is out of range. *)
Definition doe_out_of_range (v : value) : result bool :=
  if isna v then Ok true else i ← py_int v; Ok (i <? 1900).

Definition dept_doe_body (dept_ex : list exception_record) (rv : nat * value)
    : list exception_record :=
  match doe_out_of_range rv.2 with
  | Ok true =>
      dept_ex ++ [mkEx rv.1 "DOE" "Out-of-Range"
                       ("DOE=" +:+ py_str rv.2 +:+ " (must be >=1900)")]
  | Ok false => dept_ex
  | Raise _ =>
      dept_ex ++ [mkEx rv.1 "DOE" "Invalid Type"
                       ("DOE=" +:+ py_str rv.2 +:+ " (not integer)")]
  end.

Definition dept_doe (dept : DataFrame) (dept_ex : list exception_record)
    : result (list exception_record) :=
  if has_column dept "DOE" then
    its ← items dept "DOE"; Ok (foldl dept_doe_body dept_ex its)
  else Ok dept_ex.

Definition department_checks (dept : DataFrame) : result (list exception_record) :=
  if empty dept then Ok []
  else
    dept_ex ← for_each (dept_missing_body dept) (isna_nonzero dept) [];
    dept_ex ← dept_duplicates dept "Department_ID" "Duplicate Key" dept_ex;
    dept_ex ← dept_duplicates dept "Department_Name" "Duplicate Value" dept_ex;
    dept_doe dept dept_ex.

(** *** Student_Counceling_Information checks *)

Definition stud_missing_body (stud_ex : list exception_record) (rv : nat * value)
    : list exception_record :=
  if isna rv.2 || String.eqb (strip (py_str rv.2)) "" then
    stud_ex ++ [mkEx rv.1 "Department_Admission" "Missing"
                     "Department_Admission is required"]
  else stud_ex.

(** [set(dept["Department_ID"].dropna().astype(str))], or the empty set
    when the column is absent. *)
Definition department_ids (dept : DataFrame) : result (gset string) :=
  if has_column dept "Department_ID" then
    vs ← getitem dept "Department_ID";
    Ok (list_to_set (py_str <$> dropna vs))
  else Ok ∅.

Definition stud_fk_body (dept_ids : gset string) (stud_ex : list exception_record)
    (rv : nat * value) : list exception_record :=
  let s := strip (py_str rv.2) in
  if negb (String.eqb s "") && negb (bool_decide (dept_ids = ∅))
     && negb (bool_decide (s ∈ dept_ids)) then
    stud_ex ++ [mkEx rv.1 "Department_Admission" "FK Violation"
                     ("Department_Admission=" +:+ s
                      +:+ " not in Department_Information.Department_ID")]
  else stud_ex.

Definition counseling_checks (dept stud : DataFrame) : result (list exception_record) :=
  if negb (empty stud) && has_column stud "Department_Admission" then
    its ← items stud "Department_Admission";
    let stud_ex := foldl stud_missing_body [] its in
    dept_ids ← department_ids dept;
    its ← items stud "Department_Admission";
    Ok (foldl (stud_fk_body dept_ids) stud_ex its)
  else Ok [].

(** *** Student_Performance_Data checks *)

(** The two accumulators of the Performance block. *)
Record perf_state : Type := mkPerf {
  perf_ex : list exception_record;
  discard_idx : gset nat
}.

(** [perf_ex.append(e); discard_idx.add(r)] *)
Definition flag (st : perf_state) (e : exception_record) (r : nat) : perf_state :=
  {| perf_ex := perf_ex st ++ [e]; discard_idx := {[r]} ∪ discard_idx st |}.

Definition perf_missing_body (perf_ex : list exception_record) (r : nat)
    : list exception_record :=
  perf_ex ++ [mkEx r "(row)" "Missing" "Missing values in row"].

Definition perf_missing (perf : DataFrame) (st : perf_state) : perf_state :=
  let miss_rows := index_where perf (isna_any perf) in
  {| perf_ex := foldl perf_missing_body (perf_ex st) miss_rows;
     discard_idx := discard_idx st ∪ list_to_set miss_rows |}.

(** [0 <= f <= 100] *)
Definition marks_in_range (f : float) : bool :=
  float_le (float_of_Z 0) f && float_le f (float_of_Z 100).

Definition perf_marks_body (st : perf_state) (rv : nat * value) : perf_state :=
  match py_float rv.2 with
  | Ok f =>
      if negb (marks_in_range f) then
        flag st (mkEx rv.1 "Marks" "Out-of-Range"
                      ("Marks=" +:+ py_str rv.2 +:+ " not in [0,100]")) rv.1
      else st
  | Raise _ =>
      flag st (mkEx rv.1 "Marks" "Invalid Type"
                    ("Marks=" +:+ py_str rv.2 +:+ " not numeric")) rv.1
  end.

Definition perf_marks (perf : DataFrame) (st : perf_state) : result perf_state :=
  if has_column perf "Marks" then
    its ← items perf "Marks"; Ok (foldl perf_marks_body st its)
  else Ok st.

(** [isinstance(v, float) and not float(v).is_integer()] *)
Definition fractional (v : value) : bool :=
  match v with
  | VFloat f => negb (float_is_integer f)
  | _ => false
  end.

Definition perf_effort_body (st : perf_state) (rv : nat * value) : perf_state :=
  match py_int rv.2 with
  | Ok i =>
      if (i <? 0) || fractional rv.2 then
        flag st (mkEx rv.1 "Effort_Hours" "Out-of-Range"
                      ("Effort_Hours=" +:+ py_str rv.2 +:+ " must be integer >= 0")) rv.1
      else st
  | Raise _ =>
      flag st (mkEx rv.1 "Effort_Hours" "Invalid Type"
                    ("Effort_Hours=" +:+ py_str rv.2 +:+ " not integer")) rv.1
  end.

Definition perf_effort (perf : DataFrame) (st : perf_state) : result perf_state :=
  if has_column perf "Effort_Hours" then
    its ← items perf "Effort_Hours"; Ok (foldl perf_effort_body st its)
  else Ok st.

(** The pair is printed as a tuple, each member by its [repr]; a number
    prints as the Python number does. *)
Definition perf_pair_body (perf : DataFrame) (st : perf_state) (r : nat)
    : result perf_state :=
  a ← loc perf r "Student_ID";
  b ← loc perf r "Paper_ID";
  Ok {| perf_ex :=
          perf_ex st ++
            [mkEx r "Student_ID,Paper_ID" "Duplicate Pair"
                  ("(" +:+ py_repr a +:+ ", " +:+ py_repr b +:+ ") appears more than once")];
        discard_idx := discard_idx st |}.

Definition perf_pairs (perf : DataFrame) (st : perf_state) : result perf_state :=
  if has_column perf "Student_ID" && has_column perf "Paper_ID" then
    dup_pair ← duplicated_subset perf "Student_ID" "Paper_ID";
    for_each (perf_pair_body perf) (index_where perf dup_pair) st
  else Ok st.

Definition performance_checks (perf : DataFrame) : result perf_state :=
  let st := {| perf_ex := []; discard_idx := ∅ |} in
  if empty perf then Ok st
  else
    let st := perf_missing perf st in
    st ← perf_marks perf st;
    st ← perf_effort perf st;
    perf_pairs perf st.

(** [sorted(discard_idx)] *)
Definition sorted (s : gset nat) : list nat := merge_sort Nat.le (elements s).

(** [perf.drop(index=sorted(discard_idx)).reset_index(drop=True)] *)
Definition clean (perf : DataFrame) (discard_idx : gset nat) : result DataFrame :=
  reset_index <$> drop perf (sorted discard_idx).

(** *** The run

    What [run_part2_etl] computes before it writes anything out (up to
    line 146 of the source): the exception list of each dataset, the
    discard set and the cleaned Performance frame. [Ok o] says that the
    rule blocks and the cleaner returned these values, not that the call
    returns: the source goes on to write the reports and to read them
    back for the summary (lines 153-158), where [pd.read_csv] raises on
    a report that was written from an empty list. *)
Record outputs : Type := mkOutputs {
  dept_ex : list exception_record;
  emp_ex : list exception_record;
  stud_ex : list exception_record;
  perf_report : list exception_record;
  perf_discard : gset nat;
  perf_clean : DataFrame
}.

Definition run_part2_etl (engine : Engine) : result outputs :=
  let dept := read_sql (Department_Information engine) in
  let emp := read_sql (Employee_Information engine) in
  let stud := read_sql (Student_Counceling_Information engine) in
  let perf := read_sql (Student_Performance_Data engine) in
  dept_ex ← department_checks dept;
  stud_ex ← counseling_checks dept stud;
  st ← performance_checks perf;
  perf_clean ← clean perf (discard_idx st);
  Ok {| dept_ex := dept_ex;
        emp_ex := [];
        stud_ex := stud_ex;
        perf_report := perf_ex st;
        perf_discard := discard_idx st;
        perf_clean := perf_clean |}.

(** *** The rules, one row at a time

    What each loop body has to say about one item of its column: the
    exception record it appends, if any. *)

Definition column_items (df : DataFrame) (c : string) : list (nat * value) :=
  match items df c with
  | Ok its => its
  | Raise _ => []
  end.

Definition doe_verdict (rv : nat * value) : option exception_record :=
  match doe_out_of_range rv.2 with
  | Ok true =>
      Some (mkEx rv.1 "DOE" "Out-of-Range" ("DOE=" +:+ py_str rv.2 +:+ " (must be >=1900)"))
  | Ok false => None
  | Raise _ =>
      Some (mkEx rv.1 "DOE" "Invalid Type" ("DOE=" +:+ py_str rv.2 +:+ " (not integer)"))
  end.

Definition stud_missing_verdict (rv : nat * value) : option exception_record :=
  if isna rv.2 || String.eqb (strip (py_str rv.2)) "" then
    Some (mkEx rv.1 "Department_Admission" "Missing" "Department_Admission is required")
  else None.

Definition stud_fk_verdict (dept_ids : gset string) (rv : nat * value)
    : option exception_record :=
  let s := strip (py_str rv.2) in
  if negb (String.eqb s "") && negb (bool_decide (dept_ids = ∅))
     && negb (bool_decide (s ∈ dept_ids)) then
    Some (mkEx rv.1 "Department_Admission" "FK Violation"
               ("Department_Admission=" +:+ s
                +:+ " not in Department_Information.Department_ID"))
  else None.

Definition marks_verdict (rv : nat * value) : option exception_record :=
  match py_float rv.2 with
  | Ok f =>
      if negb (marks_in_range f) then
        Some (mkEx rv.1 "Marks" "Out-of-Range" ("Marks=" +:+ py_str rv.2 +:+ " not in [0,100]"))
      else None
  | Raise _ =>
      Some (mkEx rv.1 "Marks" "Invalid Type" ("Marks=" +:+ py_str rv.2 +:+ " not numeric"))
  end.

Definition effort_verdict (rv : nat * value) : option exception_record :=
  match py_int rv.2 with
  | Ok i =>
      if (i <? 0) || fractional rv.2 then
        Some (mkEx rv.1 "Effort_Hours" "Out-of-Range"
                   ("Effort_Hours=" +:+ py_str rv.2 +:+ " must be integer >= 0"))
      else None
  | Raise _ =>
      Some (mkEx rv.1 "Effort_Hours" "Invalid Type"
                 ("Effort_Hours=" +:+ py_str rv.2 +:+ " not integer"))
  end.

(** The rows with a null cell, [miss_rows] in the source. *)
Definition miss_rows (perf : DataFrame) : list nat :=
  index_where perf (isna_any perf).

(** The shape of the record that the Duplicate Pair rule appends for
    row [r]. *)
Definition pair_record (r : nat) (e : exception_record) : Prop :=
  row_index e = r /\ column e = "Student_ID,Paper_ID" /\ issue_type e = "Duplicate Pair".

(** The rows that the Duplicate Pair rule visits. *)
Definition pair_rows (perf : DataFrame) : list nat :=
  if has_column perf "Student_ID" && has_column perf "Paper_ID" then
    match duplicated_subset perf "Student_ID" "Paper_ID" with
    | Ok mask => index_where perf mask
    | Raise _ => []
    end
  else [].

(** A row is disqualified when it has a null cell or when the Marks or
    the Effort_Hours rule appends a record for it. *)
Definition disqualified (perf : DataFrame) (r : nat) : Prop :=
  r ∈ miss_rows perf
  \/ (exists v, (r, v) ∈ column_items perf "Marks" /\ is_Some (marks_verdict (r, v)))
  \/ (exists v, (r, v) ∈ column_items perf "Effort_Hours" /\ is_Some (effort_verdict (r, v))).

(** *** Reading a report *)

(** Whether a report holds a record for row [r] on column [col] with the
    issue type [issue]. *)
Definition recorded (report : list exception_record) (r : nat) (col issue : string) : bool :=
  existsb (fun e => Nat.eqb (row_index e) r && String.eqb (column e) col
                    && String.eqb (issue_type e) issue) report.

(** A Marks cell that converts to a float within [[0, 100]]. *)
Definition marks_valid (v : value) : Prop :=
  exists f, py_float v = Ok f /\ marks_in_range f = true.

(** An Effort_Hours cell that converts to a whole number that is not
    negative, without a fractional part being cut off. *)
Definition effort_valid (v : value) : Prop :=
  exists i, py_int v = Ok i /\ (0 <= i)%Z /\ fractional v = false.

(** *** Sample inputs *)

Definition no_rows : ResultSet := mkResultSet [] [].

Definition dept_header : list string := ["Department_ID"; "Department_Name"; "DOE"].
Definition stud_header : list string := ["Student_ID"; "Department_Admission"].
Definition perf_header : list string := ["Student_ID"; "Paper_ID"; "Marks"; "Effort_Hours"].

Definition performance_only (rows : list (list value)) : Engine :=
  mkEngine no_rows no_rows no_rows (mkResultSet perf_header rows).

Definition three_departments : ResultSet :=
  mkResultSet dept_header
    [[VInt 1; VStr "CS"; VInt 2000]; [VInt 2; VStr "EE"; VInt 1990];
     [VInt 3; VStr "ME"; VInt 1985]].

(** Scenario A of the specification. *)
Definition duplicate_key_run : Engine :=
  mkEngine (mkResultSet dept_header
              [[VInt 1; VStr "CS"; VInt 2000]; [VInt 1; VStr "EE"; VInt 1990]])
           no_rows no_rows no_rows.

(** Scenario B of the specification. *)
Definition high_marks_run : Engine :=
  performance_only [[VInt 5; VInt 9; VInt 150; VInt 3]].

(** Scenario E of the specification. *)
Definition unknown_admission_run : Engine :=
  mkEngine three_departments no_rows
           (mkResultSet stud_header [[VInt 8; VStr "99"]]) no_rows.

(** One valid Performance row. *)
Definition valid_run : Engine :=
  performance_only [[VInt 5; VInt 9; VInt 80; VInt 3]].

(** Two valid Performance rows with the same (Student_ID, Paper_ID). *)
Definition duplicate_pair_run : Engine :=
  performance_only [[VInt 5; VInt 9; VInt 80; VInt 3]; [VInt 5; VInt 9; VInt 70; VInt 2]].

(** Scenario C of the specification. *)
Definition text_marks_run : Engine :=
  performance_only [[VInt 5; VInt 9; VStr "abc"; VInt 3]].

(** A Performance row whose Marks cell is NaN. *)
Definition nan_marks_run : Engine :=
  performance_only [[VInt 5; VInt 9; VFloat S754_nan; VInt 3]].

(** A Department row whose DOE is NULL. *)
Definition null_doe_run : Engine :=
  mkEngine (mkResultSet dept_header [[VInt 1; VStr "CS"; VNone]]) no_rows no_rows no_rows.

(** Scenario D of the specification. *)
Definition blank_admission_run : Engine :=
  mkEngine three_departments no_rows
           (mkResultSet stud_header [[VInt 7; VStr ""]]) no_rows.

(** A Counseling row whose Department_Admission is NULL. *)
Definition null_admission_run : Engine :=
  mkEngine three_departments no_rows
           (mkResultSet stud_header [[VInt 7; VNone]]) no_rows.

(** A department whose key is the text [nan], and a Counseling row whose
    Department_Admission is NaN. *)
Definition nan_key_run : Engine :=
  mkEngine (mkResultSet dept_header [[VStr "nan"; VStr "CS"; VInt 2000]]) no_rows
           (mkResultSet stud_header [[VInt 7; VFloat S754_nan]]) no_rows.

End Etl.

(** ** Reading the rules off the input

    What the rules of [run_part2_etl] look at, said on the frames they
    read. *)

Module Rules.
Import Py Pd Etl.

(** The rows that [duplicated(keep=False)] flags in column [col], which
    a duplicate rule of the Department block visits. *)
Definition dup_rows (dept : DataFrame) (col : string) : list nat :=
  if has_column dept col then
    match getitem dept col with
    | Ok vs => index_where dept (duplicated value_eqb vs)
    | Raise _ => []
    end
  else [].

(** A row with a null in one of the cells of the frame's columns. *)
Definition has_null (df : DataFrame) (row : list value) : bool :=
  existsb isna (cells df row).

(** The shape of the record that a Department rule appends for the null
    cell at row and column position [rc]. *)
Definition missing_record (dept : DataFrame) (rc : nat * nat) (e : exception_record) : Prop :=
  row_index e = rc.1 /\ columns dept !! rc.2 = Some (column e) /\ issue_type e = "Missing".

(** The shape of the record of a rule that names its column and issue. *)
Definition rule_record (col issue : string) (r : nat) (e : exception_record) : Prop :=
  row_index e = r /\ column e = col /\ issue_type e = issue.

(** The issue types that each report can hold. *)
Definition dept_issues : list string :=
  ["Missing"; "Duplicate Key"; "Duplicate Value"; "Out-of-Range"; "Invalid Type"].
Definition stud_issues : list string := ["Missing"; "FK Violation"].
Definition perf_issues : list string :=
  ["Missing"; "Out-of-Range"; "Invalid Type"; "Duplicate Pair"].

(** A non-null Department_ID cell of the Department frame. *)
Definition department_key (dept : DataFrame) (w : value) : Prop :=
  isna w = false /\ exists r, (r, w) ∈ column_items dept "Department_ID".

(** The order in which [isna_nonzero] lists the null cells: by row, then
    by column. *)
Definition cell_lt (p q : nat * nat) : Prop :=
  (p.1 < q.1)%nat \/ (p.1 = q.1 /\ (p.2 < q.2)%nat).

(** The records of a list are on rows of strictly increasing index. *)
Definition in_row_order (es : list exception_record) : Prop :=
  StronglySorted lt (row_index <$> es).

(** Two rows of a frame whose cells in column [c] are the same key. *)
Definition shares_value (df : DataFrame) (c : string) (r r' : nat) : Prop :=
  exists v v', (r, v) ∈ column_items df c /\ (r', v') ∈ column_items df c
               /\ r' <> r /\ value_eqb v v' = true.

(** Two rows of a frame with the same Student_ID and the same Paper_ID,
    two nulls counting as the same. *)
Definition same_pair (perf : DataFrame) (r r' : nat) : Prop :=
  exists a b a' b',
    (r, a) ∈ column_items perf "Student_ID" /\ (r, b) ∈ column_items perf "Paper_ID"
    /\ (r', a') ∈ column_items perf "Student_ID"
    /\ (r', b') ∈ column_items perf "Paper_ID"
    /\ r' <> r /\ na_eqb a a' = true /\ na_eqb b b' = true.

(** *** The specification's readings of a cell

    What the specification says of a cell, said on the cell itself and
    not through the tests of the rules. *)

(** The number that the float [f] stands for, [m * 2^e], lies between 0
    and 100; the two powers clear the denominator. *)
Definition between_0_and_100 (f : float) : Prop :=
  match f with
  | S754_zero _ => True
  | S754_finite false m e => (Z.pos m * 2 ^ Z.max e 0 <= 100 * 2 ^ Z.max (- e) 0)%Z
  | _ => False
  end.

(** [0 <= Marks <= 100]: the cell converts to a float [f] for which
    Python's [0 <= f] and [f <= 100] hold, and the number that a
    well-formed [f] stands for lies between 0 and 100. *)
Definition marks_within_0_100 (v : value) : Prop :=
  exists f, py_float v = Ok f
    /\ float_le (float_of_Z 0) f = true /\ float_le f (float_of_Z 100) = true
    /\ (valid_binary prec emax f = true -> between_0_and_100 f).

(** [Effort_Hours >= 0] and whole: the cell converts to an integer
    [i >= 0], and a float cell [m * 2^e] is that integer exactly. *)
Definition whole_hours (v : value) : Prop :=
  exists i, py_int v = Ok i /\ (0 <= i)%Z
    /\ forall s m e, v = VFloat (S754_finite s m e) ->
         s = false /\ (Z.pos m * 2 ^ Z.max e 0 = i * 2 ^ Z.max (- e) 0)%Z.

(** The characters of a string. *)
Definition chars (s : string) : list ascii := list_ascii_of_string s.

(** [t] is the trimmed value of [s]: [s] is [t] between two runs of
    whitespace, and [t] neither begins nor ends with whitespace. *)
Definition trims_to (s t : string) : Prop :=
  exists l r, s = l +:+ t +:+ r
    /\ forallb isspace (chars l) = true
    /\ forallb isspace (chars r) = true
    /\ (forall a, head (chars t) = Some a -> isspace a = false)
    /\ (forall a, last (chars t) = Some a -> isspace a = false).

(** *** More sample inputs *)

(** Five Performance rows: a valid one, Marks 150, 2.5 hours, -1 hours,
    and a valid one with float cells (Marks 99.5, 4.0 hours). *)
Definition mixed_run : Engine :=
  performance_only
    [[VInt 5; VInt 9; VInt 80; VInt 3];
     [VInt 6; VInt 9; VInt 150; VInt 3];
     [VInt 7; VInt 9; VInt 70; VFloat (float_of_decimal false 25 (-1))];
     [VInt 8; VInt 9; VInt 60; VInt (-1)];
     [VInt 9; VInt 9; VFloat (float_of_decimal false 995 (-1)); VFloat (float_of_Z 4)]].

(** Counseling rows whose Department_Admission is blank, [ 99 ] and
    [ 2 ] between spaces, and empty, with the Department keys 1, 2, 3. *)
Definition padded_admission_run : Engine :=
  mkEngine three_departments no_rows
           (mkResultSet stud_header
              [[VInt 7; VStr "  "]; [VInt 8; VStr " 99 "]; [VInt 9; VStr " 2 "];
               [VInt 10; VStr ""]])
           no_rows.

(** A Performance row whose Effort_Hours is the float 2.5. *)
Definition half_hour_run : Engine :=
  performance_only [[VInt 5; VInt 9; VInt 80; VFloat (float_of_decimal false 25 (-1))]].

End Rules.

(** ** Facts about results and frames *)

Module PdFacts.
Import Py Pd.
Local Open Scope nat_scope.

Lemma bind_Ok {A B : Type} (m : result A) (k : A -> result B) (b : B) :
  bind m k = Ok b <-> exists a, m = Ok a /\ k a = Ok b.
Proof.
  destruct m as [a|e]; simpl; split.
  - intros H. exists a. split; [reflexivity | exact H].
  - intros (a' & Ha & Hk). congruence.
  - discriminate.
  - intros (a' & Ha & _). discriminate.
Qed.

Lemma has_column_true (df : DataFrame) (c : string) :
  has_column df c = true <-> c ∈ columns df.
Proof. unfold has_column. apply bool_decide_eq_true. Qed.

Lemma has_column_false (df : DataFrame) (c : string) :
  has_column df c = false <-> c ∉ columns df.
Proof. unfold has_column. apply bool_decide_eq_false. Qed.

Lemma column_pos_Some (df : DataFrame) (c : string) :
  c ∈ columns df ->
  exists j, column_pos df c = Some j /\ columns df !! j = Some c.
Proof.
  intros Hc. unfold column_pos.
  destruct (list_find_elem_of (fun x => x = c) (columns df) c Hc eq_refl) as [[j x] Hfind].
  rewrite Hfind. exists j. split; [reflexivity|].
  apply list_find_Some in Hfind as (Hj & -> & _). exact Hj.
Qed.

Lemma column_pos_lookup (df : DataFrame) (c : string) (j : nat) :
  column_pos df c = Some j -> columns df !! j = Some c.
Proof.
  unfold column_pos. intros H.
  destruct (list_find _ _) as [[j' x]|] eqn:Hfind; simplify_eq/=.
  apply list_find_Some in Hfind as (Hj & -> & _). exact Hj.
Qed.

Lemma getitem_Ok (df : DataFrame) (c : string) :
  c ∈ columns df ->
  exists j, column_pos df c = Some j /\ columns df !! j = Some c /\
            getitem df c = Ok (map (fun row => cell row j) (data df)).
Proof.
  intros Hc. destruct (column_pos_Some df c Hc) as (j & Hj & Hcol).
  exists j. unfold getitem. by rewrite Hj.
Qed.

Lemma getitem_inv (df : DataFrame) (c : string) (vs : list value) :
  getitem df c = Ok vs ->
  exists j, column_pos df c = Some j /\ columns df !! j = Some c /\
            vs = map (fun row => cell row j) (data df).
Proof.
  unfold getitem. destruct (column_pos df c) as [j|] eqn:Hj; [|discriminate].
  intros [= <-]. exists j. eauto using column_pos_lookup.
Qed.

Lemma items_Ok (df : DataFrame) (c : string) :
  c ∈ columns df ->
  exists j, column_pos df c = Some j /\ columns df !! j = Some c /\
            items df c = Ok (zip (index df) (map (fun row => cell row j) (data df))).
Proof.
  intros Hc. destruct (getitem_Ok df c Hc) as (j & Hj & Hcol & Hget).
  exists j. unfold items. by rewrite Hget.
Qed.

Lemma items_inv (df : DataFrame) (c : string) (its : list (nat * value)) :
  items df c = Ok its ->
  exists j, column_pos df c = Some j /\ columns df !! j = Some c /\
            its = zip (index df) (map (fun row => cell row j) (data df)).
Proof.
  unfold items. intros H. apply bind_Ok in H as (vs & Hget & [= <-]).
  apply getitem_inv in Hget as (j & Hj & Hcol & ->). eauto.
Qed.

Lemma elem_of_zip_seq {A : Type} (n r : nat) (vs : list A) (v : A) :
  (r, v) ∈ zip (seq 0 n) vs <-> r < n /\ vs !! r = Some v.
Proof.
  rewrite elem_of_lookup_zip_with. split.
  - intros (i & r' & v' & [= <- <-] & Hr & Hv).
    apply lookup_seq in Hr as [-> Hlt]. done.
  - intros [Hlt Hv]. exists r, r, v. split; [reflexivity|]. split; [|exact Hv].
    by apply lookup_seq.
Qed.

(** *** Dropping rows *)

Section Dropping.
Context {A : Type}.
Variable keep : nat -> bool.

Lemma filter_zip_seq_fst (a : nat) (rows : list A) :
  (List.filter (fun '(r, _) => keep r) (zip (seq a (length rows)) rows)).*1
  = List.filter keep (seq a (length rows)).
Proof.
  revert a. induction rows as [|row rows IH]; intros a; simpl; [reflexivity|].
  destruct (keep a); simpl; by rewrite IH.
Qed.

Lemma filter_zip_seq_rows (rows : list A) :
  Forall2 (fun i row => rows !! i = Some row)
    (List.filter (fun '(r, _) => keep r) (zip (seq 0 (length rows)) rows)).*1
    (List.filter (fun '(r, _) => keep r) (zip (seq 0 (length rows)) rows)).*2.
Proof.
  set (l := List.filter _ _).
  assert (Hl : Forall (fun p => rows !! p.1 = Some p.2) l).
  { apply Forall_forall. intros [i row] Hin.
    apply list_elem_of_In, filter_In in Hin as [Hin _].
    apply list_elem_of_In, elem_of_zip_seq in Hin as [_ Hrow]. exact Hrow. }
  clearbody l. induction Hl as [|[i row] l Hrow _ IH]; simpl; constructor; done.
Qed.

Lemma filter_seq_sorted (a n : nat) :
  StronglySorted lt (List.filter keep (seq a n)).
Proof.
  revert a. induction n as [|n IH]; intros a; simpl; [constructor|].
  destruct (keep a); [|apply IH].
  constructor; [apply IH|].
  apply Forall_forall. intros i Hi.
  apply list_elem_of_In, filter_In in Hi as [Hi _]. apply in_seq in Hi. lia.
Qed.

Lemma length_filter_split (l : list nat) :
  length (List.filter keep l) + length (List.filter (fun r => negb (keep r)) l)
  = length l.
Proof.
  induction l as [|x l IH]; simpl; [reflexivity|].
  destruct (keep x); simpl; lia.
Qed.
End Dropping.

Lemma elem_of_sorted (D : gset nat) (r : nat) :
  r ∈ merge_sort Nat.le (elements D) <-> r ∈ D.
Proof. by rewrite merge_sort_Permutation, elem_of_elements. Qed.

(** The rows that [drop] removes are as many as the labels, when each
    label is a row position. *)
Lemma length_dropped (D : gset nat) (n : nat) :
  (forall r, r ∈ D -> r < n) ->
  length (List.filter (fun r => negb (negb (bool_decide (r ∈ D)))) (seq 0 n)) = size D.
Proof.
  intros HD. unfold size, set_size. simpl.
  apply Permutation_length, NoDup_Permutation.
  - apply NoDup_ListNoDup, List.NoDup_filter, NoDup_ListNoDup, NoDup_seq.
  - apply NoDup_elements.
  - intros r. rewrite elem_of_elements, list_elem_of_In, filter_In, in_seq.
    rewrite negb_involutive, bool_decide_eq_true. split; [tauto|].
    intros Hr. specialize (HD r Hr). split; [lia | exact Hr].
Qed.

End PdFacts.

(** ** Facts about the rule blocks *)

Module EtlFacts.
Import Py Pd Etl PdFacts.
Local Open Scope nat_scope.

Lemma dept_doe_body_verdict ex rv :
  dept_doe_body ex rv = ex ++ option_list (doe_verdict rv).
Proof.
  unfold dept_doe_body, doe_verdict.
  destruct (doe_out_of_range rv.2) as [[|]|]; simpl; by rewrite ?app_nil_r.
Qed.

Lemma stud_missing_body_verdict ex rv :
  stud_missing_body ex rv = ex ++ option_list (stud_missing_verdict rv).
Proof.
  unfold stud_missing_body, stud_missing_verdict.
  destruct (_ || _); simpl; by rewrite ?app_nil_r.
Qed.

Lemma stud_fk_body_verdict ids ex rv :
  stud_fk_body ids ex rv = ex ++ option_list (stud_fk_verdict ids rv).
Proof.
  unfold stud_fk_body, stud_fk_verdict.
  destruct (_ && _); simpl; by rewrite ?app_nil_r.
Qed.

Lemma perf_marks_body_verdict st rv :
  perf_marks_body st rv
  = match marks_verdict rv with Some e => flag st e rv.1 | None => st end.
Proof.
  unfold perf_marks_body, marks_verdict.
  destruct (py_float rv.2) as [f|]; [destruct (negb _)|]; reflexivity.
Qed.

Lemma perf_effort_body_verdict st rv :
  perf_effort_body st rv
  = match effort_verdict rv with Some e => flag st e rv.1 | None => st end.
Proof.
  unfold perf_effort_body, effort_verdict.
  destruct (py_int rv.2) as [i|]; [destruct (_ || _)|]; reflexivity.
Qed.

(** A fold that appends the verdicts. *)
Lemma foldl_verdict {A E : Type} (verdict : A -> option E) (body : list E -> A -> list E) :
  (forall ex x, body ex x = ex ++ option_list (verdict x)) ->
  forall l ex, foldl body ex l = ex ++ omap verdict l.
Proof.
  intros Hbody l. induction l as [|x l IH]; intros ex; simpl.
  - by rewrite app_nil_r.
  - rewrite IH, Hbody. destruct (verdict x); simpl; by rewrite <- app_assoc.
Qed.

(** A loop that flags the rows its verdict names. *)
Section Flagging.
Variable verdict : nat * value -> option exception_record.
Variable body : perf_state -> nat * value -> perf_state.
Hypothesis body_verdict : forall st rv,
  body st rv = match verdict rv with Some e => flag st e rv.1 | None => st end.

Lemma foldl_flag_ex (its : list (nat * value)) (st : perf_state) :
  perf_ex (foldl body st its) = perf_ex st ++ omap verdict its.
Proof.
  revert st. induction its as [|rv its IH]; intros st; simpl.
  - by rewrite app_nil_r.
  - rewrite IH, body_verdict.
    destruct (verdict rv); simpl; by rewrite <- ?app_assoc.
Qed.

Lemma foldl_flag_idx (its : list (nat * value)) (st : perf_state) (r : nat) :
  r ∈ discard_idx (foldl body st its)
  <-> r ∈ discard_idx st \/ exists v, (r, v) ∈ its /\ is_Some (verdict (r, v)).
Proof.
  revert st. induction its as [|[r' v'] its IH]; intros st; simpl.
  - split; [by left|]. intros [H|(v & H & _)]; [done|]. by apply elem_of_nil in H.
  - rewrite IH, body_verdict. setoid_rewrite elem_of_cons.
    destruct (verdict (r', v')) as [e|] eqn:Hv; simpl.
    + rewrite elem_of_union, elem_of_singleton. split.
      * intros [[->|H]|(v & H & Hs)]; [right|by left|right].
        -- exists v'. split; [by left|]. by rewrite Hv.
        -- exists v. split; [by right|done].
      * intros [H|(v & [[= -> ->]|H] & Hs)]; [by left; right|by left; left|].
        right. by exists v.
    + split.
      * intros [H|(v & H & Hs)]; [by left|]. right. exists v. split; [by right|done].
      * intros [H|(v & [[= -> ->]|H] & Hs)]; [by left| |].
        -- rewrite Hv in Hs. by destruct Hs.
        -- right. by exists v.
Qed.
End Flagging.

(** A loop whose body adds one element per item to an accumulator. *)
Lemma for_each_collect {A S E : Type} (add : S -> E -> S) (Q : A -> E -> Prop)
    (body : S -> A -> result S) (l : list A) :
  (forall s x, x ∈ l -> exists e, body s x = Ok (add s e) /\ Q x e) ->
  forall s, exists es, for_each body l s = Ok (foldl add s es) /\ Forall2 Q l es.
Proof.
  induction l as [|x l IH]; intros Hbody s; simpl.
  - exists []. split; [reflexivity | constructor].
  - destruct (Hbody s x) as (e & -> & HQ); [by left|]. simpl.
    destruct (IH (fun s' y Hy => Hbody s' y (list_elem_of_further _ _ _ Hy)) (add s e))
      as (es & -> & HQs).
    exists (e :: es). split; [reflexivity | by constructor].
Qed.

Lemma foldl_snoc {E : Type} (es acc : list E) :
  foldl (fun acc e => acc ++ [e]) acc es = acc ++ es.
Proof.
  revert acc. induction es as [|e es IH]; intros acc; simpl.
  - by rewrite app_nil_r.
  - rewrite IH. by rewrite <- app_assoc.
Qed.

(** *** Columns and items *)

Lemma read_sql_range_index (t : ResultSet) : range_index (read_sql t).
Proof. reflexivity. Qed.

Lemma items_column_items (df : DataFrame) (c : string) :
  c ∈ columns df -> items df c = Ok (column_items df c).
Proof.
  intros Hc. unfold column_items.
  destruct (items_Ok df c Hc) as (j & _ & _ & ->). reflexivity.
Qed.

Lemma column_items_absent (df : DataFrame) (c : string) :
  c ∉ columns df -> column_items df c = [].
Proof.
  intros Hc. unfold column_items.
  destruct (items df c) as [its|] eqn:Hits; [|reflexivity].
  apply items_inv in Hits as (j & _ & Hcol & _).
  exfalso. apply Hc. by eapply list_elem_of_lookup_2.
Qed.

(** The items of a column of a range-indexed frame: one per row, at the
    row's position. *)
Lemma elem_of_column_items (df : DataFrame) (c : string) (r : nat) (v : value) :
  range_index df ->
  (r, v) ∈ column_items df c
  <-> exists j row, column_pos df c = Some j /\ data df !! r = Some row /\ v = cell row j.
Proof.
  intros Hidx. unfold column_items. destruct (items df c) as [its|] eqn:Hits.
  - apply items_inv in Hits as (j & Hj & _ & ->). rewrite Hidx, elem_of_zip_seq.
    rewrite list_lookup_fmap. split.
    + intros [_ Hv]. destruct (data df !! r) as [row|]; simplify_eq/=. eauto.
    + intros (j' & row & Hj' & Hrow & ->). simplify_eq. rewrite Hrow. split; [|done].
      by eapply lookup_lt_Some.
  - split; [intros H; by apply elem_of_nil in H|].
    intros (j & row & Hj & _). unfold items, getitem in Hits. by rewrite Hj in Hits.
Qed.

Lemma column_items_functional (df : DataFrame) (c : string) (r : nat) (v w : value) :
  range_index df ->
  (r, v) ∈ column_items df c -> (r, w) ∈ column_items df c -> v = w.
Proof.
  intros Hidx Hv Hw.
  apply elem_of_column_items in Hv as (j & row & Hj & Hrow & ->); [|done].
  apply elem_of_column_items in Hw as (j' & row' & Hj' & Hrow' & ->); [|done].
  congruence.
Qed.

Lemma column_items_label (df : DataFrame) (c : string) (r : nat) (v : value) :
  (r, v) ∈ column_items df c -> r ∈ index df.
Proof.
  unfold column_items. destruct (items df c) as [its|] eqn:Hits.
  - apply items_inv in Hits as (j & _ & _ & ->). apply elem_of_zip_l.
  - intros H. by apply elem_of_nil in H.
Qed.

Lemma index_where_label (df : DataFrame) (mask : list bool) (r : nat) :
  r ∈ index_where df mask -> r ∈ index df.
Proof.
  unfold index_where. intros H.
  apply list_elem_of_fmap in H as ([r' b] & -> & H).
  apply list_elem_of_In, filter_In in H as [H _].
  apply list_elem_of_In in H. by eapply elem_of_zip_l.
Qed.

Lemma loc_Ok (df : DataFrame) (r : nat) (c : string) :
  range_index df -> r ∈ index df -> c ∈ columns df ->
  exists v, loc df r c = Ok v.
Proof.
  intros Hidx Hr Hc. unfold loc.
  destruct (list_find_elem_of (fun x => x = r) (index df) r Hr eq_refl) as [[i x] Hfind].
  rewrite Hfind. apply list_find_Some in Hfind as (Hi & _ & _).
  destruct (column_pos_Some df c Hc) as (j & -> & _).
  apply lookup_lt_Some in Hi. rewrite Hidx, length_seq in Hi.
  destruct (lookup_lt_is_Some_2 (data df) i Hi) as [row ->]. eauto.
Qed.

(** *** The Performance block *)

Lemma perf_marks_eq (perf : DataFrame) (st : perf_state) :
  perf_marks perf st = Ok (foldl perf_marks_body st (column_items perf "Marks")).
Proof.
  unfold perf_marks. destruct (has_column perf "Marks") eqn:Hc.
  - apply has_column_true in Hc. by rewrite (items_column_items _ _ Hc).
  - apply has_column_false in Hc. by rewrite (column_items_absent _ _ Hc).
Qed.

Lemma perf_effort_eq (perf : DataFrame) (st : perf_state) :
  perf_effort perf st = Ok (foldl perf_effort_body st (column_items perf "Effort_Hours")).
Proof.
  unfold perf_effort. destruct (has_column perf "Effort_Hours") eqn:Hc.
  - apply has_column_true in Hc. by rewrite (items_column_items _ _ Hc).
  - apply has_column_false in Hc. by rewrite (column_items_absent _ _ Hc).
Qed.

Lemma perf_missing_ex (perf : DataFrame) (st : perf_state) :
  perf_ex (perf_missing perf st)
  = perf_ex st
    ++ ((fun r => mkEx r "(row)" "Missing" "Missing values in row") <$> miss_rows perf).
Proof.
  unfold perf_missing, miss_rows. simpl.
  generalize (index_where perf (isna_any perf)) (perf_ex st).
  intros l. induction l as [|r l IH]; intros ex; simpl.
  - by rewrite app_nil_r.
  - rewrite IH. unfold perf_missing_body. by rewrite <- app_assoc.
Qed.

Lemma perf_pairs_spec (perf : DataFrame) (st : perf_state) :
  range_index perf ->
  exists es,
    perf_pairs perf st
    = Ok {| perf_ex := perf_ex st ++ es; discard_idx := discard_idx st |}
    /\ Forall2 pair_record (pair_rows perf) es.
Proof.
  intros Hidx. unfold perf_pairs, pair_rows.
  destruct (has_column perf "Student_ID") eqn:Ha; simpl;
    [destruct (has_column perf "Paper_ID") eqn:Hb; simpl|].
  - apply has_column_true in Ha, Hb.
    destruct (getitem_Ok perf _ Ha) as (ja & _ & _ & Hga).
    destruct (getitem_Ok perf _ Hb) as (jb & _ & _ & Hgb).
    unfold duplicated_subset. rewrite Hga, Hgb. simpl.
    match goal with |- context [index_where perf ?m] => generalize m end. intros mask.
    assert (Hbody : forall s r, r ∈ index_where perf mask ->
              exists e, perf_pair_body perf s r
                        = Ok {| perf_ex := perf_ex s ++ [e]; discard_idx := discard_idx s |}
                        /\ pair_record r e).
    { intros s r Hr. apply index_where_label in Hr.
      destruct (loc_Ok perf r "Student_ID" Hidx Hr Ha) as [a Hla].
      destruct (loc_Ok perf r "Paper_ID" Hidx Hr Hb) as [b Hlb].
      unfold perf_pair_body. rewrite Hla, Hlb. simpl. eexists. split; [reflexivity|].
      by repeat split. }
    destruct (for_each_collect _ _ _ _ Hbody st) as (es & Hes & HQ).
    exists es. split; [|exact HQ]. rewrite Hes. f_equal.
    clear. revert st. induction es as [|e es IH]; intros st; simpl.
    + rewrite app_nil_r. by destruct st.
    + rewrite IH. simpl. by rewrite <- app_assoc.
  - exists []. rewrite app_nil_r. split; [by destruct st | constructor].
  - exists []. rewrite app_nil_r. split; [by destruct st | constructor].
Qed.

Lemma index_where_false (df : DataFrame) (mask : list bool) :
  Forall (fun b => b = false) mask -> index_where df mask = [].
Proof.
  unfold index_where. intros Hmask. generalize (index df).
  induction Hmask as [|b mask -> _ IH]; intros [|r l]; simpl; try reflexivity.
  apply IH.
Qed.

Lemma empty_miss_rows (perf : DataFrame) : empty perf = true -> miss_rows perf = [].
Proof.
  unfold empty, miss_rows. intros He.
  destruct (index perf) as [|r idx] eqn:Hi.
  - unfold index_where. by rewrite Hi.
  - destruct (columns perf) as [|c cs] eqn:Hc; [|discriminate].
    apply index_where_false, Forall_forall. intros b Hb.
    unfold isna_any, cells in Hb. rewrite Hc in Hb.
    apply list_elem_of_fmap in Hb as (row & -> & _). reflexivity.
Qed.

Lemma empty_column_items (perf : DataFrame) (c : string) :
  empty perf = true -> column_items perf c = [].
Proof.
  unfold empty. intros He. unfold column_items.
  destruct (items perf c) as [its|] eqn:Hits; [|reflexivity].
  apply items_inv in Hits as (j & _ & Hcol & ->).
  destruct (index perf); [reflexivity|].
  destruct (columns perf); [|discriminate]. by rewrite lookup_nil in Hcol.
Qed.

Lemma empty_pair_rows (perf : DataFrame) : empty perf = true -> pair_rows perf = [].
Proof.
  unfold empty, pair_rows. intros He.
  destruct (has_column perf "Student_ID") eqn:Ha; [|reflexivity]. simpl.
  destruct (has_column perf "Paper_ID") eqn:Hb; [|reflexivity].
  destruct (duplicated_subset _ _ _) as [mask|]; [|reflexivity].
  unfold index_where. destruct (index perf); [reflexivity|].
  apply has_column_true in Ha. destruct (columns perf); [|discriminate].
  by apply elem_of_nil in Ha.
Qed.

(** What the Performance block returns: the records of the four rules in
    order, and the discard set. *)
Lemma performance_checks_spec (perf : DataFrame) :
  range_index perf ->
  exists st es,
    performance_checks perf = Ok st
    /\ perf_ex st
       = ((fun r => mkEx r "(row)" "Missing" "Missing values in row") <$> miss_rows perf)
         ++ omap marks_verdict (column_items perf "Marks")
         ++ omap effort_verdict (column_items perf "Effort_Hours")
         ++ es
    /\ Forall2 pair_record (pair_rows perf) es
    /\ (forall r, r ∈ discard_idx st <-> disqualified perf r).
Proof.
  intros Hidx. unfold performance_checks. destruct (empty perf) eqn:He.
  - exists {| perf_ex := []; discard_idx := ∅ |}, [].
    rewrite (empty_miss_rows _ He), !(empty_column_items _ _ He), (empty_pair_rows _ He).
    split; [reflexivity|]. split; [reflexivity|]. split; [constructor|].
    intros r. unfold disqualified.
    rewrite (empty_miss_rows _ He), !(empty_column_items _ _ He). simpl.
    split; [intros H; by apply not_elem_of_empty in H|].
    intros [H|[(v & H & _)|(v & H & _)]]; by apply elem_of_nil in H.
  - rewrite perf_marks_eq. simpl. rewrite perf_effort_eq. simpl.
    match goal with |- context [perf_pairs perf ?s] =>
      destruct (perf_pairs_spec perf s Hidx) as (es & Hp & HQ); set (st2 := s) in * end.
    eexists _, es. split; [exact Hp|]. simpl. split; [|split; [exact HQ|]].
    + subst st2. rewrite (foldl_flag_ex _ _ perf_effort_body_verdict).
      rewrite (foldl_flag_ex _ _ perf_marks_body_verdict).
      rewrite perf_missing_ex. simpl. by rewrite <- !app_assoc.
    + intros r. subst st2. rewrite (foldl_flag_idx _ _ perf_effort_body_verdict).
      rewrite (foldl_flag_idx _ _ perf_marks_body_verdict).
      unfold perf_missing, disqualified, miss_rows. simpl.
      rewrite elem_of_union, elem_of_list_to_set. split.
      * intros [[[H|H]|H]|H]; [by apply not_elem_of_empty in H|tauto..].
      * tauto.
Qed.

Lemma disqualified_label (perf : DataFrame) (r : nat) :
  disqualified perf r -> r ∈ index perf.
Proof.
  intros [H|[(v & H & _)|(v & H & _)]].
  - by eapply index_where_label.
  - by eapply column_items_label.
  - by eapply column_items_label.
Qed.

(** *** The cleaner *)

Lemma clean_spec (perf : DataFrame) (D : gset nat) :
  range_index perf ->
  (forall r, r ∈ D -> r ∈ index perf) ->
  exists c kept,
    clean perf D = Ok c
    /\ columns c = columns perf
    /\ index c = seq 0 (length kept)
    /\ StronglySorted lt kept
    /\ (forall i, i ∈ kept <-> i < length (data perf) /\ i ∉ D)
    /\ Forall2 (fun i row => data perf !! i = Some row) kept (data c)
    /\ length (data c) + size D = length (data perf).
Proof.
  intros Hidx HD. unfold clean, drop, sorted.
  set (labels := merge_sort Nat.le (elements D)).
  assert (Hlabels : forall r, r ∈ labels <-> r ∈ D) by apply elem_of_sorted.
  replace (forallb _ labels) with true; cycle 1.
  { symmetry. apply forallb_forall. intros l Hl.
    apply bool_decide_eq_true, HD, Hlabels, list_elem_of_In, Hl. }
  rewrite Hidx. set (keep := fun r => negb (bool_decide (r ∈ labels))).
  set (kept := List.filter (fun '(r, _) => keep r) (zip (seq 0 (length (data perf))) (data perf))).
  exists (reset_index {| columns := columns perf; index := kept.*1; data := kept.*2 |}), kept.*1.
  assert (Hfst : kept.*1 = List.filter keep (seq 0 (length (data perf))))
    by apply filter_zip_seq_fst.
  split; [reflexivity|]. split; [reflexivity|]. simpl. split.
  { by rewrite !length_fmap. }
  split. { rewrite Hfst. apply filter_seq_sorted. }
  split.
  { intros i. rewrite Hfst, list_elem_of_In, filter_In, in_seq. unfold keep.
    rewrite negb_true_iff, bool_decide_eq_false, Hlabels. split; [intros [[_ ?] ?]|intros [? ?]]; split; (lia || done). }
  split. { apply filter_zip_seq_rows. }
  rewrite length_fmap, <- (length_fmap fst kept), Hfst.
  pose proof (length_filter_split keep (seq 0 (length (data perf)))) as Hsplit.
  rewrite length_seq in Hsplit.
  assert (Hdrop : length (List.filter (fun r => negb (keep r)) (seq 0 (length (data perf))))
                  = size D).
  { rewrite <- (length_dropped D (length (data perf))).
    - f_equal. apply filter_ext. intros r. unfold keep. f_equal. f_equal.
      apply bool_decide_ext, Hlabels.
    - intros r Hr. apply HD in Hr. rewrite Hidx in Hr. apply elem_of_seq in Hr. lia. }
  lia.
Qed.

(** *** The Department block *)

Lemma dept_missing_spec (dept : DataFrame) (ex : list exception_record) :
  exists es,
    for_each (dept_missing_body dept) (isna_nonzero dept) ex = Ok (ex ++ es)
    /\ Forall (fun e => issue_type e = "Missing" /\ column e ∈ columns dept) es.
Proof.
  destruct (for_each_collect (fun acc e => acc ++ [e])
              (fun (_ : nat * nat) e => issue_type e = "Missing" /\ column e ∈ columns dept)
              (dept_missing_body dept) (isna_nonzero dept)) with (s := ex)
    as (es & Hes & HQ).
  - intros acc [r c] Hrc. unfold isna_nonzero in Hrc.
    apply list_elem_of_In, in_flat_map in Hrc as ([r' row] & _ & Hrc).
    apply list_elem_of_In, list_elem_of_fmap in Hrc as (c' & [= -> ->] & Hc).
    apply list_elem_of_In, filter_In in Hc as [Hc _]. apply in_seq in Hc.
    destruct (lookup_lt_is_Some_2 (columns dept) c') as [name Hname]; [lia|].
    unfold dept_missing_body, column_name. simpl. rewrite Hname. simpl.
    eexists. split; [reflexivity|]. simpl. split; [reflexivity|].
    by eapply list_elem_of_lookup_2.
  - exists es. rewrite Hes, foldl_snoc. split; [reflexivity|].
    eapply Forall2_Forall_r; [exact HQ|].
    apply Forall_forall. intros x _ e HQe. exact HQe.
Qed.

Lemma dept_duplicates_spec (dept : DataFrame) (col issue : string)
    (ex : list exception_record) :
  range_index dept ->
  exists es,
    dept_duplicates dept col issue ex = Ok (ex ++ es)
    /\ Forall (fun e => column e = col /\ issue_type e = issue) es
    /\ (col ∉ columns dept -> es = []).
Proof.
  intros Hidx. unfold dept_duplicates. destruct (has_column dept col) eqn:Hc.
  - apply has_column_true in Hc.
    destruct (getitem_Ok dept col Hc) as (j & _ & _ & ->). simpl.
    match goal with |- context [index_where dept ?m] => generalize m end. intros mask.
    destruct (for_each_collect (fun acc e => acc ++ [e])
                (fun (_ : nat) e => column e = col /\ issue_type e = issue)
                (dept_duplicate_body dept col issue) (index_where dept mask)) with (s := ex)
      as (es & Hes & HQ).
    + intros acc r Hr. apply index_where_label in Hr.
      destruct (loc_Ok dept r col Hidx Hr Hc) as [v Hv].
      unfold dept_duplicate_body. rewrite Hv. simpl. eexists. split; [reflexivity|]. done.
    + exists es. rewrite Hes, foldl_snoc. split; [reflexivity|]. split; [|done].
      eapply Forall2_Forall_r; [exact HQ|].
      apply Forall_forall. intros x _ e HQe. exact HQe.
  - exists []. rewrite app_nil_r. repeat split; constructor.
Qed.

Lemma dept_doe_eq (dept : DataFrame) (ex : list exception_record) :
  dept_doe dept ex = Ok (ex ++ omap doe_verdict (column_items dept "DOE")).
Proof.
  unfold dept_doe. destruct (has_column dept "DOE") eqn:Hc.
  - apply has_column_true in Hc. rewrite (items_column_items _ _ Hc). simpl.
    by rewrite (foldl_verdict doe_verdict _ dept_doe_body_verdict).
  - apply has_column_false in Hc. rewrite (column_items_absent _ _ Hc). simpl.
    by rewrite app_nil_r.
Qed.

(** What the Department block returns: the Missing records, those of the
    two duplicate rules and those of the DOE rule, in this order. *)
Lemma department_checks_spec (dept : DataFrame) :
  range_index dept ->
  exists ms ks vs,
    department_checks dept
    = Ok (ms ++ ks ++ vs ++ omap doe_verdict (column_items dept "DOE"))
    /\ Forall (fun e => issue_type e = "Missing" /\ column e ∈ columns dept) ms
    /\ Forall (fun e => column e = "Department_ID" /\ issue_type e = "Duplicate Key") ks
    /\ ("Department_ID" ∉ columns dept -> ks = [])
    /\ Forall (fun e => column e = "Department_Name" /\ issue_type e = "Duplicate Value") vs
    /\ ("Department_Name" ∉ columns dept -> vs = []).
Proof.
  intros Hidx. unfold department_checks. destruct (empty dept) eqn:He.
  - exists [], [], []. rewrite (empty_column_items _ _ He). by repeat split; try constructor.
  - destruct (dept_missing_spec dept []) as (ms & -> & Hms). simpl.
    destruct (dept_duplicates_spec dept "Department_ID" "Duplicate Key" ms Hidx)
      as (ks & -> & Hks & Hks0). simpl.
    destruct (dept_duplicates_spec dept "Department_Name" "Duplicate Value" (ms ++ ks) Hidx)
      as (vs & -> & Hvs & Hvs0). simpl.
    exists ms, ks, vs. rewrite dept_doe_eq, <- !app_assoc. done.
Qed.

(** *** The Counseling block *)

Lemma department_ids_Ok (dept : DataFrame) : exists ids, department_ids dept = Ok ids.
Proof.
  unfold department_ids. destruct (has_column dept "Department_ID") eqn:Hc; [|eauto].
  apply has_column_true in Hc. destruct (getitem_Ok dept _ Hc) as (j & _ & _ & ->).
  simpl. eauto.
Qed.

Lemma counseling_checks_spec (dept stud : DataFrame) :
  exists ids,
    department_ids dept = Ok ids
    /\ counseling_checks dept stud
       = Ok (omap stud_missing_verdict (column_items stud "Department_Admission")
             ++ omap (stud_fk_verdict ids) (column_items stud "Department_Admission")).
Proof.
  destruct (department_ids_Ok dept) as [ids Hids]. exists ids. split; [exact Hids|].
  unfold counseling_checks. destruct (empty stud) eqn:He; simpl.
  - by rewrite (empty_column_items _ _ He).
  - destruct (has_column stud "Department_Admission") eqn:Hc.
    + apply has_column_true in Hc. rewrite (items_column_items _ _ Hc), Hids. simpl.
      rewrite (foldl_verdict _ _ (stud_fk_body_verdict ids)).
      by rewrite (foldl_verdict _ _ stud_missing_body_verdict).
    + apply has_column_false in Hc. by rewrite (column_items_absent _ _ Hc).
Qed.

(** *** The run *)

(** The three rule blocks and the cleaner never raise, and the result
    of [run_part2_etl] is made of theirs. *)
Lemma run_part2_etl_Ok (engine : Engine) :
  let dept := read_sql (Department_Information engine) in
  let stud := read_sql (Student_Counceling_Information engine) in
  let perf := read_sql (Student_Performance_Data engine) in
  exists dex sex st c,
    department_checks dept = Ok dex
    /\ counseling_checks dept stud = Ok sex
    /\ performance_checks perf = Ok st
    /\ clean perf (discard_idx st) = Ok c
    /\ run_part2_etl engine
       = Ok {| dept_ex := dex; emp_ex := []; stud_ex := sex; perf_report := perf_ex st;
               perf_discard := discard_idx st; perf_clean := c |}.
Proof.
  intros dept stud perf.
  destruct (department_checks_spec dept (read_sql_range_index _)) as (ms & ks & vs & Hd & _).
  destruct (counseling_checks_spec dept stud) as (ids & _ & Hs).
  destruct (performance_checks_spec perf (read_sql_range_index _)) as (st & es & Hp & _ & _ & HD).
  destruct (clean_spec perf (discard_idx st) (read_sql_range_index _)) as (c & kept & Hc & _).
  { intros r Hr. apply disqualified_label, HD, Hr. }
  eexists _, _, st, c. repeat (split; [eassumption|]).
  unfold run_part2_etl. fold dept stud perf. rewrite Hd. simpl. rewrite Hs. simpl.
  rewrite Hp. simpl. rewrite Hc. reflexivity.
Qed.

Lemma filter_all {A : Type} (f : A -> bool) (l : list A) :
  (forall x, f x = true) -> List.filter f l = l.
Proof.
  intros Hf. induction l as [|x l IH]; simpl; [reflexivity|]. by rewrite Hf, IH.
Qed.

(** With nothing to discard the cleaner returns the rows as they are. *)
Lemma clean_nothing (perf : DataFrame) :
  range_index perf ->
  clean perf ∅ = Ok {| columns := columns perf;
                       index := seq 0 (length (data perf));
                       data := data perf |}.
Proof.
  intros Hidx. unfold clean, drop, sorted. rewrite elements_empty. simpl.
  rewrite filter_all.
  - unfold reset_index. simpl. rewrite snd_zip; [reflexivity|].
    rewrite Hidx, length_seq. reflexivity.
  - intros [r row]. reflexivity.
Qed.

(** *** The shape of the records *)

Lemma marks_verdict_shape (rv : nat * value) (e : exception_record) :
  marks_verdict rv = Some e ->
  row_index e = rv.1 /\ column e = "Marks"
  /\ (issue_type e = "Out-of-Range" \/ issue_type e = "Invalid Type").
Proof.
  unfold marks_verdict. destruct (py_float rv.2) as [f|]; [destruct (negb _)|];
    intros [= <-]; simpl; auto.
Qed.

Lemma effort_verdict_shape (rv : nat * value) (e : exception_record) :
  effort_verdict rv = Some e ->
  row_index e = rv.1 /\ column e = "Effort_Hours"
  /\ (issue_type e = "Out-of-Range" \/ issue_type e = "Invalid Type").
Proof.
  unfold effort_verdict. destruct (py_int rv.2) as [i|]; [destruct (_ || _)|];
    intros [= <-]; simpl; auto.
Qed.

Lemma doe_verdict_shape (rv : nat * value) (e : exception_record) :
  doe_verdict rv = Some e ->
  row_index e = rv.1 /\ column e = "DOE"
  /\ (issue_type e = "Out-of-Range" \/ issue_type e = "Invalid Type").
Proof.
  unfold doe_verdict. destruct (doe_out_of_range rv.2) as [[|]|];
    intros [= <-]; simpl; auto.
Qed.

Lemma stud_missing_verdict_shape (rv : nat * value) (e : exception_record) :
  stud_missing_verdict rv = Some e ->
  row_index e = rv.1 /\ column e = "Department_Admission" /\ issue_type e = "Missing".
Proof.
  unfold stud_missing_verdict. destruct (_ || _); intros [= <-]; simpl; auto.
Qed.

Lemma stud_fk_verdict_shape (ids : gset string) (rv : nat * value) (e : exception_record) :
  stud_fk_verdict ids rv = Some e ->
  row_index e = rv.1 /\ column e = "Department_Admission" /\ issue_type e = "FK Violation".
Proof.
  unfold stud_fk_verdict. destruct (_ && _); intros [= <-]; simpl; auto.
Qed.

(** Everything the run returns, block by block. *)
Lemma run_spec (engine : Engine) :
  let dept := read_sql (Department_Information engine) in
  let stud := read_sql (Student_Counceling_Information engine) in
  let perf := read_sql (Student_Performance_Data engine) in
  exists o ms ks vs ids es kept,
    run_part2_etl engine = Ok o
    /\ (dept_ex o = ms ++ ks ++ vs ++ omap doe_verdict (column_items dept "DOE")
        /\ Forall (fun e => issue_type e = "Missing" /\ column e ∈ columns dept) ms
        /\ Forall (fun e => column e = "Department_ID" /\ issue_type e = "Duplicate Key") ks
        /\ ("Department_ID" ∉ columns dept -> ks = [])
        /\ Forall (fun e => column e = "Department_Name" /\ issue_type e = "Duplicate Value") vs
        /\ ("Department_Name" ∉ columns dept -> vs = []))
    /\ (department_ids dept = Ok ids
        /\ stud_ex o
           = omap stud_missing_verdict (column_items stud "Department_Admission")
             ++ omap (stud_fk_verdict ids) (column_items stud "Department_Admission"))
    /\ (perf_report o
        = ((fun r => mkEx r "(row)" "Missing" "Missing values in row") <$> miss_rows perf)
          ++ omap marks_verdict (column_items perf "Marks")
          ++ omap effort_verdict (column_items perf "Effort_Hours")
          ++ es
        /\ Forall2 pair_record (pair_rows perf) es
        /\ (forall r, r ∈ perf_discard o <-> disqualified perf r))
    /\ (clean perf (perf_discard o) = Ok (perf_clean o)
        /\ columns (perf_clean o) = columns perf
        /\ index (perf_clean o) = seq 0 (length kept)
        /\ StronglySorted lt kept
        /\ (forall i, i ∈ kept <-> i < length (data perf) /\ i ∉ perf_discard o)
        /\ Forall2 (fun i row => data perf !! i = Some row) kept (data (perf_clean o))
        /\ length (data (perf_clean o)) + size (perf_discard o) = length (data perf)).
Proof.
  intros dept stud perf.
  destruct (run_part2_etl_Ok engine) as (dex & sex & st & c & Hd & Hs & Hp & Hc & Hrun).
  fold dept stud perf in Hd, Hs, Hp, Hc.
  destruct (department_checks_spec dept (read_sql_range_index _)) as (ms & ks & vs & Hd' & Hdept).
  destruct (counseling_checks_spec dept stud) as (ids & Hids & Hs').
  destruct (performance_checks_spec perf (read_sql_range_index _))
    as (st' & es & Hp' & Hex & Hes & HD).
  rewrite Hp in Hp'. injection Hp' as <-.
  destruct (clean_spec perf (discard_idx st) (read_sql_range_index _))
    as (c' & kept & Hc' & Hclean).
  { intros r Hr. apply disqualified_label, HD, Hr. }
  rewrite Hc in Hc'. injection Hc' as <-.
  rewrite Hd in Hd'. injection Hd' as ->. rewrite Hs in Hs'. injection Hs' as ->.
  eexists _, ms, ks, vs, ids, es, kept. split; [exact Hrun|]. simpl.
  split; [split; [reflexivity | exact Hdept]|].
  split; [split; [exact Hids | reflexivity]|].
  split; [split; [exact Hex | split; [exact Hes | exact HD]]|].
  split; [exact Hc | exact Hclean].
Qed.

End EtlFacts.

(** ** The model on sample inputs *)

Module Samples.
Import Py Pd Etl.

Example float_of_text :
  float_of_string " 12.50 " = Ok (S754_finite false 7036874417766400 (-49))
  /\ float_of_string "1_000" = float_of_string "1e3"
  /\ float_of_string "abc" = Raise ValueError
  /\ float_of_string "NaN" = Ok S754_nan
  /\ float_of_string "1e400" = Ok (S754_infinity false).
Proof. repeat split. Qed.

Example int_of_text :
  int_of_string " 12 " = Ok 12%Z
  /\ int_of_string "-7" = Ok (-7)%Z
  /\ int_of_string "1_0" = Ok 10%Z
  /\ int_of_string "3.5" = Raise ValueError
  /\ int_of_string "" = Raise ValueError.
Proof. repeat split. Qed.

Example str_of_values :
  py_str (VFloat (float_of_decimal false 1 (-1))) = "0.1"
  /\ py_str (VFloat (float_of_Z 2000)) = "2000.0"
  /\ py_str (VFloat (float_of_decimal false 1 16)) = "1e+16"
  /\ py_str (VFloat S754_nan) = "nan"
  /\ py_str VNone = "None"
  /\ py_str (VInt (-3)) = "-3".
Proof. vm_compute. repeat split. Qed.

Example scenario_A :
  dept_ex <$> run_part2_etl duplicate_key_run
  = Ok [mkEx 0 "Department_ID" "Duplicate Key" "Department_ID=1";
        mkEx 1 "Department_ID" "Duplicate Key" "Department_ID=1"].
Proof. vm_compute. reflexivity. Qed.

Example scenario_B :
  (fun o => (perf_report o, data (perf_clean o))) <$> run_part2_etl high_marks_run
  = Ok ([mkEx 0 "Marks" "Out-of-Range" "Marks=150 not in [0,100]"], []).
Proof. vm_compute. reflexivity. Qed.

Example scenario_E :
  stud_ex <$> run_part2_etl unknown_admission_run
  = Ok [mkEx 0 "Department_Admission" "FK Violation"
             "Department_Admission=99 not in Department_Information.Department_ID"].
Proof. vm_compute. reflexivity. Qed.

End Samples.

(** ** Facts about the reports *)

Module ReportFacts.
Import Py Pd Etl PdFacts EtlFacts.
Local Open Scope nat_scope.

Lemma recorded_true (report : list exception_record) (r : nat) (col issue : string) :
  recorded report r col issue = true
  <-> exists e, e ∈ report /\ row_index e = r /\ column e = col /\ issue_type e = issue.
Proof.
  unfold recorded. rewrite existsb_exists. split.
  - intros (e & He & Hm). apply list_elem_of_In in He.
    apply andb_true_iff in Hm as [Hm Hi]. apply andb_true_iff in Hm as [Hr Hc].
    apply Nat.eqb_eq in Hr. apply String.eqb_eq in Hc, Hi. eauto.
  - intros (e & He & <- & <- & <-). exists e. split; [by apply list_elem_of_In|].
    by rewrite Nat.eqb_refl, !String.eqb_refl.
Qed.

Lemma recorded_false (report : list exception_record) (r : nat) (col issue : string) :
  recorded report r col issue = false
  <-> forall e, e ∈ report -> ~ (row_index e = r /\ column e = col /\ issue_type e = issue).
Proof.
  rewrite <- not_true_iff_false, recorded_true. split.
  - intros H e He Hm. apply H. eauto.
  - intros H (e & He & Hm). by eapply H.
Qed.

Lemma recorded_app (a b : list exception_record) (r : nat) (col issue : string) :
  recorded (a ++ b) r col issue = recorded a r col issue || recorded b r col issue.
Proof. apply existsb_app. Qed.

Lemma recorded_omap (verdict : nat * value -> option exception_record)
    (its : list (nat * value)) (r : nat) (col issue : string) :
  recorded (omap verdict its) r col issue = true
  <-> exists rv e, rv ∈ its /\ verdict rv = Some e
                   /\ row_index e = r /\ column e = col /\ issue_type e = issue.
Proof.
  rewrite recorded_true. split.
  - intros (e & He & Hm). apply list_elem_of_omap in He as (rv & Hrv & He). eauto 6.
  - intros (rv & e & Hrv & He & Hm). exists e. split; [|exact Hm].
    apply list_elem_of_omap. eauto.
Qed.

Lemma recorded_other_column (part : list exception_record) (c : string)
    (r : nat) (col issue : string) :
  Forall (fun e => column e = c) part -> c <> col -> recorded part r col issue = false.
Proof.
  intros Hpart Hne. apply recorded_false. intros e He (_ & Hc & _).
  rewrite Forall_forall in Hpart. apply Hne. by rewrite <- (Hpart e He).
Qed.

Lemma recorded_other_issue (part : list exception_record) (i : string)
    (r : nat) (col issue : string) :
  Forall (fun e => issue_type e = i) part -> i <> issue -> recorded part r col issue = false.
Proof.
  intros Hpart Hne. apply recorded_false. intros e He (_ & _ & Hi).
  rewrite Forall_forall in Hpart. apply Hne. by rewrite <- (Hpart e He).
Qed.

Lemma omap_column (verdict : nat * value -> option exception_record) (c : string)
    (its : list (nat * value)) :
  (forall rv e, verdict rv = Some e -> column e = c) ->
  Forall (fun e => column e = c) (omap verdict its).
Proof.
  intros Hv. apply Forall_forall. intros e He.
  apply list_elem_of_omap in He as (rv & _ & He). by eapply Hv.
Qed.

Lemma pair_records_column (rows : list nat) (es : list exception_record) :
  Forall2 pair_record rows es ->
  Forall (fun e => column e = "Student_ID,Paper_ID") es
  /\ Forall (fun e => issue_type e = "Duplicate Pair") es.
Proof.
  intros H. split; (eapply Forall2_Forall_r; [exact H|]); apply Forall_forall;
    intros r _ e (_ & Hc & Hi); assumption.
Qed.

(** The Marks records of the Performance report are those of the Marks
    rule. *)
Lemma recorded_marks (perf : DataFrame) (es : list exception_record)
    (r : nat) (issue : string) :
  Forall (fun e => column e = "Student_ID,Paper_ID") es ->
  recorded
    (((fun r => mkEx r "(row)" "Missing" "Missing values in row") <$> miss_rows perf)
       ++ omap marks_verdict (column_items perf "Marks")
       ++ omap effort_verdict (column_items perf "Effort_Hours")
       ++ es) r "Marks" issue
  = recorded (omap marks_verdict (column_items perf "Marks")) r "Marks" issue.
Proof.
  intros Hes. rewrite !recorded_app.
  rewrite (recorded_other_column _ "(row)"); [|by apply Forall_fmap, Forall_true|done].
  rewrite (recorded_other_column (omap effort_verdict _) "Effort_Hours"); [| |done].
  - rewrite (recorded_other_column es "Student_ID,Paper_ID"); [|done|done].
    simpl. by rewrite orb_false_r.
  - apply omap_column. intros rv e He. by apply effort_verdict_shape in He as (_ & ? & _).
Qed.

(** The row-level Missing records are those of the rows with a null. *)
Lemma recorded_row_missing (perf : DataFrame) (es : list exception_record) (r : nat) :
  Forall (fun e => column e = "Student_ID,Paper_ID") es ->
  r ∈ miss_rows perf ->
  recorded
    (((fun r => mkEx r "(row)" "Missing" "Missing values in row") <$> miss_rows perf)
       ++ omap marks_verdict (column_items perf "Marks")
       ++ omap effort_verdict (column_items perf "Effort_Hours")
       ++ es) r "(row)" "Missing" = true.
Proof.
  intros _ Hr. rewrite recorded_app. apply orb_true_iff. left.
  apply recorded_true. eexists. split; [apply list_elem_of_fmap; eauto|done].
Qed.

Lemma elem_of_miss_rows (perf : DataFrame) (r : nat) :
  range_index perf ->
  r ∈ miss_rows perf
  <-> exists row, data perf !! r = Some row /\ existsb isna (cells perf row) = true.
Proof.
  intros Hidx. unfold miss_rows, index_where, isna_any. rewrite Hidx.
  rewrite list_elem_of_fmap. split.
  - intros ([r' b] & -> & H). apply list_elem_of_In, filter_In in H as [H Hb].
    apply list_elem_of_In, elem_of_zip_seq in H as [_ H]. simpl in *. subst b.
    rewrite list_lookup_fmap in H.
    destruct (data perf !! r') as [row|]; simplify_eq/=. eauto.
  - intros (row & Hrow & Hna). exists (r, true). split; [reflexivity|].
    apply list_elem_of_In, filter_In. split; [|reflexivity].
    apply list_elem_of_In, elem_of_zip_seq. split; [by eapply lookup_lt_Some|].
    rewrite list_lookup_fmap, Hrow. simpl. by rewrite Hna.
Qed.

Lemma marks_verdict_None (rv : nat * value) :
  marks_verdict rv = None -> marks_valid rv.2.
Proof.
  unfold marks_verdict, marks_valid.
  destruct (py_float rv.2) as [f|]; [|discriminate].
  destruct (marks_in_range f) eqn:Hf; [|discriminate]. eauto.
Qed.

Lemma effort_verdict_None (rv : nat * value) :
  effort_verdict rv = None -> effort_valid rv.2.
Proof.
  unfold effort_verdict, effort_valid.
  destruct (py_int rv.2) as [i|]; [|discriminate].
  destruct (Z.ltb_spec i 0) as [Hi|Hi]; simpl; [discriminate|].
  destruct (fractional rv.2) eqn:Hf; [discriminate|]. eauto.
Qed.

(** The cells of a column of the cleaned frame are cells of rows that
    are not disqualified. *)
Lemma cleaned_item_origin (engine : Engine) (o : outputs) (c : string) (j : nat) (v : value) :
  run_part2_etl engine = Ok o ->
  (j, v) ∈ column_items (perf_clean o) c ->
  exists i, (i, v) ∈ column_items (read_sql (Student_Performance_Data engine)) c
            /\ ~ disqualified (read_sql (Student_Performance_Data engine)) i.
Proof.
  intros Hrun Hjv.
  destruct (run_spec engine)
    as (o' & ms & ks & vs & ids & es & kept & Hrun' & _ & _ & Hperf & Hclean).
  rewrite Hrun in Hrun'. injection Hrun' as <-.
  destruct Hperf as (_ & _ & HD).
  destruct Hclean as (_ & Hcols & Hindex & _ & Hkept & Hrows & _).
  assert (Hrange : range_index (perf_clean o)).
  { unfold range_index. rewrite Hindex. f_equal. by eapply Forall2_length. }
  apply (elem_of_column_items _ _ _ _ Hrange) in Hjv as (jc & row & Hjc & Hrow & ->).
  destruct (Forall2_lookup_r _ _ _ _ _ Hrows Hrow) as (i & Hi & Horig).
  exists i. split.
  - apply (elem_of_column_items _ _ _ _ (read_sql_range_index _)).
    exists jc, row. split; [|done]. unfold column_pos in *. by rewrite <- Hcols.
  - intros Hdis. apply HD in Hdis. apply list_elem_of_lookup_2, Hkept in Hi. tauto.
Qed.

(** The DOE records of the Department report, other than Missing ones,
    are those of the DOE rule. *)
Lemma recorded_doe (engine : Engine) (o : outputs) (r : nat) (issue : string) :
  run_part2_etl engine = Ok o ->
  issue <> "Missing" ->
  recorded (dept_ex o) r "DOE" issue
  = recorded (omap doe_verdict
                (column_items (read_sql (Department_Information engine)) "DOE"))
             r "DOE" issue.
Proof.
  intros Hrun Hissue.
  destruct (run_spec engine)
    as (o' & ms & ks & vs & ids & es & kept & Hrun' & Hdept & _).
  rewrite Hrun in Hrun'. injection Hrun' as <-.
  destruct Hdept as (-> & Hms & Hks & _ & Hvs & _). rewrite !recorded_app.
  rewrite (recorded_other_issue ms "Missing"); [|eapply Forall_impl; [exact Hms|]; by intros e []|done].
  rewrite (recorded_other_column ks "Department_ID");
    [|eapply Forall_impl; [exact Hks|]; by intros e []|done].
  rewrite (recorded_other_column vs "Department_Name");
    [|eapply Forall_impl; [exact Hvs|]; by intros e []|done].
  reflexivity.
Qed.

(** The records of the Counseling report for one row are the verdicts of
    its two rules on that row's Department_Admission cell. *)
Lemma recorded_admission (engine : Engine) (o : outputs) (ids : gset string)
    (r : nat) (v : value) :
  let dept := read_sql (Department_Information engine) in
  let stud := read_sql (Student_Counceling_Information engine) in
  run_part2_etl engine = Ok o ->
  department_ids dept = Ok ids ->
  (r, v) ∈ column_items stud "Department_Admission" ->
  (recorded (stud_ex o) r "Department_Admission" "Missing" = true
   <-> is_Some (stud_missing_verdict (r, v)))
  /\ (recorded (stud_ex o) r "Department_Admission" "FK Violation" = true
      <-> is_Some (stud_fk_verdict ids (r, v))).
Proof.
  intros dept stud Hrun Hids Hrv.
  destruct (run_spec engine)
    as (o' & ms & ks & vs & ids' & es & kept & Hrun' & _ & Hstud & _).
  rewrite Hrun in Hrun'. injection Hrun' as <-. fold dept stud in Hstud.
  destruct Hstud as (Hids' & ->). rewrite Hids in Hids'. injection Hids' as <-.
  rewrite !recorded_app.
  rewrite (recorded_other_issue (omap (stud_fk_verdict ids) _) "FK Violation" r _ "Missing");
    [| |done].
  2: { apply Forall_forall. intros x Hx. apply list_elem_of_omap in Hx as (rv & _ & Hx).
       by apply stud_fk_verdict_shape in Hx as (_ & _ & ?). }
  rewrite (recorded_other_issue (omap stud_missing_verdict _) "Missing" r _ "FK Violation");
    [| |done].
  2: { apply Forall_forall. intros x Hx. apply list_elem_of_omap in Hx as (rv & _ & Hx).
       by apply stud_missing_verdict_shape in Hx as (_ & _ & ?). }
  rewrite orb_false_r, orb_false_l, !recorded_omap. split; split.
  - intros ([r' v'] & x & Hrv' & Hx & Hrow & _).
    pose proof (stud_missing_verdict_shape _ _ Hx) as (Hr' & _). simpl in Hr'.
    rewrite Hrow in Hr'. subst r'.
    rewrite (column_items_functional _ _ _ _ _ (read_sql_range_index _) Hrv' Hrv) in Hx.
    by rewrite Hx.
  - intros [x Hx]. exists (r, v), x.
    destruct (stud_missing_verdict_shape _ _ Hx) as (? & ? & ?). done.
  - intros ([r' v'] & x & Hrv' & Hx & Hrow & _).
    pose proof (stud_fk_verdict_shape _ _ _ Hx) as (Hr' & _). simpl in Hr'.
    rewrite Hrow in Hr'. subst r'.
    rewrite (column_items_functional _ _ _ _ _ (read_sql_range_index _) Hrv' Hrv) in Hx.
    by rewrite Hx.
  - intros [x Hx]. exists (r, v), x.
    destruct (stud_fk_verdict_shape _ _ _ Hx) as (? & ? & ?). done.
Qed.

Lemma department_ids_absent (dept : DataFrame) :
  "Department_ID" ∉ columns dept -> department_ids dept = Ok ∅.
Proof.
  intros Hc. unfold department_ids. apply has_column_false in Hc. by rewrite Hc.
Qed.

Lemma pair_rows_absent (perf : DataFrame) :
  "Student_ID" ∉ columns perf \/ "Paper_ID" ∉ columns perf -> pair_rows perf = [].
Proof.
  unfold pair_rows. intros [Hc|Hc]; apply has_column_false in Hc; rewrite Hc;
    [reflexivity | by rewrite andb_false_r].
Qed.

End ReportFacts.

(** ** Facts about the rules *)

Module RuleFacts.
Import Py Pd Etl Rules PdFacts EtlFacts ReportFacts.
Local Open Scope nat_scope.

(** *** Row order *)

Lemma zip_seq_sorted {A : Type} (a n : nat) (l : list A) :
  StronglySorted (fun p q => p.1 < q.1) (zip (seq a n) l).
Proof.
  revert a l. induction n as [|n IH]; intros a [|x l]; simpl; try constructor.
  - apply IH.
  - apply Forall_forall. intros [r y] Hin. apply elem_of_zip_l in Hin.
    apply elem_of_seq in Hin. simpl. lia.
Qed.

Lemma filter_sorted {A : Type} (R : relation A) (f : A -> bool) (l : list A) :
  StronglySorted R l -> StronglySorted R (List.filter f l).
Proof.
  induction 1 as [|x l Hl IH Hx]; simpl; [constructor|].
  destruct (f x); [|exact IH]. constructor; [exact IH|].
  apply Forall_forall. intros y Hy. apply list_elem_of_In, filter_In in Hy as [Hy _].
  rewrite Forall_forall in Hx. apply Hx. by apply list_elem_of_In.
Qed.

Lemma omap_sorted {A B : Type} (R : relation A) (R' : relation B) (f : A -> option B)
    (l : list A) :
  (forall x y x' y', R x y -> f x = Some x' -> f y = Some y' -> R' x' y') ->
  StronglySorted R l -> StronglySorted R' (omap f l).
Proof.
  intros Hf. induction 1 as [|x l Hl IH Hx]; simpl; [constructor|].
  destruct (f x) as [x'|] eqn:Hfx; [|exact IH]. constructor; [exact IH|].
  apply Forall_forall. intros y' Hy'. apply list_elem_of_omap in Hy' as (y & Hy & Hfy).
  rewrite Forall_forall in Hx. eapply Hf; [|exact Hfx|exact Hfy]. by apply Hx.
Qed.

Lemma fmap_sorted {A B : Type} (R : relation A) (R' : relation B) (f : A -> B)
    (l : list A) :
  (forall x y, R x y -> R' (f x) (f y)) ->
  StronglySorted R l -> StronglySorted R' (f <$> l).
Proof.
  intros Hf. induction 1 as [|x l Hl IH Hx]; simpl; constructor; [exact IH|].
  apply Forall_fmap. eapply Forall_impl; [exact Hx|]. intros y Hy. by apply Hf.
Qed.

Lemma index_where_sorted (df : DataFrame) (mask : list bool) :
  range_index df -> StronglySorted lt (index_where df mask).
Proof.
  intros Hidx. unfold index_where. rewrite Hidx.
  apply (fmap_sorted (fun p q => p.1 < q.1)); [done|].
  apply filter_sorted, zip_seq_sorted.
Qed.

Lemma column_items_sorted (df : DataFrame) (c : string) :
  range_index df -> StronglySorted (fun p q => p.1 < q.1) (column_items df c).
Proof.
  intros Hidx. unfold column_items. destruct (items df c) as [its|] eqn:Hits.
  - apply items_inv in Hits as (j & _ & _ & ->). rewrite Hidx. apply zip_seq_sorted.
  - constructor.
Qed.

(** The records that a row-by-row rule appends come in row order, so
    there is at most one for a row. *)
Lemma verdicts_sorted (verdict : nat * value -> option exception_record)
    (df : DataFrame) (c : string) :
  range_index df ->
  (forall rv e, verdict rv = Some e -> row_index e = rv.1) ->
  StronglySorted lt (row_index <$> omap verdict (column_items df c)).
Proof.
  intros Hidx Hrow.
  apply (fmap_sorted (fun e e' => row_index e < row_index e')); [done|].
  eapply omap_sorted; [|by apply column_items_sorted].
  intros x y e e' Hxy He He'. by rewrite (Hrow _ _ He), (Hrow _ _ He').
Qed.

Lemma Forall2_rule_record_rows (col issue : string) (rows : list nat)
    (es : list exception_record) :
  Forall2 (rule_record col issue) rows es -> row_index <$> es = rows.
Proof.
  induction 1 as [|r e rows es (Hr & _) _ IH]; simpl; [reflexivity|]. by f_equal.
Qed.

Lemma Forall2_pair_record_rows (rows : list nat) (es : list exception_record) :
  Forall2 pair_record rows es -> row_index <$> es = rows.
Proof.
  induction 1 as [|r e rows es (Hr & _) _ IH]; simpl; [reflexivity|]. by f_equal.
Qed.

Lemma pair_rows_sorted (perf : DataFrame) :
  range_index perf -> StronglySorted lt (pair_rows perf).
Proof.
  intros Hidx. unfold pair_rows.
  destruct (_ && _); [|constructor].
  destruct (duplicated_subset _ _ _); [by apply index_where_sorted | constructor].
Qed.

Lemma dup_rows_sorted (dept : DataFrame) (col : string) :
  range_index dept -> StronglySorted lt (dup_rows dept col).
Proof.
  intros Hidx. unfold dup_rows.
  destruct (has_column dept col); [|constructor].
  destruct (getitem dept col); [by apply index_where_sorted | constructor].
Qed.

(** *** The Department block, record by record *)

Lemma dept_missing_rows (dept : DataFrame) (ex : list exception_record) :
  exists es,
    for_each (dept_missing_body dept) (isna_nonzero dept) ex = Ok (ex ++ es)
    /\ Forall2 (missing_record dept) (isna_nonzero dept) es.
Proof.
  destruct (for_each_collect (fun acc e => acc ++ [e]) (missing_record dept)
              (dept_missing_body dept) (isna_nonzero dept)) with (s := ex)
    as (es & Hes & HQ).
  - intros acc [r c] Hrc. unfold isna_nonzero in Hrc.
    apply list_elem_of_In, in_flat_map in Hrc as ([r' row] & _ & Hrc).
    apply list_elem_of_In, list_elem_of_fmap in Hrc as (c' & [= -> ->] & Hc).
    apply list_elem_of_In, filter_In in Hc as [Hc _]. apply in_seq in Hc.
    destruct (lookup_lt_is_Some_2 (columns dept) c') as [name Hname]; [lia|].
    unfold dept_missing_body, column_name. simpl. rewrite Hname. simpl.
    eexists. split; [reflexivity|]. by repeat split.
  - exists es. by rewrite Hes, foldl_snoc.
Qed.

Lemma dept_duplicates_rows (dept : DataFrame) (col issue : string)
    (ex : list exception_record) :
  range_index dept ->
  exists es,
    dept_duplicates dept col issue ex = Ok (ex ++ es)
    /\ Forall2 (rule_record col issue) (dup_rows dept col) es.
Proof.
  intros Hidx. unfold dept_duplicates, dup_rows. destruct (has_column dept col) eqn:Hc.
  - apply has_column_true in Hc.
    destruct (getitem_Ok dept col Hc) as (j & _ & _ & ->). simpl.
    match goal with |- context [index_where dept ?m] => generalize m end. intros mask.
    destruct (for_each_collect (fun acc e => acc ++ [e]) (rule_record col issue)
                (dept_duplicate_body dept col issue) (index_where dept mask)) with (s := ex)
      as (es & Hes & HQ).
    + intros acc r Hr. apply index_where_label in Hr.
      destruct (loc_Ok dept r col Hidx Hr Hc) as [v Hv].
      unfold dept_duplicate_body. rewrite Hv. simpl. eexists. split; [reflexivity|].
      by repeat split.
    + exists es. by rewrite Hes, foldl_snoc.
  - exists []. rewrite app_nil_r. split; [reflexivity | constructor].
Qed.

Lemma isna_nonzero_empty (dept : DataFrame) :
  range_index dept -> empty dept = true -> isna_nonzero dept = [].
Proof.
  unfold empty, isna_nonzero. intros Hidx He.
  destruct (index dept) as [|r idx] eqn:Hi.
  - unfold range_index in Hidx. rewrite Hi in Hidx.
    destruct (data dept); [reflexivity|discriminate].
  - destruct (columns dept); [|discriminate]. simpl.
    induction (zip _ _) as [|[r' row] l IH]; simpl; [reflexivity|exact IH].
Qed.

Lemma dup_rows_empty (dept : DataFrame) (col : string) :
  empty dept = true -> dup_rows dept col = [].
Proof.
  unfold empty, dup_rows. intros He.
  destruct (has_column dept col) eqn:Hc; [|reflexivity].
  destruct (getitem dept col); [|reflexivity].
  unfold index_where. destruct (index dept); [reflexivity|].
  apply has_column_true in Hc. destruct (columns dept); [|discriminate].
  by apply elem_of_nil in Hc.
Qed.

(** What the Department block returns, with the rows of each record. *)
Lemma department_checks_rows (dept : DataFrame) :
  range_index dept ->
  exists ms ks vs,
    department_checks dept
    = Ok (ms ++ ks ++ vs ++ omap doe_verdict (column_items dept "DOE"))
    /\ Forall2 (missing_record dept) (isna_nonzero dept) ms
    /\ Forall2 (rule_record "Department_ID" "Duplicate Key")
               (dup_rows dept "Department_ID") ks
    /\ Forall2 (rule_record "Department_Name" "Duplicate Value")
               (dup_rows dept "Department_Name") vs.
Proof.
  intros Hidx. unfold department_checks. destruct (empty dept) eqn:He.
  - exists [], [], []. rewrite (empty_column_items _ _ He), (isna_nonzero_empty _ Hidx He),
      !(dup_rows_empty _ _ He).
    repeat split; constructor.
  - destruct (dept_missing_rows dept []) as (ms & -> & Hms). simpl.
    destruct (dept_duplicates_rows dept "Department_ID" "Duplicate Key" ms Hidx)
      as (ks & -> & Hks). simpl.
    destruct (dept_duplicates_rows dept "Department_Name" "Duplicate Value" (ms ++ ks) Hidx)
      as (vs & -> & Hvs). simpl.
    exists ms, ks, vs. rewrite dept_doe_eq, <- !app_assoc. done.
Qed.

(** The Department report of a run, with the rows of each record. *)
Lemma dept_ex_rows (engine : Engine) (o : outputs) :
  let dept := read_sql (Department_Information engine) in
  run_part2_etl engine = Ok o ->
  exists ms ks vs,
    dept_ex o = ms ++ ks ++ vs ++ omap doe_verdict (column_items dept "DOE")
    /\ Forall2 (missing_record dept) (isna_nonzero dept) ms
    /\ Forall2 (rule_record "Department_ID" "Duplicate Key")
               (dup_rows dept "Department_ID") ks
    /\ Forall2 (rule_record "Department_Name" "Duplicate Value")
               (dup_rows dept "Department_Name") vs.
Proof.
  intros dept Hrun.
  destruct (run_part2_etl_Ok engine) as (dex & sex & st & c & Hd & _ & _ & _ & Hrun').
  rewrite Hrun in Hrun'. injection Hrun' as ->. simpl.
  destruct (department_checks_rows dept (read_sql_range_index _))
    as (ms & ks & vs & Hd' & H).
  fold dept in Hd. rewrite Hd in Hd'. injection Hd' as ->. eauto.
Qed.

(** *** Flagged rows *)

Lemma elem_of_index_where (df : DataFrame) (mask : list bool) (r : nat) :
  range_index df ->
  r ∈ index_where df mask <-> r < length (data df) /\ mask !! r = Some true.
Proof.
  intros Hidx. unfold index_where. rewrite Hidx, list_elem_of_fmap. split.
  - intros ([r' b] & -> & H). apply list_elem_of_In, filter_In in H as [H Hb].
    apply list_elem_of_In, elem_of_zip_seq in H. simpl in *. by subst b.
  - intros [Hr Hm]. exists (r, true). split; [reflexivity|].
    apply list_elem_of_In, filter_In. split; [|reflexivity].
    by apply list_elem_of_In, elem_of_zip_seq.
Qed.

Lemma filter_length_pos {A : Type} (f : A -> bool) (l : list A) (i : nat) (x : A) :
  l !! i = Some x -> f x = true -> 1 <= length (List.filter f l).
Proof.
  intros Hi Hx. assert (Hin : In x (List.filter f l)).
  { apply filter_In. split; [|exact Hx]. by eapply list_elem_of_In, list_elem_of_lookup_2. }
  destruct (List.filter f l); [destruct Hin | simpl; lia].
Qed.

Lemma filter_length_pos_inv {A : Type} (f : A -> bool) (l : list A) :
  1 <= length (List.filter f l) -> exists i x, l !! i = Some x /\ f x = true.
Proof.
  intros Hlen. destruct (List.filter f l) as [|x k] eqn:Hf; [simpl in Hlen; lia|].
  assert (Hin : In x (List.filter f l)) by (rewrite Hf; by left).
  apply filter_In in Hin as [Hin Hx].
  apply list_elem_of_In, list_elem_of_lookup in Hin as [i Hi]. eauto.
Qed.

(** A list holds two elements that [f] accepts, at two positions,
    exactly when its filter is of length two or more. *)
Lemma filter_length_two {A : Type} (f : A -> bool) (l : list A) :
  2 <= length (List.filter f l)
  <-> exists i j x y, i <> j /\ l !! i = Some x /\ l !! j = Some y
                      /\ f x = true /\ f y = true.
Proof.
  induction l as [|a l IH]; simpl.
  - split; [lia|]. intros (i & j & x & y & _ & Hi & _). by rewrite lookup_nil in Hi.
  - destruct (f a) eqn:Ha; simpl.
    + split.
      * intros Hlen. destruct (filter_length_pos_inv f l) as (j & y & Hj & Hy); [lia|].
        exists 0, (S j), a, y. done.
      * intros (i & j & x & y & Hne & Hi & Hj & Hx & Hy).
        destruct i as [|i], j as [|j]; simpl in *; try done.
        -- pose proof (filter_length_pos f l j y Hj Hy). lia.
        -- pose proof (filter_length_pos f l i x Hi Hx). lia.
        -- pose proof (filter_length_pos f l j y Hj Hy). lia.
    + rewrite IH. split.
      * intros (i & j & x & y & Hne & Hi & Hj & Hx & Hy).
        exists (S i), (S j), x, y. repeat split; try done. lia.
      * intros (i & j & x & y & Hne & Hi & Hj & Hx & Hy).
        destruct i as [|i], j as [|j]; simpl in *; simplify_eq; try congruence.
        exists i, j, x, y. repeat split; try done. lia.
Qed.

(** [duplicated(keep=False)] flags a position exactly when another
    position holds an equal key. *)
Lemma duplicated_lookup {K : Type} (eqb : K -> K -> bool) (keys : list K) (r : nat) :
  (forall k, eqb k k = true) ->
  duplicated eqb keys !! r = Some true
  <-> exists k r' k', keys !! r = Some k /\ keys !! r' = Some k' /\ r' <> r
                      /\ eqb k k' = true.
Proof.
  intros Hrefl. unfold duplicated. rewrite list_lookup_fmap.
  destruct (keys !! r) as [k|] eqn:Hk.
  - transitivity (2 <= length (List.filter (eqb k) keys)).
    { split; [intros [= H]; by apply Nat.leb_le | intros H; apply (f_equal Some); by apply Nat.leb_le]. }
    rewrite filter_length_two. split.
    + intros (i & j & x & y & Hne & Hi & Hj & Hx & Hy).
      destruct (decide (i = r)) as [->|Hir].
      * exists k, j, y. repeat split; try done; congruence.
      * exists k, i, x. done.
    + intros (k0 & r' & k' & [= <-] & Hr' & Hne & Heq).
      exists r, r', k, k'. repeat split; try done; congruence.
  - split; [discriminate|]. intros (k & r' & k' & ? & _). discriminate.
Qed.

Lemma SFeqb_refl (f : float) : float_is_nan f = false -> SFeqb f f = true.
Proof.
  unfold SFeqb, SFcompare. destruct f as [s|s| |s m e]; try done.
  - by destruct s.
  - intros _. destruct s; rewrite Z.compare_refl, Pos.compare_cont_refl; reflexivity.
Qed.

Lemma value_eqb_refl (v : value) : value_eqb v v = true.
Proof.
  destruct v as [|n|f|s]; simpl.
  - reflexivity.
  - apply Z.eqb_refl.
  - destruct (float_is_nan f) eqn:Hf; [reflexivity|]. by apply SFeqb_refl.
  - apply String.eqb_refl.
Qed.

Lemma na_eqb_refl (v : value) : na_eqb v v = true.
Proof.
  unfold na_eqb. destruct (isna v) eqn:Hv; [reflexivity|]. simpl. apply value_eqb_refl.
Qed.

(** A cell of a column, by row position. *)
Lemma column_items_lookup (df : DataFrame) (c : string) (vs : list value)
    (r : nat) (v : value) :
  range_index df ->
  getitem df c = Ok vs ->
  (r, v) ∈ column_items df c <-> vs !! r = Some v.
Proof.
  intros Hidx Hget. unfold column_items, items. rewrite Hget. simpl.
  rewrite Hidx, elem_of_zip_seq. split; [by intros [_ ?]|].
  intros Hv. split; [|exact Hv].
  apply getitem_inv in Hget as (j & _ & _ & ->).
  apply lookup_lt_Some in Hv. by rewrite length_map in Hv.
Qed.

(** The rows that a duplicate rule of the Department block visits. *)
Lemma elem_of_dup_rows (dept : DataFrame) (col : string) (r : nat) :
  range_index dept ->
  r ∈ dup_rows dept col
  <-> exists v r' v', (r, v) ∈ column_items dept col /\ (r', v') ∈ column_items dept col
                      /\ r' <> r /\ value_eqb v v' = true.
Proof.
  intros Hidx. unfold dup_rows. destruct (has_column dept col) eqn:Hc.
  - apply has_column_true in Hc. destruct (getitem_Ok dept col Hc) as (j & _ & _ & Hget).
    rewrite Hget, (elem_of_index_where _ _ _ Hidx), (duplicated_lookup _ _ _ value_eqb_refl).
    setoid_rewrite (column_items_lookup _ _ _ _ _ Hidx Hget). split.
    + intros (_ & k & r' & k' & H). eauto 10.
    + intros (v & r' & v' & Hv & H). split; [|eauto 10].
      apply lookup_lt_Some in Hv. by rewrite length_map in Hv.
  - apply has_column_false in Hc. rewrite (column_items_absent _ _ Hc). split.
    + intros H. by apply elem_of_nil in H.
    + intros (v & _ & _ & H & _). by apply elem_of_nil in H.
Qed.

(** The rows that the Duplicate Pair rule visits. *)
Lemma elem_of_pair_rows (perf : DataFrame) (r : nat) :
  range_index perf ->
  r ∈ pair_rows perf
  <-> exists a b r' a' b',
        (r, a) ∈ column_items perf "Student_ID" /\ (r, b) ∈ column_items perf "Paper_ID"
        /\ (r', a') ∈ column_items perf "Student_ID"
        /\ (r', b') ∈ column_items perf "Paper_ID"
        /\ r' <> r /\ na_eqb a a' = true /\ na_eqb b b' = true.
Proof.
  intros Hidx. unfold pair_rows.
  destruct (has_column perf "Student_ID") eqn:Ha; simpl;
    [destruct (has_column perf "Paper_ID") eqn:Hb; simpl|].
  - apply has_column_true in Ha, Hb.
    destruct (getitem_Ok perf _ Ha) as (ja & _ & _ & Hga).
    destruct (getitem_Ok perf _ Hb) as (jb & _ & _ & Hgb).
    unfold duplicated_subset. rewrite Hga, Hgb. simpl.
    rewrite (elem_of_index_where _ _ _ Hidx), duplicated_lookup;
      [|intros [a b]; simpl; by rewrite !na_eqb_refl].
    setoid_rewrite (column_items_lookup _ _ _ _ _ Hidx Hga).
    setoid_rewrite (column_items_lookup _ _ _ _ _ Hidx Hgb).
    setoid_rewrite lookup_zip_with_Some. split.
    + intros (_ & [a b] & r' & [a' b'] & (a0 & b0 & [= <- <-] & Ha0 & Hb0)
                & (a1 & b1 & [= <- <-] & Ha1 & Hb1) & Hne & Heq).
      apply andb_true_iff in Heq as [? ?]. exists a, b, r', a', b'. done.
    + intros (a & b & r' & a' & b' & Hra & Hrb & Hra' & Hrb' & Hne & Hea & Heb). split.
      * apply lookup_lt_Some in Hra. by rewrite length_map in Hra.
      * exists (a, b), r', (a', b'). simpl. rewrite Hea, Heb. eauto 12.
  - apply has_column_false in Hb. rewrite (column_items_absent _ "Paper_ID" Hb). split.
    + intros H. by apply elem_of_nil in H.
    + intros (a & b & r' & a' & b' & _ & H & _). by apply elem_of_nil in H.
  - apply has_column_false in Ha. rewrite (column_items_absent _ "Student_ID" Ha). split.
    + intros H. by apply elem_of_nil in H.
    + intros (a & b & r' & a' & b' & H & _). by apply elem_of_nil in H.
Qed.

(** *** Records and rows *)

Lemma recorded_rule_records (col issue : string) (rows : list nat)
    (es : list exception_record) (r : nat) :
  Forall2 (rule_record col issue) rows es ->
  recorded es r col issue = true <-> r ∈ rows.
Proof.
  intros H. rewrite recorded_true. split.
  - intros (e & He & Hr & _). apply list_elem_of_lookup in He as [k Hk].
    destruct (Forall2_lookup_r _ _ _ _ _ H Hk) as (r' & Hr' & Hr'' & _).
    apply list_elem_of_lookup_2 in Hr'. congruence.
  - intros Hr. apply list_elem_of_lookup in Hr as [k Hk].
    destruct (Forall2_lookup_l _ _ _ _ _ H Hk) as (e & He & Hrec).
    exists e. split; [by eapply list_elem_of_lookup_2 | exact Hrec].
Qed.

Lemma rule_records_shape (col issue : string) (rows : list nat)
    (es : list exception_record) :
  Forall2 (rule_record col issue) rows es ->
  Forall (fun e => column e = col) es /\ Forall (fun e => issue_type e = issue) es.
Proof.
  intros H. split; (eapply Forall2_Forall_r; [exact H|]); apply Forall_forall;
    intros r _ e (_ & Hc & Hi); assumption.
Qed.

Lemma missing_records_issue (dept : DataFrame) (cs : list (nat * nat))
    (es : list exception_record) :
  Forall2 (missing_record dept) cs es -> Forall (fun e => issue_type e = "Missing") es.
Proof.
  intros H. eapply Forall2_Forall_r; [exact H|]. apply Forall_forall.
  intros rc _ e (_ & _ & Hi). exact Hi.
Qed.

Lemma omap_nil {A B : Type} (f : A -> option B) (l : list A) :
  (forall x, x ∈ l -> f x = None) -> omap f l = [].
Proof.
  induction l as [|x l IH]; intros Hf; simpl; [reflexivity|].
  rewrite (Hf x) by left. apply IH. intros y Hy. apply Hf. by right.
Qed.

(** Whether a rule has a record for a cell does not depend on the row
    the cell is in. *)
Lemma marks_verdict_label (r r' : nat) (v : value) :
  is_Some (marks_verdict (r, v)) -> is_Some (marks_verdict (r', v)).
Proof.
  unfold marks_verdict. simpl.
  destruct (py_float v) as [f|]; [destruct (negb _)|]; intros [x Hx]; by try discriminate.
Qed.

Lemma effort_verdict_label (r r' : nat) (v : value) :
  is_Some (effort_verdict (r, v)) -> is_Some (effort_verdict (r', v)).
Proof.
  unfold effort_verdict. simpl.
  destruct (py_int v) as [i|]; [destruct (_ || _)|]; intros [x Hx]; by try discriminate.
Qed.

(** *** The cleaned frame *)

Lemma clean_range_index (engine : Engine) (o : outputs) :
  run_part2_etl engine = Ok o -> range_index (perf_clean o).
Proof.
  intros Hrun.
  destruct (run_spec engine)
    as (o' & ms & ks & vs & ids & es & kept & Hrun' & _ & _ & _ & Hclean).
  rewrite Hrun in Hrun'. injection Hrun' as <-.
  destruct Hclean as (_ & _ & Hindex & _ & _ & Hrows & _).
  unfold range_index. rewrite Hindex. f_equal. by eapply Forall2_length.
Qed.

(** A row of the cleaned frame is a row of the input without a null. *)
Lemma clean_row_no_null (engine : Engine) (o : outputs) (row : list value) :
  run_part2_etl engine = Ok o ->
  row ∈ data (perf_clean o) ->
  has_null (perf_clean o) row = false.
Proof.
  intros Hrun Hrow.
  destruct (run_spec engine)
    as (o' & ms & ks & vs & ids & es & kept & Hrun' & _ & _ & Hperf & Hclean).
  rewrite Hrun in Hrun'. injection Hrun' as <-.
  destruct Hperf as (_ & _ & HD).
  destruct Hclean as (_ & Hcols & _ & _ & Hkept & Hrows & _).
  apply list_elem_of_lookup in Hrow as [j Hj].
  destruct (Forall2_lookup_r _ _ _ _ _ Hrows Hj) as (i & Hi & Horig).
  apply list_elem_of_lookup_2, Hkept in Hi as [_ Hi].
  unfold has_null, cells. rewrite Hcols.
  apply not_true_iff_false. intros Hnull. apply Hi, HD. left.
  apply (elem_of_miss_rows _ _ (read_sql_range_index _)). eauto.
Qed.

(** The records of a row-by-row rule for one row are the verdict on the
    cell of that row. *)
Lemma recorded_verdict_at (verdict : nat * value -> option exception_record)
    (df : DataFrame) (c : string) (r : nat) (v : value) (col issue : string) :
  range_index df ->
  (forall rv e, verdict rv = Some e -> row_index e = rv.1) ->
  (r, v) ∈ column_items df c ->
  recorded (omap verdict (column_items df c)) r col issue = true
  <-> exists x, verdict (r, v) = Some x /\ column x = col /\ issue_type x = issue.
Proof.
  intros Hidx Hrow Hrv. rewrite recorded_omap. split.
  - intros ([r' v'] & x & Hrv' & Hx & Hr & Hc & Hi).
    pose proof (Hrow _ _ Hx) as Hr'. simpl in Hr'. rewrite Hr in Hr'. subst r'.
    rewrite (column_items_functional _ _ _ _ _ Hidx Hrv' Hrv) in Hx. eauto.
  - intros (x & Hx & Hc & Hi). exists (r, v), x.
    pose proof (Hrow _ _ Hx) as Hr. done.
Qed.

(** The Effort_Hours records of the Performance report are those of the
    Effort_Hours rule. *)
Lemma recorded_effort (perf : DataFrame) (es : list exception_record)
    (r : nat) (issue : string) :
  Forall (fun e => column e = "Student_ID,Paper_ID") es ->
  recorded
    (((fun r => mkEx r "(row)" "Missing" "Missing values in row") <$> miss_rows perf)
       ++ omap marks_verdict (column_items perf "Marks")
       ++ omap effort_verdict (column_items perf "Effort_Hours")
       ++ es) r "Effort_Hours" issue
  = recorded (omap effort_verdict (column_items perf "Effort_Hours")) r "Effort_Hours" issue.
Proof.
  intros Hes. rewrite !recorded_app.
  rewrite (recorded_other_column _ "(row)"); [|by apply Forall_fmap, Forall_true|done].
  rewrite (recorded_other_column (omap marks_verdict _) "Marks"); [| |done].
  - rewrite (recorded_other_column es "Student_ID,Paper_ID"); [|done|done].
    simpl. by rewrite orb_false_r.
  - apply omap_column. intros rv e He. by apply marks_verdict_shape in He as (_ & ? & _).
Qed.

(** The records on the whole row are those of the rows with a null. *)
Lemma recorded_whole_row (perf : DataFrame) (es : list exception_record) (r : nat) :
  Forall (fun e => column e = "Student_ID,Paper_ID") es ->
  recorded
    (((fun r => mkEx r "(row)" "Missing" "Missing values in row") <$> miss_rows perf)
       ++ omap marks_verdict (column_items perf "Marks")
       ++ omap effort_verdict (column_items perf "Effort_Hours")
       ++ es) r "(row)" "Missing" = true
  <-> r ∈ miss_rows perf.
Proof.
  intros Hes. rewrite !recorded_app.
  rewrite (recorded_other_column (omap marks_verdict _) "Marks"); [| |done].
  2: { apply omap_column. intros rv e He. by apply marks_verdict_shape in He as (_ & ? & _). }
  rewrite (recorded_other_column (omap effort_verdict _) "Effort_Hours"); [| |done].
  2: { apply omap_column. intros rv e He. by apply effort_verdict_shape in He as (_ & ? & _). }
  rewrite (recorded_other_column es "Student_ID,Paper_ID"); [|done|done].
  rewrite !orb_false_r, recorded_true. split.
  - intros (e & He & Hr & _). apply list_elem_of_fmap in He as (r' & -> & Hr').
    simpl in Hr. by rewrite <- Hr.
  - intros Hr. eexists. split; [apply list_elem_of_fmap; eauto|done].
Qed.

(** *** Order and range of the records *)

Lemma sorted_NoDup (l : list nat) : StronglySorted lt l -> NoDup l.
Proof.
  induction 1 as [|x l Hl IH Hx]; constructor; [|exact IH].
  intros Hin. rewrite Forall_forall in Hx. apply Hx in Hin. lia.
Qed.

Lemma in_row_order_NoDup (es : list exception_record) : in_row_order es -> NoDup es.
Proof. intros H. eapply NoDup_fmap_1, sorted_NoDup, H. Qed.

Lemma in_row_order_verdicts (verdict : nat * value -> option exception_record)
    (df : DataFrame) (c : string) :
  range_index df ->
  (forall rv e, verdict rv = Some e -> row_index e = rv.1) ->
  in_row_order (omap verdict (column_items df c)).
Proof. apply verdicts_sorted. Qed.

Lemma in_row_order_rule_records (col issue : string) (rows : list nat)
    (es : list exception_record) :
  Forall2 (rule_record col issue) rows es -> StronglySorted lt rows -> in_row_order es.
Proof.
  intros H Hs. unfold in_row_order. by rewrite (Forall2_rule_record_rows _ _ _ _ H).
Qed.

Lemma in_row_order_pair_records (rows : list nat) (es : list exception_record) :
  Forall2 pair_record rows es -> StronglySorted lt rows -> in_row_order es.
Proof.
  intros H Hs. unfold in_row_order. by rewrite (Forall2_pair_record_rows _ _ H).
Qed.

Lemma row_missing_rows (rows : list nat) :
  row_index <$> ((fun r => mkEx r "(row)" "Missing" "Missing values in row") <$> rows) = rows.
Proof. induction rows as [|r rows IH]; [reflexivity|]. rewrite !fmap_cons. by f_equal. Qed.

Lemma other_column_disjoint (c c' : string) (a b : list exception_record) :
  Forall (fun e => column e = c) a -> Forall (fun e => column e = c') b -> c <> c' ->
  forall x, x ∈ a -> x ∉ b.
Proof.
  rewrite !Forall_forall. intros Ha Hb Hc x Hxa Hxb.
  apply Ha in Hxa. apply Hb in Hxb. congruence.
Qed.

Lemma other_issue_disjoint (i i' : string) (a b : list exception_record) :
  Forall (fun e => issue_type e = i) a -> Forall (fun e => issue_type e = i') b -> i <> i' ->
  forall x, x ∈ a -> x ∉ b.
Proof.
  rewrite !Forall_forall. intros Ha Hb Hc x Hxa Hxb.
  apply Ha in Hxa. apply Hb in Hxb. congruence.
Qed.

Lemma elem_of_isna_nonzero (df : DataFrame) (r c : nat) :
  (r, c) ∈ isna_nonzero df
  <-> exists row, data df !! r = Some row /\ c < length (columns df)
                  /\ isna (cell row c) = true.
Proof.
  unfold isna_nonzero. rewrite list_elem_of_In, in_flat_map. split.
  - intros ([r' row] & Hin & Hrc).
    apply list_elem_of_In, elem_of_zip_seq in Hin as [_ Hrow].
    apply list_elem_of_In, list_elem_of_fmap in Hrc as (c' & [= -> ->] & Hc).
    apply list_elem_of_In, filter_In in Hc as [Hc Hna]. apply in_seq in Hc.
    exists row. split; [done|]. split; [lia|done].
  - intros (row & Hrow & Hc & Hna). exists (r, row). split.
    + apply list_elem_of_In, elem_of_zip_seq. split; [by eapply lookup_lt_Some|done].
    + apply list_elem_of_In, list_elem_of_fmap. exists c. split; [done|].
      apply list_elem_of_In, filter_In. split; [apply in_seq; lia|done].
Qed.

Lemma null_cells_sorted (f : nat -> list value -> nat -> bool) (n a : nat)
    (rows : list (list value)) :
  StronglySorted cell_lt
    (flat_map (fun '(r, row) => (fun c => (r, c)) <$> List.filter (f r row) (seq 0 n))
              (zip (seq a (length rows)) rows)).
Proof.
  revert a. induction rows as [|row rows IH]; intros a; simpl; [constructor|].
  apply StronglySorted_app_2; [| |apply IH].
  - intros [r c] [r' c'] H1 H2.
    apply list_elem_of_fmap in H1 as (c1 & [= -> ->] & _).
    apply list_elem_of_In, in_flat_map in H2 as ([r2 row2] & Hin & H2).
    apply list_elem_of_In, list_elem_of_fmap in H2 as (c2 & [= -> ->] & _).
    apply in_combine_l, in_seq in Hin. left. simpl. lia.
  - apply (fmap_sorted lt); [intros c c' Hc; right; by split|].
    apply filter_sorted. clear. generalize 0. induction n as [|n IH]; intros b; simpl.
    + constructor.
    + constructor; [apply IH|]. apply Forall_forall. intros x Hx.
      apply list_elem_of_In, in_seq in Hx. lia.
Qed.

Lemma isna_nonzero_sorted (df : DataFrame) : StronglySorted cell_lt (isna_nonzero df).
Proof.
  unfold isna_nonzero.
  apply (null_cells_sorted (fun _ row c => isna (cell row c))).
Qed.

Lemma elem_of_rule_rows (col issue : string) (rows : list nat)
    (es : list exception_record) (e : exception_record) :
  Forall2 (rule_record col issue) rows es -> e ∈ es -> row_index e ∈ rows.
Proof.
  intros H He. apply list_elem_of_lookup in He as [k Hk].
  destruct (Forall2_lookup_r _ _ _ _ _ H Hk) as (r & Hr & <- & _).
  by eapply list_elem_of_lookup_2.
Qed.

Lemma column_items_row (df : DataFrame) (c : string) (r : nat) (v : value) :
  range_index df -> (r, v) ∈ column_items df c -> r < length (data df) /\ c ∈ columns df.
Proof.
  intros Hidx H. apply (elem_of_column_items _ _ _ _ Hidx) in H as (j & row & Hj & Hrow & _).
  split; [by eapply lookup_lt_Some|].
  apply column_pos_lookup in Hj. by eapply list_elem_of_lookup_2.
Qed.

Lemma dup_rows_row (dept : DataFrame) (col : string) (r : nat) :
  range_index dept -> r ∈ dup_rows dept col -> r < length (data dept) /\ col ∈ columns dept.
Proof.
  intros Hidx H. apply (elem_of_dup_rows _ _ _ Hidx) in H as (v & _ & _ & H & _).
  by eapply column_items_row.
Qed.

Lemma pair_rows_row (perf : DataFrame) (r : nat) :
  range_index perf -> r ∈ pair_rows perf -> r < length (data perf).
Proof.
  intros Hidx H. apply (elem_of_pair_rows _ _ Hidx) in H as (a & _ & _ & _ & _ & H & _).
  by eapply column_items_row.
Qed.

Lemma miss_rows_row (perf : DataFrame) (r : nat) :
  range_index perf -> r ∈ miss_rows perf -> r < length (data perf).
Proof.
  intros Hidx H. apply (elem_of_miss_rows _ _ Hidx) in H as (row & H & _).
  by eapply lookup_lt_Some.
Qed.

(** *** Reading the Department and Performance reports *)

Lemma recorded_no_issue (part : list exception_record) (r : nat) (col issue : string) :
  Forall (fun e => issue_type e <> issue) part -> recorded part r col issue = false.
Proof.
  intros H. apply recorded_false. intros e He (_ & _ & Hi).
  rewrite Forall_forall in H. by apply (H e He).
Qed.

Lemma recorded_missing_records (dept : DataFrame) (cs : list (nat * nat))
    (es : list exception_record) (r : nat) (c : string) :
  Forall2 (missing_record dept) cs es ->
  recorded es r c "Missing" = true
  <-> exists j, (r, j) ∈ cs /\ columns dept !! j = Some c.
Proof.
  intros H. rewrite recorded_true. split.
  - intros (e & He & Hr & Hc & _). apply list_elem_of_lookup in He as [k Hk].
    destruct (Forall2_lookup_r _ _ _ _ _ H Hk) as ([r' j] & Hrj & Hr' & Hj & _).
    simpl in *. exists j. split; [|congruence].
    apply list_elem_of_lookup_2 in Hrj. congruence.
  - intros (j & Hrj & Hj). apply list_elem_of_lookup in Hrj as [k Hk].
    destruct (Forall2_lookup_l _ _ _ _ _ H Hk) as (e & He & Hr & Hc & Hi).
    simpl in *. exists e. split; [by eapply list_elem_of_lookup_2|].
    split; [done|]. split; [congruence|done].
Qed.

Lemma doe_records_issue (its : list (nat * value)) (issue : string) :
  issue <> "Out-of-Range" -> issue <> "Invalid Type" ->
  Forall (fun e => issue_type e <> issue) (omap doe_verdict its).
Proof.
  intros H1 H2. apply Forall_forall. intros e He.
  apply list_elem_of_omap in He as (rv & _ & He).
  apply doe_verdict_shape in He as (_ & _ & [-> | ->]); congruence.
Qed.

(** The Duplicate Key and Duplicate Value records of the Department
    report are on the rows that the two rules visit. *)
Lemma recorded_duplicates (engine : Engine) (o : outputs) (r : nat) :
  let dept := read_sql (Department_Information engine) in
  run_part2_etl engine = Ok o ->
  (recorded (dept_ex o) r "Department_ID" "Duplicate Key" = true
   <-> r ∈ dup_rows dept "Department_ID")
  /\ (recorded (dept_ex o) r "Department_Name" "Duplicate Value" = true
      <-> r ∈ dup_rows dept "Department_Name").
Proof.
  intros dept Hrun.
  destruct (dept_ex_rows engine _ Hrun) as (ms & ks & vs & Hex & Hms & Hks & Hvs).
  fold dept in Hex, Hms, Hks, Hvs. rewrite Hex, !recorded_app.
  pose proof (missing_records_issue _ _ _ Hms) as Hmi.
  destruct (rule_records_shape _ _ _ _ Hks) as [_ Hki].
  destruct (rule_records_shape _ _ _ _ Hvs) as [_ Hvi].
  split.
  - rewrite (recorded_other_issue ms "Missing"); [|done|done].
    rewrite (recorded_other_issue vs "Duplicate Value"); [|done|done].
    rewrite (recorded_no_issue (omap doe_verdict _)); [|by apply doe_records_issue].
    simpl. rewrite !orb_false_r. by apply recorded_rule_records.
  - rewrite (recorded_other_issue ms "Missing"); [|done|done].
    rewrite (recorded_other_issue ks "Duplicate Key"); [|done|done].
    rewrite (recorded_no_issue (omap doe_verdict _)); [|by apply doe_records_issue].
    simpl. rewrite !orb_false_r. by apply recorded_rule_records.
Qed.

(** The Duplicate Pair records of the Performance report are on the rows
    that the rule visits. *)
Lemma recorded_pair (engine : Engine) (o : outputs) (r : nat) :
  run_part2_etl engine = Ok o ->
  recorded (perf_report o) r "Student_ID,Paper_ID" "Duplicate Pair" = true
  <-> r ∈ pair_rows (read_sql (Student_Performance_Data engine)).
Proof.
  intros Hrun.
  destruct (run_spec engine)
    as (o' & ms & ks & vs & ids & es & kept & Hrun' & _ & _ & Hperf & _).
  rewrite Hrun in Hrun'. injection Hrun' as <-.
  destruct Hperf as (Hex & Hes & _). rewrite Hex, !recorded_app.
  rewrite (recorded_other_column _ "(row)"); [|by apply Forall_fmap, Forall_true|done].
  rewrite (recorded_other_column (omap marks_verdict _) "Marks"); [| |done].
  2: { apply omap_column. intros rv e He. by apply marks_verdict_shape in He as (_ & ? & _). }
  rewrite (recorded_other_column (omap effort_verdict _) "Effort_Hours"); [| |done].
  2: { apply omap_column. intros rv e He. by apply effort_verdict_shape in He as (_ & ? & _). }
  simpl. by apply (recorded_rule_records "Student_ID,Paper_ID" "Duplicate Pair").
Qed.

(** *** Equality of keys *)

Lemma SFeqb_sym (a b : float) : SFeqb a b = SFeqb b a.
Proof.
  unfold SFeqb, SFcompare.
  destruct a as [s|s| |s m e], b as [s'|s'| |s' m' e']; try reflexivity;
    try (destruct s, s'; reflexivity); try (destruct s; reflexivity);
    try (destruct s'; reflexivity).
  destruct s, s'; try reflexivity.
  - rewrite (Z.compare_antisym e e'). destruct (e ?= e')%Z; try reflexivity. simpl.
    change (Pos.compare_cont Eq m' m) with (Pos.compare m' m).
    change (Pos.compare_cont Eq m m') with (Pos.compare m m').
    rewrite (Pos.compare_antisym m m'). by destruct (m ?= m')%positive.
  - rewrite (Z.compare_antisym e e'). destruct (e ?= e')%Z; try reflexivity. simpl.
    change (Pos.compare_cont Eq m' m) with (Pos.compare m' m).
    change (Pos.compare_cont Eq m m') with (Pos.compare m m').
    rewrite (Pos.compare_antisym m m'). by destruct (m ?= m')%positive.
Qed.

Lemma value_eqb_sym (v w : value) : value_eqb v w = value_eqb w v.
Proof.
  destruct v as [|a|a|a], w as [|b|b|b]; simpl; try reflexivity.
  - apply Z.eqb_sym.
  - by rewrite SFeqb_sym, (andb_comm (float_is_nan a)).
  - apply String.eqb_sym.
Qed.

Lemma na_eqb_sym (v w : value) : na_eqb v w = na_eqb w v.
Proof.
  unfold na_eqb. rewrite (value_eqb_sym v w).
  by destruct (isna v), (isna w).
Qed.

(** *** The Department keys *)

Lemma department_ids_keys (dept : DataFrame) (ids : gset string) (s : string) :
  range_index dept ->
  department_ids dept = Ok ids ->
  s ∈ ids <-> exists w, department_key dept w /\ py_str w = s.
Proof.
  intros Hidx. unfold department_ids, department_key.
  destruct (has_column dept "Department_ID") eqn:Hc.
  - apply has_column_true in Hc. destruct (getitem_Ok _ _ Hc) as (j & _ & _ & Hget).
    rewrite Hget. simpl. intros [= <-]. rewrite elem_of_list_to_set, list_elem_of_fmap.
    setoid_rewrite (column_items_lookup _ _ _ _ _ Hidx Hget). split.
    + intros (w & -> & Hw). apply list_elem_of_In, filter_In in Hw as [Hin Hna].
      apply list_elem_of_In, list_elem_of_lookup in Hin as [r Hr].
      exists w. split; [|done]. split; [by destruct (isna w)|eauto].
    + intros (w & (Hna & r & Hr) & <-). exists w. split; [done|].
      apply list_elem_of_In, filter_In. split; [|by rewrite Hna].
      apply list_elem_of_In. by eapply list_elem_of_lookup_2.
  - apply has_column_false in Hc. intros [= <-]. rewrite (column_items_absent _ _ Hc). split.
    + intros H. by apply not_elem_of_empty in H.
    + intros (w & (_ & r & Hr) & _). by apply elem_of_nil in Hr.
Qed.

Lemma department_ids_nonempty (dept : DataFrame) (ids : gset string) :
  range_index dept ->
  department_ids dept = Ok ids ->
  ids <> ∅ <-> exists w, department_key dept w.
Proof.
  intros Hidx Hids. split.
  - intros Hne. apply set_choose_L in Hne as [s Hs].
    apply (department_ids_keys _ _ _ Hidx Hids) in Hs as (w & Hw & _). eauto.
  - intros [w Hw] He.
    assert (py_str w ∈ ids) as Hin by (apply (department_ids_keys _ _ _ Hidx Hids); eauto).
    rewrite He in Hin. by apply not_elem_of_empty in Hin.
Qed.

(** *** Rows that pass every rule *)

Lemma marks_valid_verdict (r : nat) (v : value) :
  marks_valid v -> marks_verdict (r, v) = None.
Proof.
  intros (f & Hf & Hin). unfold marks_verdict. simpl. by rewrite Hf, Hin.
Qed.

Lemma effort_valid_verdict (r : nat) (v : value) :
  effort_valid v -> effort_verdict (r, v) = None.
Proof.
  intros (i & Hi & Hpos & Hfr). unfold effort_verdict. simpl. rewrite Hi, Hfr.
  by destruct (Z.ltb_spec i 0); [lia|].
Qed.

(** A record of the Performance report that is not a Duplicate Pair
    record disqualifies its row. *)
Lemma record_disqualifies (perf : DataFrame) (es : list exception_record)
    (e : exception_record) :
  Forall2 pair_record (pair_rows perf) es ->
  e ∈ ((fun r => mkEx r "(row)" "Missing" "Missing values in row") <$> miss_rows perf)
        ++ omap marks_verdict (column_items perf "Marks")
        ++ omap effort_verdict (column_items perf "Effort_Hours")
        ++ es ->
  issue_type e <> "Duplicate Pair" ->
  disqualified perf (row_index e).
Proof.
  intros Hes He Hne. rewrite !elem_of_app in He. destruct He as [He|[He|[He|He]]].
  - apply list_elem_of_fmap in He as (r' & -> & Hr'). by left.
  - apply list_elem_of_omap in He as ([r' v] & Hrv & He).
    destruct (marks_verdict_shape _ _ He) as (Hr & _). simpl in Hr. rewrite Hr.
    right. left. exists v. by rewrite He.
  - apply list_elem_of_omap in He as ([r' v] & Hrv & He).
    destruct (effort_verdict_shape _ _ He) as (Hr & _). simpl in Hr. rewrite Hr.
    right. right. exists v. by rewrite He.
  - apply list_elem_of_lookup in He as [k Hk].
    destruct (Forall2_lookup_r _ _ _ _ _ Hes Hk) as (r' & _ & _ & _ & Hi). done.
Qed.

Lemma empty_read_sql (t : ResultSet) :
  rs_rows t = [] \/ rs_columns t = [] -> empty (read_sql t) = true.
Proof.
  unfold empty, read_sql. simpl. intros [-> | ->]; [reflexivity|].
  by destruct (seq 0 (length (rs_rows t))).
Qed.

(** *** Floats as numbers *)

Lemma float_of_Z_0 : float_of_Z 0 = S754_zero false.
Proof. reflexivity. Qed.

Lemma float_of_Z_100 : float_of_Z 100 = S754_finite false 7036874417766400 (-46).
Proof. vm_compute. reflexivity. Qed.

Lemma digits2_pos_bound (m : positive) : (Z.pos m < 2 ^ Z.pos (digits2_pos m))%Z.
Proof.
  induction m as [m IH|m IH|]; simpl digits2_pos.
  - rewrite Pos2Z.inj_succ, Z.pow_succ_r, Pos2Z.inj_xI by lia. lia.
  - rewrite Pos2Z.inj_succ, Z.pow_succ_r, Pos2Z.inj_xO by lia. lia.
  - reflexivity.
Qed.

(** The mantissa of a well-formed float has at most 53 bits. *)
Lemma canonical_mantissa_bound (m : positive) (e : Z) :
  canonical_mantissa prec emax m e = true -> (Z.pos m < 2 ^ 53)%Z.
Proof.
  unfold canonical_mantissa, fexp, emin, prec, emax. intros H. apply Z.eqb_eq in H.
  pose proof (digits2_pos_bound m) as Hm.
  eapply Z.lt_le_trans; [exact Hm|]. apply Z.pow_le_mono_r; lia.
Qed.

(** Python's [0 <= f <= 100] on a well-formed float says that the number
    it stands for is between 0 and 100. *)
Lemma float_le_between (f : float) :
  valid_binary prec emax f = true ->
  float_le (float_of_Z 0) f = true -> float_le f (float_of_Z 100) = true ->
  between_0_and_100 f.
Proof.
  rewrite float_of_Z_0, float_of_Z_100. unfold float_le, SFleb, SFcompare.
  destruct f as [s|s| |s m e].
  - intros; exact I.
  - destruct s; intros _ H1 H2; discriminate.
  - intros _ H1; discriminate.
  - destruct s; [intros _ H1; discriminate|]. intros Hvalid _ Hle.
    unfold valid_binary, bounded in Hvalid.
    apply andb_true_iff in Hvalid as [Hcan _].
    apply canonical_mantissa_bound in Hcan.
    unfold between_0_and_100.
    destruct (Z.compare_spec e (-46)) as [->|He|He]; [| |discriminate].
    + change (Z.max (-46) 0) with 0%Z. change (Z.max (- -46) 0) with 46%Z.
      assert (Z.pos m <= 7036874417766400)%Z as Hm.
      { apply Pos2Z.pos_le_pos. unfold Pos.le, Pos.compare. intros Hgt.
        rewrite Hgt in Hle. discriminate. }
      rewrite Z.pow_0_r, Z.mul_1_r.
      replace (100 * 2 ^ 46)%Z with 7036874417766400%Z by (vm_compute; reflexivity).
      exact Hm.
    + rewrite (Z.max_r e 0), (Z.max_l (- e) 0) by lia.
      assert (2 ^ 47 <= 2 ^ (- e))%Z as Hpow by (apply Z.pow_le_mono_r; lia).
      rewrite Z.pow_0_r, Z.mul_1_r.
      assert (2 ^ 53 = 64 * 2 ^ 47)%Z as H53 by (vm_compute; reflexivity).
      rewrite H53 in Hcan.
      assert (0 < 2 ^ 47)%Z by (vm_compute; reflexivity).
      generalize dependent (2 ^ 47)%Z. generalize (2 ^ (- e))%Z. intros; lia.
Qed.

Lemma marks_valid_within (v : value) : marks_valid v -> marks_within_0_100 v.
Proof.
  intros (f & Hf & Hin). unfold marks_in_range in Hin.
  apply andb_true_iff in Hin as [H0 H100].
  exists f. split; [exact Hf|]. split; [exact H0|]. split; [exact H100|].
  intros Hvalid. by apply float_le_between.
Qed.

Lemma effort_valid_whole (v : value) : effort_valid v -> whole_hours v.
Proof.
  intros (i & Hi & Hpos & Hfr). exists i. split; [exact Hi|]. split; [exact Hpos|].
  intros s m e ->. simpl in Hi, Hfr. injection Hi as Hi.
  apply negb_false_iff in Hfr.
  destruct (Z.leb_spec 0 e) as [He|He].
  - rewrite (Z.max_l e 0), (Z.max_r (- e) 0) by lia. change (2 ^ 0)%Z with 1%Z.
    assert (0 < 2 ^ e)%Z by (apply Z.pow_pos_nonneg; lia).
    destruct s; [nia|]. split; [reflexivity|lia].
  - rewrite (Z.max_r e 0), (Z.max_l (- e) 0) by lia. change (2 ^ 0)%Z with 1%Z.
    apply Z.eqb_eq in Hfr.
    assert (0 < 2 ^ (- e))%Z as Hpow by (apply Z.pow_pos_nonneg; lia).
    pose proof (Z.div_mod (Z.pos m) (2 ^ (- e))) as Hdiv.
    rewrite Hfr in Hdiv. specialize (Hdiv ltac:(lia)).
    destruct s; [nia|]. split; [reflexivity|nia].
Qed.

(** *** Trimming *)

Lemma lstrip_with_app_space (sp : ascii -> bool) (l x : string) :
  forallb sp (chars l) = true -> lstrip_with sp (l +:+ x) = lstrip_with sp x.
Proof.
  induction l as [|a l IH]; simpl; [done|]. intros H.
  apply andb_true_iff in H as [Ha Hl]. rewrite Ha. by apply IH.
Qed.

Lemma lstrip_with_all_space (sp : ascii -> bool) (r : string) :
  forallb sp (chars r) = true -> lstrip_with sp r = "".
Proof.
  induction r as [|a r IH]; simpl; [done|]. intros H.
  apply andb_true_iff in H as [Ha Hr]. rewrite Ha. by apply IH.
Qed.

Lemma lstrip_with_head (sp : ascii -> bool) (x : string) :
  (forall a, head (chars x) = Some a -> sp a = false) -> lstrip_with sp x = x.
Proof. destruct x as [|a x]; simpl; [done|]. intros H. by rewrite (H a eq_refl). Qed.

Lemma rstrip_with_all_space (sp : ascii -> bool) (r : string) :
  forallb sp (chars r) = true -> rstrip_with sp r = "".
Proof.
  induction r as [|a r IH]; simpl; [done|]. intros H.
  apply andb_true_iff in H as [Ha Hr]. by rewrite (IH Hr), Ha.
Qed.

Lemma rstrip_with_app_space (sp : ascii -> bool) (t r : string) :
  forallb sp (chars r) = true -> rstrip_with sp (t +:+ r) = rstrip_with sp t.
Proof.
  intros Hr. induction t as [|a t IH]; simpl.
  - by apply rstrip_with_all_space.
  - by rewrite IH.
Qed.

Lemma rstrip_with_last (sp : ascii -> bool) (t : string) :
  (forall a, last (chars t) = Some a -> sp a = false) -> rstrip_with sp t = t.
Proof.
  induction t as [|a t IH]; [done|]. intros H. destruct t as [|b t].
  - simpl. by rewrite (H a eq_refl).
  - change (rstrip_with sp (String a (String b t)))
      with (match rstrip_with sp (String b t) with
            | EmptyString => if sp a then EmptyString else String a EmptyString
            | u => String a u
            end).
    rewrite IH; [done|]. intros c Hc. apply H. exact Hc.
Qed.

(** A string has at most one trimmed value, the one [strip] returns. *)
Lemma trims_to_strip (s t : string) : trims_to s t -> strip s = t.
Proof.
  intros (l & r & -> & Hl & Hr & Hhead & Hlast). unfold strip.
  rewrite lstrip_with_app_space by exact Hl. destruct t as [|a t].
  - simpl. by rewrite lstrip_with_all_space.
  - rewrite lstrip_with_head.
    + rewrite rstrip_with_app_space by exact Hr. by apply rstrip_with_last.
    + intros c Hc. apply Hhead. exact Hc.
Qed.

Lemma lstrip_with_split (sp : ascii -> bool) (s : string) :
  exists l, s = l +:+ lstrip_with sp s /\ forallb sp (chars l) = true
            /\ forall a, head (chars (lstrip_with sp s)) = Some a -> sp a = false.
Proof.
  induction s as [|a s (l & Hs & Hl & Hhead)]; simpl.
  - exists "". done.
  - destruct (sp a) eqn:Ha.
    + exists (String a l). simpl. rewrite Ha, Hl. split; [|done].
      change (String a s = String a (l +:+ lstrip_with sp s)). by f_equal.
    + exists "". split; [done|]. split; [done|]. intros c [= <-]. exact Ha.
Qed.

Lemma rstrip_with_split (sp : ascii -> bool) (x : string) :
  exists r, x = rstrip_with sp x +:+ r /\ forallb sp (chars r) = true
            /\ forall a, last (chars (rstrip_with sp x)) = Some a -> sp a = false.
Proof.
  induction x as [|a x (r & Hx & Hr & Hlast)].
  - exists "". done.
  - change (rstrip_with sp (String a x))
      with (match rstrip_with sp x with
            | EmptyString => if sp a then EmptyString else String a EmptyString
            | u => String a u
            end).
    destruct (rstrip_with sp x) as [|b u] eqn:Hu.
    + destruct (sp a) eqn:Ha.
      * exists (String a r). split; [|split].
        -- change (String a x = String a r). f_equal. exact Hx.
        -- change (sp a && forallb sp (chars r) = true). by rewrite Ha, Hr.
        -- intros c Hc. discriminate.
      * exists r. split; [|split; [exact Hr|]].
        -- change (String a x = String a ("" +:+ r)). f_equal. exact Hx.
        -- intros c [= <-]. exact Ha.
    + exists r. split; [|split; [exact Hr|]].
      * change (String a x = String a (String b u +:+ r)). f_equal. exact Hx.
      * intros c Hc. apply Hlast. exact Hc.
Qed.

(** Every string has a trimmed value. *)
Lemma strip_trims (s : string) : trims_to s (strip s).
Proof.
  unfold strip. destruct (lstrip_with_split isspace s) as (l & Hs & Hl & Hhead).
  destruct (rstrip_with_split isspace (lstrip_with isspace s)) as (r & Hx & Hr & Hlast).
  exists l, r. split; [by rewrite <- Hx|]. split; [exact Hl|]. split; [exact Hr|].
  split; [|exact Hlast]. intros a Ha. apply Hhead. rewrite Hx.
  destruct (rstrip_with isspace (lstrip_with isspace s)); [discriminate|exact Ha].
Qed.

End RuleFacts.

(** ** Properties of the run *)

Import Py Pd Etl Rules PdFacts EtlFacts ReportFacts RuleFacts.
Local Open Scope nat_scope.

(** C1: the cleaned Performance frame holds exactly the rows whose
    original index is not in the discard set, in their original order and
    re-indexed from 0; it has as many rows as the input less the size of
    the discard set, and no row with a discarded index is kept. The list
    [kept] gives, for each row of the cleaned frame, its original index. *)
Theorem clean_keeps_exactly_the_undiscarded_rows (engine : Engine) :
  let rows := rs_rows (Student_Performance_Data engine) in
  exists o kept,
    run_part2_etl engine = Ok o
    /\ StronglySorted lt kept
    /\ (forall i, i ∈ kept <-> i < length rows /\ i ∉ perf_discard o)
    /\ Forall2 (fun i row => rows !! i = Some row) kept (data (perf_clean o))
    /\ index (perf_clean o) = seq 0 (length (data (perf_clean o)))
    /\ length (data (perf_clean o)) + size (perf_discard o) = length rows
    /\ (forall i, i ∈ perf_discard o -> i ∉ kept).
Proof.
  intros rows.
  destruct (run_part2_etl_Ok engine) as (dex & sex & st & c & _ & _ & Hp & Hc & Hrun).
  destruct (performance_checks_spec _ (read_sql_range_index (Student_Performance_Data engine)))
    as (st' & es & Hp' & _ & _ & HD).
  rewrite Hp in Hp'. injection Hp' as <-.
  destruct (clean_spec _ (discard_idx st)
              (read_sql_range_index (Student_Performance_Data engine)))
    as (c' & kept & Hc' & Hcols & Hindex & Hsorted & Hkept & Hrows & Hlen).
  { intros r Hr. apply disqualified_label, HD, Hr. }
  rewrite Hc in Hc'. injection Hc' as <-.
  exists {| dept_ex := dex; emp_ex := []; stud_ex := sex; perf_report := perf_ex st;
            perf_discard := discard_idx st; perf_clean := c |}, kept.
  simpl. split; [exact Hrun|]. split; [exact Hsorted|]. split; [exact Hkept|].
  split; [exact Hrows|]. split.
  { rewrite Hindex. f_equal. by eapply Forall2_length. }
  split; [exact Hlen|].
  intros i Hi Hk. apply Hkept in Hk as [_ Hk]. by apply Hk.
Qed.

(** C2: the Duplicate Pair rule leaves the discard set as it finds it,
    so every discarded index is backed by a record of another rule; two
    rows with the same (Student_ID, Paper_ID) are reported, the one and
    the other, and no row is reported without such a partner; and when
    the report holds nothing but Duplicate Pair records, nothing is
    discarded and the cleaned frame has the rows of the input, all of
    them. *)
Theorem duplicate_pairs_are_reported_not_discarded (engine : Engine) (o : outputs) :
  run_part2_etl engine = Ok o ->
  let perf := read_sql (Student_Performance_Data engine) in
  (forall st st', perf_pairs perf st = Ok st' -> discard_idx st' = discard_idx st)
  /\ (forall r, r ∈ perf_discard o ->
        exists e, e ∈ perf_report o /\ row_index e = r /\ issue_type e <> "Duplicate Pair")
  /\ (forall r r', same_pair perf r r' ->
        recorded (perf_report o) r "Student_ID,Paper_ID" "Duplicate Pair" = true
        /\ recorded (perf_report o) r' "Student_ID,Paper_ID" "Duplicate Pair" = true)
  /\ (forall r, recorded (perf_report o) r "Student_ID,Paper_ID" "Duplicate Pair" = true ->
        exists r', same_pair perf r r')
  /\ ((forall e, e ∈ perf_report o -> issue_type e = "Duplicate Pair") ->
      perf_discard o = ∅
      /\ data (perf_clean o) = rs_rows (Student_Performance_Data engine)
      /\ length (data (perf_clean o)) = length (rs_rows (Student_Performance_Data engine))).
Proof.
  intros Hrun perf.
  destruct (run_spec engine)
    as (o' & ms & ks & vs & ids & es & kept & Hrun' & _ & _ & Hperf & Hclean).
  rewrite Hrun in Hrun'. injection Hrun' as <-. fold perf in Hperf, Hclean.
  destruct Hperf as (Hex & Hes & HD). destruct Hclean as (Hc & _).
  pose proof (read_sql_range_index (Student_Performance_Data engine)) as Hidx.
  fold perf in Hidx.
  assert (Hbacked : forall r, r ∈ perf_discard o ->
            exists e, e ∈ perf_report o /\ row_index e = r
                      /\ issue_type e <> "Duplicate Pair").
  { intros r Hr. apply HD in Hr as [Hr|[(v & Hv & He)|(v & Hv & He)]]; rewrite Hex.
    - exists (mkEx r "(row)" "Missing" "Missing values in row"). split; [|done].
      apply elem_of_app. left. apply list_elem_of_fmap. eauto.
    - destruct He as [e He]. destruct (marks_verdict_shape _ _ He) as (Hr & _ & Hi).
      exists e. split; [|split; [exact Hr | by destruct Hi as [-> | ->]]].
      apply elem_of_app. right. apply elem_of_app. left.
      apply list_elem_of_omap. eauto.
    - destruct He as [e He]. destruct (effort_verdict_shape _ _ He) as (Hr & _ & Hi).
      exists e. split; [|split; [exact Hr | by destruct Hi as [-> | ->]]].
      apply elem_of_app. right. apply elem_of_app. right. apply elem_of_app. left.
      apply list_elem_of_omap. eauto. }
  assert (Hrows : forall r, r ∈ pair_rows perf <-> exists r', same_pair perf r r').
  { intros r. rewrite (elem_of_pair_rows _ _ Hidx). unfold same_pair. split.
    - intros (a & b & r' & a' & b' & H). exists r', a, b, a', b'. exact H.
    - intros (r' & a & b & a' & b' & H). exists a, b, r', a', b'. exact H. }
  assert (Hsym : forall r r', same_pair perf r r' -> same_pair perf r' r).
  { intros r r' (a & b & a' & b' & Ha & Hb & Ha' & Hb' & Hne & Hea & Heb).
    exists a', b', a, b. do 4 (split; [done|]). split; [congruence|].
    by rewrite (na_eqb_sym a'), (na_eqb_sym b'). }
  split.
  { intros st st' Hst.
    destruct (perf_pairs_spec perf st (read_sql_range_index _)) as (es' & Hes' & _).
    rewrite Hst in Hes'. by injection Hes' as ->. }
  split; [exact Hbacked|]. split.
  { intros r r' Hsame. split; apply (recorded_pair engine o _ Hrun), Hrows; eauto. }
  split.
  { intros r Hr. by apply Hrows, (recorded_pair engine o _ Hrun). }
  intros Honly.
  assert (Hempty : perf_discard o = ∅).
  { apply set_eq. intros r. split; [|intros H; by apply not_elem_of_empty in H].
    intros Hr. destruct (Hbacked r Hr) as (e & He & _ & Hne).
    by apply Honly in He. }
  split; [exact Hempty|].
  rewrite Hempty, (clean_nothing perf (read_sql_range_index _)) in Hc.
  injection Hc as Hc. rewrite <- Hc. simpl. done.
Qed.

(** C2 at [duplicate_pair_run]: rows 0 and 1 have the same pair, each
    has its Duplicate Pair record, the report holds nothing else, and
    both rows come out of the cleaner. *)
Lemma duplicate_pair_run_keeps_both_rows :
  exists o,
    run_part2_etl duplicate_pair_run = Ok o
    /\ same_pair (read_sql (Student_Performance_Data duplicate_pair_run)) 0 1
    /\ recorded (perf_report o) 0 "Student_ID,Paper_ID" "Duplicate Pair" = true
    /\ recorded (perf_report o) 1 "Student_ID,Paper_ID" "Duplicate Pair" = true
    /\ length (perf_report o) = 2
    /\ perf_discard o = ∅
    /\ data (perf_clean o) = rs_rows (Student_Performance_Data duplicate_pair_run)
    /\ length (data (perf_clean o)) = 2.
Proof.
  assert (H : exists o, run_part2_etl duplicate_pair_run = Ok o
                        /\ length (perf_report o) = 2
                        /\ forall e, e ∈ perf_report o -> issue_type e = "Duplicate Pair").
  { eexists. split; [vm_compute; reflexivity|]. split; [reflexivity|].
    simpl. intros e He.
    repeat (apply elem_of_cons in He as [->|He]; [reflexivity|]).
    by apply elem_of_nil in He. }
  destruct H as (o & Hrun & Htwo & Honly). exists o. split; [exact Hrun|].
  assert (Hsame : same_pair (read_sql (Student_Performance_Data duplicate_pair_run)) 0 1).
  { exists (VInt 5), (VInt 9), (VInt 5), (VInt 9).
    do 4 (split; [by apply (bool_decide_unpack _)|]). split; [lia|]. split; reflexivity. }
  destruct (duplicate_pairs_are_reported_not_discarded _ _ Hrun)
    as (_ & _ & Hboth & _ & Hkeep).
  destruct (Hboth 0 1 Hsame) as [H0 H1]. destruct (Hkeep Honly) as (Hempty & Hdata & Hlen).
  split; [exact Hsame|]. split; [exact H0|]. split; [exact H1|]. split; [exact Htwo|].
  split; [exact Hempty|]. split; [exact Hdata | exact Hlen].
Defined.

(** C3: when the Performance input has the Marks and Effort_Hours
    columns, so has the cleaned frame, with one cell per row in each;
    every Marks cell of the cleaned frame is within [0, 100] and every
    Effort_Hours cell is a whole number that is not negative, in the
    specification's reading of the two ([marks_within_0_100],
    [whole_hours]). *)
Theorem cleaned_rows_are_in_range (engine : Engine) (o : outputs) :
  run_part2_etl engine = Ok o ->
  "Marks" ∈ rs_columns (Student_Performance_Data engine) ->
  "Effort_Hours" ∈ rs_columns (Student_Performance_Data engine) ->
  exists ms hs,
    items (perf_clean o) "Marks" = Ok ms
    /\ items (perf_clean o) "Effort_Hours" = Ok hs
    /\ length ms = length (data (perf_clean o))
    /\ length hs = length (data (perf_clean o))
    /\ Forall (fun rv => marks_within_0_100 rv.2) ms
    /\ Forall (fun rv => whole_hours rv.2) hs.
Proof.
  intros Hrun Hm Hh.
  destruct (run_spec engine)
    as (o' & ms & ks & vs & ids & es & kept & Hrun' & _ & _ & _ & Hclean).
  rewrite Hrun in Hrun'. injection Hrun' as <-.
  destruct Hclean as (_ & Hcols & Hindex & _ & _ & Hrows & _). simpl in Hcols.
  assert (Hlen : forall c its, items (perf_clean o) c = Ok its ->
                               length its = length (data (perf_clean o))).
  { intros c its Hits. apply items_inv in Hits as (j & _ & _ & ->).
    rewrite length_zip, length_fmap, Hindex, length_seq, (Forall2_length _ _ _ Hrows). lia. }
  exists (column_items (perf_clean o) "Marks"), (column_items (perf_clean o) "Effort_Hours").
  assert (Him : items (perf_clean o) "Marks" = Ok (column_items (perf_clean o) "Marks"))
    by (apply items_column_items; by rewrite Hcols).
  assert (Hih : items (perf_clean o) "Effort_Hours"
                = Ok (column_items (perf_clean o) "Effort_Hours"))
    by (apply items_column_items; by rewrite Hcols).
  split; [exact Him|]. split; [exact Hih|].
  split; [by eapply Hlen|]. split; [by eapply Hlen|].
  split; apply Forall_forall; intros [j v] Hjv;
    destruct (cleaned_item_origin _ _ _ _ _ Hrun Hjv) as (i & Hiv & Hdis); simpl.
  - apply marks_valid_within, (marks_verdict_None (i, v)).
    destruct (marks_verdict (i, v)) eqn:Hv; [|reflexivity].
    exfalso. apply Hdis. right. left. exists v. by rewrite Hv.
  - apply effort_valid_whole, (effort_verdict_None (i, v)).
    destruct (effort_verdict (i, v)) eqn:Hv; [|reflexivity].
    exfalso. apply Hdis. right. right. exists v. by rewrite Hv.
Qed.

(** C3 at [mixed_run]: the rows with Marks 150, with 2.5 hours and with
    -1 hours are discarded, the two rows in range are what the cleaned
    frame holds, and their cells are within the ranges. *)
Lemma mixed_run_keeps_the_rows_in_range :
  exists o ms hs,
    run_part2_etl mixed_run = Ok o
    /\ sorted (perf_discard o) = [1; 2; 3]
    /\ data (perf_clean o)
       = [[VInt 5; VInt 9; VInt 80; VInt 3];
          [VInt 9; VInt 9; VFloat (float_of_decimal false 995 (-1)); VFloat (float_of_Z 4)]]
    /\ items (perf_clean o) "Marks" = Ok ms
    /\ items (perf_clean o) "Effort_Hours" = Ok hs
    /\ ms = [(0, VInt 80); (1, VFloat (float_of_decimal false 995 (-1)))]
    /\ hs = [(0, VInt 3); (1, VFloat (float_of_Z 4))]
    /\ Forall (fun rv => marks_within_0_100 rv.2) ms
    /\ Forall (fun rv => whole_hours rv.2) hs.
Proof.
  assert (H : exists o,
            run_part2_etl mixed_run = Ok o
            /\ sorted (perf_discard o) = [1; 2; 3]
            /\ data (perf_clean o)
               = [[VInt 5; VInt 9; VInt 80; VInt 3];
                  [VInt 9; VInt 9; VFloat (float_of_decimal false 995 (-1));
                   VFloat (float_of_Z 4)]]
            /\ items (perf_clean o) "Marks"
               = Ok [(0, VInt 80); (1, VFloat (float_of_decimal false 995 (-1)))]
            /\ items (perf_clean o) "Effort_Hours"
               = Ok [(0, VInt 3); (1, VFloat (float_of_Z 4))]).
  { eexists. split; [vm_compute; reflexivity|].
    split; [vm_compute; reflexivity|]. split; [vm_compute; reflexivity|].
    split; vm_compute; reflexivity. }
  destruct H as (o & Hrun & Hdis & Hdata & Hm & Hh).
  destruct (cleaned_rows_are_in_range mixed_run o Hrun)
    as (ms & hs & Hms & Hhs & _ & _ & Hvm & Hvh).
  - by apply (bool_decide_unpack _).
  - by apply (bool_decide_unpack _).
  - exists o, ms, hs. rewrite Hm in Hms. rewrite Hh in Hhs.
    injection Hms as <-. injection Hhs as <-.
    split; [exact Hrun|]. split; [exact Hdis|]. split; [exact Hdata|].
    split; [exact Hm|]. split; [exact Hh|]. split; [reflexivity|]. split; [reflexivity|].
    split; [exact Hvm | exact Hvh].
Defined.

(** C4, as stated, fails: for a NULL in DOE, which [int] rejects, the
    Department report holds an Out-of-Range record and no Invalid Type
    record. *)
Lemma null_doe_is_out_of_range :
  exists o,
    run_part2_etl null_doe_run = Ok o
    /\ column_items (read_sql (Department_Information null_doe_run)) "DOE" = [(0, VNone)]
    /\ py_int VNone = Raise TypeError
    /\ recorded (dept_ex o) 0 "DOE" "Invalid Type" = false
    /\ recorded (dept_ex o) 0 "DOE" "Out-of-Range" = true.
Proof. eexists. split; [vm_compute; reflexivity|]. repeat split. Qed.

(** C4, amended: for the DOE cell of a Department row, an Out-of-Range
    record on DOE is there exactly when the cell is null or converts to
    an integer below 1900, and an Invalid Type record on DOE exactly when
    the cell is not null and [int] rejects it. *)
Theorem doe_rule_classification (engine : Engine) (o : outputs) (r : nat) (v : value) :
  run_part2_etl engine = Ok o ->
  (r, v) ∈ column_items (read_sql (Department_Information engine)) "DOE" ->
  (recorded (dept_ex o) r "DOE" "Out-of-Range" = true
   <-> isna v = true \/ exists i, py_int v = Ok i /\ (i < 1900)%Z)
  /\ (recorded (dept_ex o) r "DOE" "Invalid Type" = true
      <-> isna v = false /\ exists e, py_int v = Raise e).
Proof.
  intros Hrun Hrv. rewrite !(recorded_doe _ _ _ _ Hrun) by done.
  assert (Hrow : forall issue,
            recorded (omap doe_verdict
                        (column_items (read_sql (Department_Information engine)) "DOE"))
                     r "DOE" issue = true
            <-> exists x, doe_verdict (r, v) = Some x /\ issue_type x = issue).
  { intros issue. rewrite recorded_omap. split.
    - intros ([r' v'] & x & Hrv' & Hx & Hrow & _ & Hissue).
      pose proof (doe_verdict_shape _ _ Hx) as (Hr' & _). simpl in Hr'.
      rewrite Hrow in Hr'. subst r'.
      rewrite (column_items_functional _ _ _ _ _ (read_sql_range_index _) Hrv' Hrv) in Hx.
      eauto.
    - intros (x & Hx & Hissue). exists (r, v), x.
      destruct (doe_verdict_shape _ _ Hx) as (? & ? & _). done. }
  rewrite !Hrow. unfold doe_verdict, doe_out_of_range. simpl.
  destruct (isna v); simpl.
  - split; split.
    + auto.
    + intros _. eexists. split; reflexivity.
    + intros (x & [= <-] & Hx). discriminate.
    + intros [? _]. discriminate.
  - destruct (py_int v) as [i|e]; simpl; [destruct (Z.ltb_spec i 1900)|]; split; split.
    + intros _. right. eauto.
    + intros _. eexists. split; reflexivity.
    + intros (x & [= <-] & Hx). discriminate.
    + intros (_ & e & He). discriminate.
    + intros (x & Hx & _). discriminate.
    + intros [?|(i' & [= <-] & Hi)]; [discriminate|lia].
    + intros (x & Hx & _). discriminate.
    + intros (_ & e & He). discriminate.
    + intros (x & [= <-] & Hx). discriminate.
    + intros [?|(i & Hi & _)]; discriminate.
    + intros _. split; [reflexivity|]. eauto.
    + intros _. eexists. split; reflexivity.
Qed.

(** C4, amended, at [null_doe_run]. *)
Lemma null_doe_run_classification :
  exists o,
    run_part2_etl null_doe_run = Ok o
    /\ (recorded (dept_ex o) 0 "DOE" "Out-of-Range" = true
        <-> isna VNone = true \/ exists i, py_int VNone = Ok i /\ (i < 1900)%Z)
    /\ (recorded (dept_ex o) 0 "DOE" "Invalid Type" = true
        <-> isna VNone = false /\ exists e, py_int VNone = Raise e).
Proof.
  eexists. split; [vm_compute; reflexivity|].
  apply (doe_rule_classification null_doe_run).
  - vm_compute. reflexivity.
  - by apply (bool_decide_unpack _).
Defined.

(** C5: a Marks cell that [float] rejects does not stop the Marks rule:
    from any state the rule returns, with an Invalid Type record for the
    row appended and the row's index in the discard set. So the
    Performance block returns with that record, with no Out-of-Range
    record on Marks for the row and with the index discarded, and the row
    is not in the cleaned frame, which is shorter than the input. *)
Theorem unparseable_marks_are_invalid_type (engine : Engine) (r : nat) (v : value)
    (e : exn) :
  let perf := read_sql (Student_Performance_Data engine) in
  (r, v) ∈ column_items perf "Marks" ->
  py_float v = Raise e ->
  (forall st0, exists st1,
      perf_marks perf st0 = Ok st1
      /\ recorded (perf_ex st1) r "Marks" "Invalid Type" = true
      /\ r ∈ discard_idx st1)
  /\ exists st,
       performance_checks perf = Ok st
       /\ recorded (perf_ex st) r "Marks" "Invalid Type" = true
       /\ recorded (perf_ex st) r "Marks" "Out-of-Range" = false
       /\ r ∈ discard_idx st
       /\ forall o, run_part2_etl engine = Ok o ->
            perf_report o = perf_ex st
            /\ perf_discard o = discard_idx st
            /\ length (data (perf_clean o)) < length (data perf).
Proof.
  intros perf Hrv Hfloat.
  assert (Hverdict : marks_verdict (r, v)
                     = Some (mkEx r "Marks" "Invalid Type"
                                  ("Marks=" +:+ py_str v +:+ " not numeric"))).
  { unfold marks_verdict. simpl. by rewrite Hfloat. }
  split.
  { intros st0. eexists. split; [apply perf_marks_eq|]. split.
    - rewrite (foldl_flag_ex marks_verdict _ perf_marks_body_verdict), recorded_app.
      apply orb_true_iff. right. apply recorded_omap.
      eexists (r, v), _. split; [exact Hrv|]. split; [exact Hverdict|done].
    - apply (foldl_flag_idx marks_verdict _ perf_marks_body_verdict). right.
      exists v. split; [exact Hrv|]. by rewrite Hverdict. }
  destruct (run_part2_etl_Ok engine) as (dex & sex & st & c & _ & _ & Hp & _ & Hrun0).
  fold perf in Hp.
  destruct (run_spec engine)
    as (o & ms & ks & vs & ids & es & kept & Hrun & _ & _ & Hperf & Hclean).
  fold perf in Hperf, Hclean.
  rewrite Hrun0 in Hrun. injection Hrun as <-. simpl in Hperf, Hclean.
  destruct Hperf as (Hex & Hes & HD). destruct Hclean as (_ & _ & _ & _ & _ & _ & Hlen).
  apply pair_records_column in Hes as [Hes _].
  assert (Hr : r ∈ discard_idx st).
  { apply HD. right. left. exists v. split; [exact Hrv|]. by rewrite Hverdict. }
  exists st. split; [exact Hp|]. rewrite Hex, !recorded_marks by exact Hes.
  split; [|split; [|split; [exact Hr|]]].
  - apply recorded_omap. eexists (r, v), _. split; [exact Hrv|]. split; [exact Hverdict|done].
  - apply not_true_iff_false. intros H.
    apply recorded_omap in H as ([r' v'] & x & Hrv' & Hx & Hrow & _ & Hissue).
    pose proof (marks_verdict_shape _ _ Hx) as (Hr' & _). simpl in Hr'.
    rewrite Hrow in Hr'. subst r'.
    rewrite (column_items_functional _ _ _ _ _ (read_sql_range_index _) Hrv' Hrv) in Hx.
    rewrite Hverdict in Hx. injection Hx as <-. discriminate.
  - intros o Ho. rewrite Hrun0 in Ho. injection Ho as <-. simpl.
    split; [exact Hex|]. split; [reflexivity|].
    assert (size (discard_idx st) <> 0); [|lia].
    intros Hz. apply size_empty_iff in Hz. by apply Hz in Hr.
Qed.

(** C5 at [text_marks_run], scenario C of the specification: the text
    [abc] in Marks. *)
Lemma text_marks_run_is_invalid_type :
  exists st,
    performance_checks (read_sql (Student_Performance_Data text_marks_run)) = Ok st
    /\ recorded (perf_ex st) 0 "Marks" "Invalid Type" = true
    /\ recorded (perf_ex st) 0 "Marks" "Out-of-Range" = false
    /\ 0 ∈ discard_idx st.
Proof.
  destruct (unparseable_marks_are_invalid_type text_marks_run 0 (VStr "abc") ValueError)
    as (_ & st & Hst & Hinv & Hoor & Hdis & _).
  - by apply (bool_decide_unpack _).
  - reflexivity.
  - exists st. done.
Defined.

(** C6: for a Counseling row whose Department_Admission is a string
    with the trimmed value [t], a Missing record is there exactly when
    [t] is empty, and an FK Violation record exactly when [t] is not
    empty, the Department table has a non-null Department_ID and none of
    them prints as [t]; a row with a Missing record has no FK Violation
    record, and the empty string gives a Missing record. *)
Theorem string_admission_missing_or_fk (engine : Engine) (o : outputs)
    (r : nat) (s t : string) :
  let dept := read_sql (Department_Information engine) in
  let stud := read_sql (Student_Counceling_Information engine) in
  run_part2_etl engine = Ok o ->
  (r, VStr s) ∈ column_items stud "Department_Admission" ->
  trims_to s t ->
  (recorded (stud_ex o) r "Department_Admission" "Missing" = true <-> t = "")
  /\ (recorded (stud_ex o) r "Department_Admission" "FK Violation" = true
      <-> t <> "" /\ (exists w, department_key dept w)
          /\ forall w, department_key dept w -> py_str w <> t)
  /\ (recorded (stud_ex o) r "Department_Admission" "Missing" = true ->
      recorded (stud_ex o) r "Department_Admission" "FK Violation" = false)
  /\ (s = "" ->
      recorded (stud_ex o) r "Department_Admission" "Missing" = true
      /\ recorded (stud_ex o) r "Department_Admission" "FK Violation" = false).
Proof.
  intros dept stud Hrun Hrv Ht. apply trims_to_strip in Ht.
  destruct (department_ids_Ok dept) as [ids Hids].
  pose proof (read_sql_range_index (Department_Information engine)) as Hidx. fold dept in Hidx.
  destruct (recorded_admission _ _ _ _ _ Hrun Hids Hrv) as [Hm Hf].
  fold dept stud in Hm, Hf.
  assert (Hmissing : recorded (stud_ex o) r "Department_Admission" "Missing" = true
                     <-> t = "").
  { rewrite Hm. unfold stud_missing_verdict. simpl. rewrite Ht.
    destruct (String.eqb_spec t ""); split; intros H; done. }
  assert (Hfk : recorded (stud_ex o) r "Department_Admission" "FK Violation" = true
                <-> t <> "" /\ (exists w, department_key dept w)
                    /\ forall w, department_key dept w -> py_str w <> t).
  { rewrite Hf. unfold stud_fk_verdict. simpl. rewrite Ht.
    rewrite <- (department_ids_nonempty _ _ Hidx Hids).
    destruct (String.eqb_spec t "") as [Hs|Hs]; simpl.
    { split; [intros [x Hx]; discriminate | intros (H & _); done]. }
    destruct (decide (ids = ∅)) as [He|He].
    { rewrite (bool_decide_eq_true_2 _ He). simpl.
      split; [intros [x Hx]; discriminate | intros (_ & H & _); done]. }
    rewrite (bool_decide_eq_false_2 _ He). simpl.
    destruct (decide (t ∈ ids)) as [Hin|Hin].
    - rewrite (bool_decide_eq_true_2 _ Hin). simpl.
      split; [intros [x Hx]; discriminate|]. intros (_ & _ & H).
      apply (department_ids_keys _ _ _ Hidx Hids) in Hin as (w & Hw & Hs'). by apply H in Hw.
    - rewrite (bool_decide_eq_false_2 _ Hin). simpl. split; [|intros _; by eexists].
      intros _. split; [exact Hs|]. split; [exact He|]. intros w Hw Hs'. apply Hin.
      apply (department_ids_keys _ _ _ Hidx Hids). eauto. }
  assert (Hnot : recorded (stud_ex o) r "Department_Admission" "Missing" = true ->
                 recorded (stud_ex o) r "Department_Admission" "FK Violation" = false).
  { intros H. apply Hmissing in H. apply not_true_iff_false. intros H'.
    apply Hfk in H' as [H' _]. by apply H'. }
  split; [exact Hmissing|]. split; [exact Hfk|]. split; [exact Hnot|].
  intros ->. assert (t = "") as -> by (by rewrite <- Ht).
  assert (recorded (stud_ex o) r "Department_Admission" "Missing" = true) as H
    by (by apply Hmissing).
  split; [exact H | by apply Hnot].
Qed.

(** C6 at [padded_admission_run], with the Department keys 1, 2 and 3:
    the admission [ 99 ] trims to [99], which is no key, and gets an FK
    Violation record and no Missing record; the blank admission and the
    empty one, scenario D of the specification, get a Missing record
    only; the admission [ 2 ] trims to a key and gets no record. *)
Lemma padded_admission_run_is_trimmed :
  exists o,
    run_part2_etl padded_admission_run = Ok o
    /\ trims_to " 99 " "99"
    /\ recorded (stud_ex o) 1 "Department_Admission" "Missing" = false
    /\ recorded (stud_ex o) 1 "Department_Admission" "FK Violation" = true
    /\ recorded (stud_ex o) 0 "Department_Admission" "Missing" = true
    /\ recorded (stud_ex o) 0 "Department_Admission" "FK Violation" = false
    /\ recorded (stud_ex o) 2 "Department_Admission" "Missing" = false
    /\ recorded (stud_ex o) 2 "Department_Admission" "FK Violation" = false
    /\ recorded (stud_ex o) 3 "Department_Admission" "Missing" = true
    /\ recorded (stud_ex o) 3 "Department_Admission" "FK Violation" = false.
Proof.
  assert (H : exists o, run_part2_etl padded_admission_run = Ok o
                        /\ length (stud_ex o) = 3)
    by (eexists; split; [vm_compute; reflexivity | reflexivity]).
  destruct H as (o & Hrun & _). exists o. split; [exact Hrun|].
  assert (Hkeys : column_items (read_sql (Department_Information padded_admission_run))
                               "Department_ID"
                  = [(0, VInt 1); (1, VInt 2); (2, VInt 3)]) by reflexivity.
  assert (Hkey : forall r n,
            (r, VInt n) ∈ column_items (read_sql (Department_Information padded_admission_run))
                                       "Department_ID" ->
            department_key (read_sql (Department_Information padded_admission_run)) (VInt n)).
  { intros r n Hn. split; [reflexivity|]. by exists r. }
  assert (Hblank : trims_to "  " "").
  { exists "  ", "". split; [reflexivity|]. split; [reflexivity|]. split; [reflexivity|].
    split; intros a Ha; discriminate. }
  assert (H99 : trims_to " 99 " "99").
  { exists " ", " ". split; [reflexivity|]. split; [reflexivity|]. split; [reflexivity|].
    split; intros a [= <-]; reflexivity. }
  assert (H2 : trims_to " 2 " "2").
  { exists " ", " ". split; [reflexivity|]. split; [reflexivity|]. split; [reflexivity|].
    split; intros a [= <-]; reflexivity. }
  assert (Hempty : trims_to "" "").
  { exists "", "". split; [reflexivity|]. split; [reflexivity|]. split; [reflexivity|].
    split; intros a Ha; discriminate. }
  destruct (string_admission_missing_or_fk padded_admission_run o 0 "  " "" Hrun)
    as (Hm0 & _ & Hn0 & _); [by apply (bool_decide_unpack _) | exact Hblank |].
  destruct (string_admission_missing_or_fk padded_admission_run o 1 " 99 " "99" Hrun)
    as (Hm1 & Hf1 & _ & _); [by apply (bool_decide_unpack _) | exact H99 |].
  destruct (string_admission_missing_or_fk padded_admission_run o 2 " 2 " "2" Hrun)
    as (Hm2 & Hf2 & _ & _); [by apply (bool_decide_unpack _) | exact H2 |].
  destruct (string_admission_missing_or_fk padded_admission_run o 3 "" "" Hrun)
    as (_ & _ & _ & Hd3); [by apply (bool_decide_unpack _) | exact Hempty |].
  split; [exact H99|]. split; [|split; [|split; [|split; [|split; [|split; [|split]]]]]].
  - apply not_true_iff_false. intros H. by apply Hm1 in H.
  - apply Hf1. split; [discriminate|]. split.
    + exists (VInt 1). apply (Hkey 0). rewrite Hkeys. by left.
    + intros w (_ & r' & Hw). rewrite Hkeys in Hw.
      repeat (apply elem_of_cons in Hw as [[= -> ->]|Hw]; [vm_compute; discriminate|]).
      by apply elem_of_nil in Hw.
  - by apply Hm0.
  - apply Hn0. by apply Hm0.
  - apply not_true_iff_false. intros H. by apply Hm2 in H.
  - apply not_true_iff_false. intros H. apply Hf2 in H as (_ & _ & H).
    apply (H (VInt 2)); [|reflexivity]. apply (Hkey 1). rewrite Hkeys. right. by left.
  - by apply Hd3.
  - by apply Hd3.
Defined.

(** C7, as stated, fails: with one valid Performance row nothing is
    discarded and the cleaned frame has as many rows as the input, not
    strictly fewer. *)
Lemma clean_of_valid_rows_is_not_smaller :
  exists o,
    run_part2_etl valid_run = Ok o
    /\ perf_discard o = ∅
    /\ length (data (perf_clean o)) = length (rs_rows (Student_Performance_Data valid_run)).
Proof. eexists. split; [vm_compute; reflexivity|]. split; reflexivity. Qed.

(** C7, amended: the cleaned frame never has more rows than the input,
    and has strictly fewer exactly when the discard set is not empty; its
    columns are those of the input; and each of its rows is an input row
    whose index is not in the discard set. *)
Theorem clean_shrinks_by_the_discard_set (engine : Engine) :
  let perf := Student_Performance_Data engine in
  exists o,
    run_part2_etl engine = Ok o
    /\ length (data (perf_clean o)) <= length (rs_rows perf)
    /\ (length (data (perf_clean o)) < length (rs_rows perf) <-> (perf_discard o ≠ ∅))
    /\ columns (perf_clean o) = rs_columns perf
    /\ (forall j row, data (perf_clean o) !! j = Some row ->
          exists i, (i ∉ perf_discard o) /\ rs_rows perf !! i = Some row).
Proof.
  intros perf.
  destruct (run_spec engine)
    as (o & ms & ks & vs & ids & es & kept & Hrun & _ & _ & _ & Hclean).
  destruct Hclean as (_ & Hcols & _ & _ & Hkept & Hrows & Hlen).
  subst perf. simpl in *.
  exists o. split; [exact Hrun|]. split; [lia|]. split.
  { pose proof (size_empty_iff (perf_discard o)) as Hsize.
    rewrite leibniz_equiv_iff in Hsize. split.
    - intros Hlt Hempty. apply Hsize in Hempty. lia.
    - intros Hne. destruct (decide (size (perf_discard o) = 0)) as [Hz|Hz]; [|lia].
      by apply Hsize in Hz. }
  split; [exact Hcols|].
  intros j row Hj.
  destruct (Forall2_lookup_r _ _ _ _ _ Hrows Hj) as (i & Hi & Hrow).
  exists i. split; [|exact Hrow].
  apply list_elem_of_lookup_2, Hkept in Hi. tauto.
Qed.

(** C8: a rule whose column is absent is skipped and nothing is raised.
    Each such rule returns the state it is given; the three rule blocks
    return, for every input, and their lists are the reports of the run;
    and the lists hold no record of a skipped rule: the Department list
    has no record on an absent Department_ID, Department_Name or DOE
    column and none of the issue types of the skipped rule; the
    Counseling list is empty without Department_Admission and has no FK
    Violation without the Department keys; the Performance list has no
    record on an absent Marks or Effort_Hours column, and no Duplicate
    Pair record when Student_ID or Paper_ID is absent. *)
Theorem absent_columns_skip_their_rules (engine : Engine) :
  let dept := read_sql (Department_Information engine) in
  let stud := read_sql (Student_Counceling_Information engine) in
  let perf := read_sql (Student_Performance_Data engine) in
  ((forall col issue ex, col ∉ columns dept -> dept_duplicates dept col issue ex = Ok ex)
   /\ ("DOE" ∉ columns dept -> forall ex, dept_doe dept ex = Ok ex)
   /\ ("Marks" ∉ columns perf -> forall st, perf_marks perf st = Ok st)
   /\ ("Effort_Hours" ∉ columns perf -> forall st, perf_effort perf st = Ok st)
   /\ ("Student_ID" ∉ columns perf \/ "Paper_ID" ∉ columns perf ->
       forall st, perf_pairs perf st = Ok st))
  /\ exists dex sex st,
    department_checks dept = Ok dex
    /\ counseling_checks dept stud = Ok sex
    /\ performance_checks perf = Ok st
    /\ (forall o, run_part2_etl engine = Ok o ->
          dept_ex o = dex /\ stud_ex o = sex /\ perf_report o = perf_ex st)
    /\ (forall c, c ∈ dept_header -> c ∉ columns dept ->
          forall e, e ∈ dex -> column e <> c)
    /\ ("Department_ID" ∉ columns dept ->
          forall e, e ∈ dex -> issue_type e <> "Duplicate Key")
    /\ ("Department_Name" ∉ columns dept ->
          forall e, e ∈ dex -> issue_type e <> "Duplicate Value")
    /\ ("DOE" ∉ columns dept ->
          forall e, e ∈ dex ->
            issue_type e <> "Out-of-Range" /\ issue_type e <> "Invalid Type")
    /\ ("Department_Admission" ∉ columns stud -> sex = [])
    /\ ("Department_ID" ∉ columns dept ->
          forall e, e ∈ sex -> issue_type e <> "FK Violation")
    /\ ("Marks" ∉ columns perf -> forall e, e ∈ perf_ex st -> column e <> "Marks")
    /\ ("Effort_Hours" ∉ columns perf ->
          forall e, e ∈ perf_ex st -> column e <> "Effort_Hours")
    /\ ("Student_ID" ∉ columns perf \/ "Paper_ID" ∉ columns perf ->
          forall e, e ∈ perf_ex st ->
            column e <> "Student_ID,Paper_ID" /\ issue_type e <> "Duplicate Pair").
Proof.
  intros dept stud perf. split.
  { split; [|split; [|split; [|split]]].
    - intros col issue ex Hc. unfold dept_duplicates.
      by rewrite (proj2 (has_column_false dept col) Hc).
    - intros Hc ex. unfold dept_doe. by rewrite (proj2 (has_column_false dept "DOE") Hc).
    - intros Hc st. unfold perf_marks. by rewrite (proj2 (has_column_false perf "Marks") Hc).
    - intros Hc st. unfold perf_effort.
      by rewrite (proj2 (has_column_false perf "Effort_Hours") Hc).
    - intros Hc st. unfold perf_pairs. destruct Hc as [Hc|Hc].
      + by rewrite (proj2 (has_column_false perf "Student_ID") Hc).
      + by rewrite (proj2 (has_column_false perf "Paper_ID") Hc), andb_false_r. }
  destruct (run_part2_etl_Ok engine) as (dex & sex & st & cl & Hd & Hs & Hp & _ & Hrun0).
  fold dept stud perf in Hd, Hs, Hp.
  destruct (run_spec engine)
    as (o & ms & ks & vs & ids & es & kept & Hrun & Hdept & Hstud & Hperf & _).
  rewrite Hrun0 in Hrun. injection Hrun as <-. simpl in Hdept, Hstud, Hperf.
  destruct Hdept as (Hdex & Hms & Hks & Hks0 & Hvs & Hvs0).
  destruct Hstud as (Hids & Hsex). destruct Hperf as (Hpex & Hes & _).
  rewrite Forall_forall in Hms, Hks, Hvs. simpl in Hms, Hks0, Hvs0.
  assert (Hdoe : forall e, e ∈ omap doe_verdict
                     (column_items (read_sql (Department_Information engine)) "DOE") ->
                   column e = "DOE"
                   /\ (issue_type e = "Out-of-Range" \/ issue_type e = "Invalid Type")).
  { intros e He. apply list_elem_of_omap in He as (rv & _ & He).
    by apply doe_verdict_shape in He as (_ & ? & ?). }
  assert (Hmarks : forall e, e ∈ omap marks_verdict
                       (column_items (read_sql (Student_Performance_Data engine)) "Marks") ->
                     column e = "Marks").
  { intros e He. apply list_elem_of_omap in He as (rv & _ & He).
    by apply marks_verdict_shape in He as (_ & ? & _). }
  assert (Heffort : forall e, e ∈ omap effort_verdict
                        (column_items (read_sql (Student_Performance_Data engine))
                                      "Effort_Hours") ->
                      column e = "Effort_Hours").
  { intros e He. apply list_elem_of_omap in He as (rv & _ & He).
    by apply effort_verdict_shape in He as (_ & ? & _). }
  assert (Hpair : forall e, e ∈ es ->
                    column e = "Student_ID,Paper_ID" /\ issue_type e = "Duplicate Pair").
  { apply pair_records_column in Hes as [H1 H2]. rewrite Forall_forall in H1, H2. auto. }
  exists dex, sex, st. split; [exact Hd|]. split; [exact Hs|]. split; [exact Hp|].
  split.
  { intros o Ho. rewrite Hrun0 in Ho. by injection Ho as <-. }
  rewrite Hdex, Hsex, Hpex.
  split; [|split; [|split; [|split; [|split; [|split; [|split; [|split]]]]]]].
  - intros c Hc Habsent e He Heq. rewrite !elem_of_app in He.
    destruct He as [He|[He|[He|He]]].
    + apply Hms in He as [_ He]. by rewrite Heq in He.
    + destruct (decide (c = "Department_ID")) as [->|Hne].
      * rewrite (Hks0 Habsent) in He. by apply elem_of_nil in He.
      * apply Hks in He as [He _]. congruence.
    + destruct (decide (c = "Department_Name")) as [->|Hne].
      * rewrite (Hvs0 Habsent) in He. by apply elem_of_nil in He.
      * apply Hvs in He as [He _]. congruence.
    + destruct (decide (c = "DOE")) as [->|Hne].
      * rewrite column_items_absent in He by exact Habsent. by apply elem_of_nil in He.
      * apply Hdoe in He as [He _]. congruence.
  - intros Habsent e He Hissue. rewrite (Hks0 Habsent) in He. rewrite !elem_of_app in He.
    destruct He as [He|[He|[He|He]]].
    + apply Hms in He as [He _]. congruence.
    + by apply elem_of_nil in He.
    + apply Hvs in He as [_ He]. congruence.
    + apply Hdoe in He as [_ [He|He]]; congruence.
  - intros Habsent e He Hissue. rewrite (Hvs0 Habsent) in He. rewrite !elem_of_app in He.
    destruct He as [He|[He|[He|He]]].
    + apply Hms in He as [He _]. congruence.
    + apply Hks in He as [_ He]. congruence.
    + by apply elem_of_nil in He.
    + apply Hdoe in He as [_ [He|He]]; congruence.
  - intros Habsent e He. rewrite column_items_absent, app_nil_r in He by exact Habsent.
    rewrite !elem_of_app in He. destruct He as [He|[He|He]].
    + apply Hms in He as [He _]. split; congruence.
    + apply Hks in He as [_ He]. split; congruence.
    + apply Hvs in He as [_ He]. split; congruence.
  - intros Habsent. by rewrite column_items_absent by exact Habsent.
  - intros Habsent e He Hissue.
    rewrite (department_ids_absent (read_sql (Department_Information engine)) Habsent)
      in Hids.
    injection Hids as <-.
    rewrite elem_of_app in He. destruct He as [He|He];
      apply list_elem_of_omap in He as (rv & _ & He).
    + apply stud_missing_verdict_shape in He as (_ & _ & He). congruence.
    + unfold stud_fk_verdict in He. simpl in He.
      rewrite andb_false_r in He. discriminate.
  - intros Habsent e He Hcol. rewrite (column_items_absent _ "Marks") in He by exact Habsent.
    rewrite !elem_of_app in He. destruct He as [He|[He|[He|He]]].
    + apply list_elem_of_fmap in He as (r & -> & _). discriminate.
    + by apply elem_of_nil in He.
    + apply Heffort in He. congruence.
    + apply Hpair in He as [He _]. congruence.
  - intros Habsent e He Hcol.
    rewrite (column_items_absent _ "Effort_Hours") in He by exact Habsent.
    rewrite !elem_of_app in He. destruct He as [He|[He|[He|He]]].
    + apply list_elem_of_fmap in He as (r & -> & _). discriminate.
    + apply Hmarks in He. congruence.
    + by apply elem_of_nil in He.
    + apply Hpair in He as [He _]. congruence.
  - intros Habsent e He.
    rewrite (pair_rows_absent (read_sql (Student_Performance_Data engine)) Habsent) in Hes.
    apply Forall2_nil_inv_l in Hes as ->. rewrite app_nil_r in He.
    rewrite !elem_of_app in He. destruct He as [He|[He|He]].
    + apply list_elem_of_fmap in He as (r & -> & _). split; discriminate.
    + pose proof (Hmarks _ He) as Hc. apply list_elem_of_omap in He as (rv & _ & He).
      apply marks_verdict_shape in He as (_ & _ & [Hi|Hi]); split; congruence.
    + pose proof (Heffort _ He) as Hc. apply list_elem_of_omap in He as (rv & _ & He).
      apply effort_verdict_shape in He as (_ & _ & [Hi|Hi]); split; congruence.
Qed.

(** C9, as stated, fails: when a department's key is the text [nan], the
    key set is not empty, and a Counseling row whose Department_Admission
    is NaN gets the Missing record but no FK Violation record. *)
Lemma nan_key_run_has_no_fk_violation :
  exists o ids,
    run_part2_etl nan_key_run = Ok o
    /\ department_ids (read_sql (Department_Information nan_key_run)) = Ok ids
    /\ bool_decide (ids = ∅) = false
    /\ column_items (read_sql (Student_Counceling_Information nan_key_run))
                    "Department_Admission" = [(0, VFloat S754_nan)]
    /\ isna (VFloat S754_nan) = true
    /\ recorded (stud_ex o) 0 "Department_Admission" "Missing" = true
    /\ recorded (stud_ex o) 0 "Department_Admission" "FK Violation" = false.
Proof.
  eexists _, _. split; [vm_compute; reflexivity|]. split; [vm_compute; reflexivity|].
  repeat split.
Qed.

(** C9, amended: for a Counseling row whose Department_Admission is
    null, when the set of Department keys is not empty and does not hold
    the text that [str] gives for the null, both a Missing record and an
    FK Violation record are there for the row. *)
Theorem null_admission_missing_and_fk (engine : Engine) (o : outputs) (ids : gset string)
    (r : nat) (v : value) :
  let dept := read_sql (Department_Information engine) in
  let stud := read_sql (Student_Counceling_Information engine) in
  run_part2_etl engine = Ok o ->
  department_ids dept = Ok ids ->
  (r, v) ∈ column_items stud "Department_Admission" ->
  isna v = true ->
  ids <> ∅ ->
  py_str v ∉ ids ->
  (py_str v = "None" \/ py_str v = "nan")
  /\ recorded (stud_ex o) r "Department_Admission" "Missing" = true
  /\ recorded (stud_ex o) r "Department_Admission" "FK Violation" = true.
Proof.
  intros dept stud Hrun Hids Hrv Hna Hne Hnotin.
  destruct (recorded_admission _ _ _ _ _ Hrun Hids Hrv) as [Hm Hf].
  assert (Hstr : (py_str v = "None" \/ py_str v = "nan") /\ strip (py_str v) = py_str v).
  { destruct v as [| |[]|]; try discriminate; simpl; auto. }
  destruct Hstr as [Hstr Hstrip]. split; [exact Hstr|]. split.
  - apply Hm. unfold stud_missing_verdict. simpl. rewrite Hna. by eexists.
  - apply Hf. unfold stud_fk_verdict. simpl. rewrite Hstrip.
    rewrite (bool_decide_eq_false_2 _ Hne), (bool_decide_eq_false_2 _ Hnotin).
    destruct Hstr as [-> | ->]; by eexists.
Qed.

(** C9, amended, at [null_admission_run]: a NULL admission against the
    keys 1, 2 and 3. *)
Lemma null_admission_run_is_missing_and_fk :
  exists o,
    run_part2_etl null_admission_run = Ok o
    /\ recorded (stud_ex o) 0 "Department_Admission" "Missing" = true
    /\ recorded (stud_ex o) 0 "Department_Admission" "FK Violation" = true.
Proof.
  eexists. split; [vm_compute; reflexivity|].
  eapply (null_admission_missing_and_fk null_admission_run _
            (list_to_set ["1"; "2"; "3"]) 0 VNone).
  - vm_compute. reflexivity.
  - vm_compute. reflexivity.
  - by apply (bool_decide_unpack _).
  - reflexivity.
  - by apply (bool_decide_unpack _).
  - by apply (bool_decide_unpack _).
Defined.

(** C10: a NaN in Marks converts to a float and fails the range test, so
    the Marks rule appends an Out-of-Range record for the row, not an
    Invalid Type one; the row also gets the row-level Missing record; and
    its index is put in the discard set by the Missing rule and again by
    the Marks rule, whatever the set held before. *)
Theorem nan_marks_are_out_of_range (engine : Engine) (r : nat) :
  let perf := read_sql (Student_Performance_Data engine) in
  (r, VFloat S754_nan) ∈ column_items perf "Marks" ->
  exists o,
    run_part2_etl engine = Ok o
    /\ recorded (perf_report o) r "Marks" "Out-of-Range" = true
    /\ recorded (perf_report o) r "Marks" "Invalid Type" = false
    /\ recorded (perf_report o) r "(row)" "Missing" = true
    /\ r ∈ perf_discard o
    /\ r ∈ discard_idx (perf_missing perf {| perf_ex := []; discard_idx := ∅ |})
    /\ (forall st st', perf_marks perf st = Ok st' -> r ∈ discard_idx st').
Proof.
  intros perf Hrv.
  destruct (run_spec engine)
    as (o & ms & ks & vs & ids & es & kept & Hrun & _ & _ & Hperf & _).
  fold perf in Hperf. destruct Hperf as (Hex & Hes & HD).
  apply pair_records_column in Hes as [Hes _].
  assert (Hverdict : marks_verdict (r, VFloat S754_nan)
                     = Some (mkEx r "Marks" "Out-of-Range" "Marks=nan not in [0,100]"))
    by reflexivity.
  assert (Hmiss : r ∈ miss_rows perf).
  { apply (elem_of_miss_rows _ _ (read_sql_range_index _)).
    apply (elem_of_column_items _ _ _ _ (read_sql_range_index _)) in Hrv
      as (j & row & Hj & Hrow & Hcell).
    exists row. split; [exact Hrow|]. apply existsb_exists.
    exists (VFloat S754_nan). split; [|reflexivity]. unfold cells.
    rewrite Hcell. apply in_map, in_seq.
    apply column_pos_lookup, lookup_lt_Some in Hj. lia. }
  exists o. split; [exact Hrun|]. rewrite Hex, !recorded_marks by exact Hes.
  split; [|split; [|split; [|split; [|split]]]].
  - apply recorded_omap. eexists (r, _), _. split; [exact Hrv|]. split; [exact Hverdict|done].
  - apply not_true_iff_false. intros H.
    apply recorded_omap in H as ([r' v'] & x & Hrv' & Hx & Hrow & _ & Hissue).
    pose proof (marks_verdict_shape _ _ Hx) as (Hr' & _). simpl in Hr'.
    rewrite Hrow in Hr'. subst r'.
    rewrite (column_items_functional _ _ _ _ _ (read_sql_range_index _) Hrv' Hrv) in Hx.
    rewrite Hverdict in Hx. injection Hx as <-. discriminate.
  - by apply recorded_row_missing.
  - apply HD. by left.
  - unfold perf_missing. simpl. apply elem_of_union. right.
    by apply elem_of_list_to_set.
  - intros st st' Hst. rewrite perf_marks_eq in Hst. injection Hst as <-.
    apply (foldl_flag_idx _ _ perf_marks_body_verdict). right.
    exists (VFloat S754_nan). split; [exact Hrv|]. by rewrite Hverdict.
Qed.

(** C10 at [nan_marks_run]. *)
Lemma nan_marks_run_is_out_of_range :
  exists o,
    run_part2_etl nan_marks_run = Ok o
    /\ recorded (perf_report o) 0 "Marks" "Out-of-Range" = true
    /\ recorded (perf_report o) 0 "Marks" "Invalid Type" = false
    /\ recorded (perf_report o) 0 "(row)" "Missing" = true
    /\ 0 ∈ perf_discard o.
Proof.
  destruct (nan_marks_are_out_of_range nan_marks_run 0) as (o & Hrun & H1 & H2 & H3 & H4 & _).
  - by apply (bool_decide_unpack _).
  - exists o. done.
Defined.

(** ** Further properties of the run *)

(** X1: the discard set can be read off the Performance report: an
    index is in it exactly when the report holds a record for that row
    that is not a Duplicate Pair record. *)
Theorem discard_set_is_read_off_the_report (engine : Engine) :
  exists o,
    run_part2_etl engine = Ok o
    /\ forall r, r ∈ perf_discard o
                 <-> exists e, e ∈ perf_report o /\ row_index e = r
                               /\ issue_type e <> "Duplicate Pair".
Proof.
  destruct (run_spec engine)
    as (o & ms & ks & vs & ids & es & kept & Hrun & _ & _ & Hperf & _).
  destruct Hperf as (Hex & Hes & HD).
  exists o. split; [exact Hrun|]. intros r. rewrite HD, Hex. split.
  - intros [Hr|[(v & Hv & [e He])|(v & Hv & [e He])]].
    + exists (mkEx r "(row)" "Missing" "Missing values in row"). split; [|done].
      apply elem_of_app. left. apply list_elem_of_fmap. eauto.
    + destruct (marks_verdict_shape _ _ He) as (Hr & _ & Hi).
      exists e. split; [|split; [exact Hr | by destruct Hi as [-> | ->]]].
      apply elem_of_app. right. apply elem_of_app. left. apply list_elem_of_omap. eauto.
    + destruct (effort_verdict_shape _ _ He) as (Hr & _ & Hi).
      exists e. split; [|split; [exact Hr | by destruct Hi as [-> | ->]]].
      do 2 (apply elem_of_app; right). apply elem_of_app. left.
      apply list_elem_of_omap. eauto.
  - intros (e & He & Hr & Hne). rewrite !elem_of_app in He.
    destruct He as [He|[He|[He|He]]].
    + apply list_elem_of_fmap in He as (r' & -> & Hr'). simpl in Hr. subst r'. by left.
    + apply list_elem_of_omap in He as ([r' v] & Hrv & He).
      destruct (marks_verdict_shape _ _ He) as (Hr' & _). simpl in Hr'.
      rewrite Hr in Hr'. subst r'. right. left. exists v. by rewrite He.
    + apply list_elem_of_omap in He as ([r' v] & Hrv & He).
      destruct (effort_verdict_shape _ _ He) as (Hr' & _). simpl in Hr'.
      rewrite Hr in Hr'. subst r'. right. right. exists v. by rewrite He.
    + apply list_elem_of_lookup in He as [k Hk].
      destruct (Forall2_lookup_r _ _ _ _ _ Hes Hk) as (r' & _ & _ & _ & Hi). done.
Qed.

(** X2: no row of the cleaned Performance frame has a null in any of
    the frame's columns. *)
Theorem cleaned_rows_have_no_null (engine : Engine) :
  exists o,
    run_part2_etl engine = Ok o
    /\ Forall (fun row => has_null (perf_clean o) row = false) (data (perf_clean o))
    /\ forall row j, row ∈ data (perf_clean o) -> j < length (columns (perf_clean o)) ->
                     isna (cell row j) = false.
Proof.
  destruct (run_part2_etl_Ok engine) as (dex & sex & st & c & _ & _ & _ & _ & Hrun).
  eexists. split; [exact Hrun|].
  assert (Hall : forall row, row ∈ data c -> has_null c row = false).
  { intros row Hrow. by apply (clean_row_no_null engine _ row Hrun). }
  simpl. split; [by apply Forall_forall|].
  intros row j Hrow Hj. apply Hall in Hrow. unfold has_null, cells in Hrow.
  apply not_true_iff_false. intros Hna.
  apply not_true_iff_false in Hrow. apply Hrow, existsb_exists.
  exists (cell row j). split; [|exact Hna]. apply in_map, in_seq. lia.
Qed.

(** X3: the cleaned frame passes the Performance checks: run on it,
    they find no row to discard and append nothing but Duplicate Pair
    records, and the cleaner gives the frame back as it is. *)
Theorem cleaning_again_changes_nothing (engine : Engine) :
  exists o st,
    run_part2_etl engine = Ok o
    /\ performance_checks (perf_clean o) = Ok st
    /\ discard_idx st = ∅
    /\ (forall e, e ∈ perf_ex st -> issue_type e = "Duplicate Pair")
    /\ clean (perf_clean o) (discard_idx st) = Ok (perf_clean o).
Proof.
  destruct (run_part2_etl_Ok engine) as (dex & sex & st0 & c & _ & _ & _ & _ & Hrun).
  pose proof (clean_range_index _ _ Hrun) as Hrange. simpl in Hrange.
  destruct (performance_checks_spec c Hrange) as (st & es & Hp & Hex & Hes & HD).
  assert (Hgood : forall j, ~ disqualified c j).
  { intros j [Hj|[(v & Hv & Hs)|(v & Hv & Hs)]].
    - apply (elem_of_miss_rows _ _ Hrange) in Hj as (row & Hrow & Hnull).
      apply list_elem_of_lookup_2 in Hrow.
      pose proof (clean_row_no_null engine _ row Hrun Hrow) as Hno. simpl in Hno.
      unfold has_null in Hno. congruence.
    - destruct (cleaned_item_origin engine _ "Marks" j v Hrun Hv) as (i & Hi & Hdis).
      apply Hdis. right. left. exists v. split; [exact Hi|]. by eapply marks_verdict_label.
    - destruct (cleaned_item_origin engine _ "Effort_Hours" j v Hrun Hv) as (i & Hi & Hdis).
      apply Hdis. right. right. exists v. split; [exact Hi|]. by eapply effort_verdict_label. }
  assert (Hempty : discard_idx st = ∅).
  { apply set_eq. intros j. split; [|intros H; by apply not_elem_of_empty in H].
    intros Hj. apply HD in Hj. by apply Hgood in Hj. }
  eexists _, st. split; [exact Hrun|]. simpl. split; [exact Hp|]. split; [exact Hempty|].
  split.
  - intros e He. rewrite Hex in He.
    assert (Hm : miss_rows c = []).
    { destruct (miss_rows c) as [|j l] eqn:Hl; [reflexivity|].
      exfalso. apply (Hgood j). left. rewrite Hl. by left. }
    rewrite Hm in He. simpl in He.
    rewrite (omap_nil marks_verdict) in He; cycle 1.
    { intros [j v] Hjv. destruct (marks_verdict (j, v)) eqn:Hv; [|reflexivity].
      exfalso. apply (Hgood j). right. left. exists v. by rewrite Hv. }
    rewrite (omap_nil effort_verdict) in He; cycle 1.
    { intros [j v] Hjv. destruct (effort_verdict (j, v)) eqn:Hv; [|reflexivity].
      exfalso. apply (Hgood j). right. right. exists v. by rewrite Hv. }
    simpl in He. apply list_elem_of_lookup in He as [k Hk].
    destruct (Forall2_lookup_r _ _ _ _ _ Hes Hk) as (r' & _ & _ & _ & Hi). exact Hi.
  - rewrite Hempty, (clean_nothing c Hrange). f_equal.
    destruct c as [cols idx rows]. unfold range_index in Hrange. simpl in *. by rewrite Hrange.
Qed.

(** X4: the Performance report holds the row-level Missing record for a
    row exactly when the row has a null in one of the frame's columns,
    and every such row is in the discard set. *)
Theorem rows_with_a_null_are_reported_and_discarded (engine : Engine) :
  let perf := read_sql (Student_Performance_Data engine) in
  exists o,
    run_part2_etl engine = Ok o
    /\ forall r,
         (recorded (perf_report o) r "(row)" "Missing" = true
          <-> exists row, data perf !! r = Some row /\ has_null perf row = true)
         /\ (recorded (perf_report o) r "(row)" "Missing" = true -> r ∈ perf_discard o).
Proof.
  intros perf.
  destruct (run_spec engine)
    as (o & ms & ks & vs & ids & es & kept & Hrun & _ & _ & Hperf & _).
  fold perf in Hperf. destruct Hperf as (Hex & Hes & HD).
  apply pair_records_column in Hes as [Hes _].
  exists o. split; [exact Hrun|]. intros r. rewrite Hex, (recorded_whole_row _ _ _ Hes).
  split.
  - apply (elem_of_miss_rows _ _ (read_sql_range_index _)).
  - intros Hr. apply HD. by left.
Qed.

(** X5: for the Marks cell of a Performance row, an Invalid Type record
    on Marks is there exactly when [float] rejects the cell, and an
    Out-of-Range record exactly when the cell converts to a float that
    fails [0 <= f <= 100]; a cell that converts and passes has no Marks
    record. *)
Theorem marks_rule_classification (engine : Engine) (o : outputs) (r : nat) (v : value) :
  run_part2_etl engine = Ok o ->
  (r, v) ∈ column_items (read_sql (Student_Performance_Data engine)) "Marks" ->
  (recorded (perf_report o) r "Marks" "Invalid Type" = true
   <-> exists e, py_float v = Raise e)
  /\ (recorded (perf_report o) r "Marks" "Out-of-Range" = true
      <-> exists f, py_float v = Ok f /\ marks_in_range f = false)
  /\ (marks_valid v ->
      recorded (perf_report o) r "Marks" "Invalid Type" = false
      /\ recorded (perf_report o) r "Marks" "Out-of-Range" = false).
Proof.
  intros Hrun Hrv.
  destruct (run_spec engine)
    as (o' & ms & ks & vs & ids & es & kept & Hrun' & _ & _ & Hperf & _).
  rewrite Hrun in Hrun'. injection Hrun' as <-.
  destruct Hperf as (Hex & Hes & _). apply pair_records_column in Hes as [Hes _].
  rewrite Hex, !recorded_marks by exact Hes.
  assert (Hrow : forall rv e, marks_verdict rv = Some e -> row_index e = rv.1).
  { intros rv e He. by apply marks_verdict_shape in He as (? & _). }
  assert (Hinv : recorded (omap marks_verdict
                     (column_items (read_sql (Student_Performance_Data engine)) "Marks"))
                   r "Marks" "Invalid Type" = true
                 <-> exists e, py_float v = Raise e).
  { rewrite (recorded_verdict_at _ _ _ _ _ _ _ (read_sql_range_index _) Hrow Hrv).
    unfold marks_verdict. simpl.
    destruct (py_float v) as [f|e]; [destruct (marks_in_range f)|]; simpl.
    - split; [intros (x & Hx & _); discriminate | intros (e & He); discriminate].
    - split; [intros (x & [= <-] & _ & Hi); discriminate | intros (e & He); discriminate].
    - split; [eauto|]. intros _. by eexists. }
  assert (Hoor : recorded (omap marks_verdict
                     (column_items (read_sql (Student_Performance_Data engine)) "Marks"))
                   r "Marks" "Out-of-Range" = true
                 <-> exists f, py_float v = Ok f /\ marks_in_range f = false).
  { rewrite (recorded_verdict_at _ _ _ _ _ _ _ (read_sql_range_index _) Hrow Hrv).
    unfold marks_verdict. simpl.
    destruct (py_float v) as [f|e]; [destruct (marks_in_range f) eqn:Hf|]; simpl.
    - split; [intros (x & Hx & _); discriminate|]. intros (f' & [= <-] & Hf'). congruence.
    - split; [eauto|]. intros _. by eexists.
    - split; [intros (x & [= <-] & _ & Hi); discriminate|]. intros (f & Hf & _). discriminate. }
  split; [exact Hinv|]. split; [exact Hoor|].
  intros (f & Hf & Hin). split; apply not_true_iff_false.
  - intros H. apply Hinv in H as [e He]. congruence.
  - intros H. apply Hoor in H as (f' & Hf' & Hout). congruence.
Qed.

(** X5 at [high_marks_run], scenario B of the specification: Marks 150. *)
Lemma high_marks_run_classification :
  exists o,
    run_part2_etl high_marks_run = Ok o
    /\ (recorded (perf_report o) 0 "Marks" "Out-of-Range" = true
        <-> exists f, py_float (VInt 150) = Ok f /\ marks_in_range f = false).
Proof.
  eexists. split; [vm_compute; reflexivity|].
  eapply (marks_rule_classification high_marks_run _ 0 (VInt 150)).
  - vm_compute. reflexivity.
  - by apply (bool_decide_unpack _).
Defined.

(** X6: for the Effort_Hours cell of a Performance row, an Invalid Type
    record on Effort_Hours is there exactly when [int] rejects the cell,
    which it does for every null, and an Out-of-Range record exactly when
    the cell converts to a negative integer or is a float with a
    fractional part. *)
Theorem effort_rule_classification (engine : Engine) (o : outputs) (r : nat) (v : value) :
  run_part2_etl engine = Ok o ->
  (r, v) ∈ column_items (read_sql (Student_Performance_Data engine)) "Effort_Hours" ->
  (recorded (perf_report o) r "Effort_Hours" "Invalid Type" = true
   <-> exists e, py_int v = Raise e)
  /\ (recorded (perf_report o) r "Effort_Hours" "Out-of-Range" = true
      <-> exists i, py_int v = Ok i /\ ((i < 0)%Z \/ fractional v = true))
  /\ (isna v = true -> recorded (perf_report o) r "Effort_Hours" "Invalid Type" = true)
  /\ (forall n, v = VInt n ->
        recorded (perf_report o) r "Effort_Hours" "Invalid Type" = false
        /\ (recorded (perf_report o) r "Effort_Hours" "Out-of-Range" = true <-> (n < 0)%Z)).
Proof.
  intros Hrun Hrv.
  destruct (run_spec engine)
    as (o' & ms & ks & vs & ids & es & kept & Hrun' & _ & _ & Hperf & _).
  rewrite Hrun in Hrun'. injection Hrun' as <-.
  destruct Hperf as (Hex & Hes & _). apply pair_records_column in Hes as [Hes _].
  rewrite Hex, !recorded_effort by exact Hes.
  assert (Hrow : forall rv e, effort_verdict rv = Some e -> row_index e = rv.1).
  { intros rv e He. by apply effort_verdict_shape in He as (? & _). }
  assert (Hnull : isna v = true -> exists e, py_int v = Raise e).
  { destruct v as [| |[]|]; try discriminate; simpl; eauto. }
  assert (Hthree :
    (recorded (omap effort_verdict
                 (column_items (read_sql (Student_Performance_Data engine)) "Effort_Hours"))
              r "Effort_Hours" "Invalid Type" = true
     <-> exists e, py_int v = Raise e)
    /\ (recorded (omap effort_verdict
                    (column_items (read_sql (Student_Performance_Data engine)) "Effort_Hours"))
                 r "Effort_Hours" "Out-of-Range" = true
        <-> exists i, py_int v = Ok i /\ ((i < 0)%Z \/ fractional v = true))
    /\ (isna v = true ->
        recorded (omap effort_verdict
                    (column_items (read_sql (Student_Performance_Data engine)) "Effort_Hours"))
                 r "Effort_Hours" "Invalid Type" = true)); cycle 1.
  { destruct Hthree as (Hinv & Hoor & Hna). do 3 (split; [done|]).
    intros n ->. split.
    - apply not_true_iff_false. intros H. apply Hinv in H as [e He]. discriminate.
    - rewrite Hoor. simpl. split.
      + intros (i & [= <-] & [Hi|Hi]); [exact Hi | discriminate].
      + intros Hn. exists n. split; [reflexivity|by left]. }
  rewrite !(recorded_verdict_at _ _ _ _ _ _ _ (read_sql_range_index _) Hrow Hrv).
  unfold effort_verdict. simpl.
  destruct (py_int v) as [i|e]; simpl.
  - destruct (Z.ltb_spec i 0) as [Hi|Hi]; simpl; [|destruct (fractional v) eqn:Hf].
    + split; [|split].
      * split; [intros (x & [= <-] & _ & ?); discriminate | intros (e & He); discriminate].
      * split; [eauto|]. intros _. by eexists.
      * intros Hna. destruct (Hnull Hna) as [e He]. discriminate.
    + split; [|split].
      * split; [intros (x & [= <-] & _ & ?); discriminate | intros (e & He); discriminate].
      * split; [eauto|]. intros _. by eexists.
      * intros Hna. destruct (Hnull Hna) as [e He]. discriminate.
    + split; [|split].
      * split; [intros (x & Hx & _); discriminate | intros (e & He); discriminate].
      * split; [intros (x & Hx & _); discriminate|].
        intros (i' & [= <-] & [?|?]); [lia | discriminate].
      * intros Hna. destruct (Hnull Hna) as [e He]. discriminate.
  - split; [|split].
    + split; [eauto|]. intros _. by eexists.
    + split; [intros (x & [= <-] & _ & ?); discriminate|]. intros (i & Hi & _). discriminate.
    + intros _. by eexists.
Qed.

(** X6 at [half_hour_run]: 2.5 hours. *)
Lemma half_hour_run_classification :
  exists o,
    run_part2_etl half_hour_run = Ok o
    /\ recorded (perf_report o) 0 "Effort_Hours" "Out-of-Range" = true
    /\ recorded (perf_report o) 0 "Effort_Hours" "Invalid Type" = false.
Proof.
  assert (Hrun : exists o, run_part2_etl half_hour_run = Ok o
                           /\ recorded (perf_report o) 0 "Effort_Hours" "Invalid Type" = false)
    by (eexists; split; [vm_compute; reflexivity | reflexivity]).
  destruct Hrun as (o & Hrun & Hno). exists o. split; [exact Hrun|]. split; [|exact Hno].
  destruct (effort_rule_classification half_hour_run o 0
              (VFloat (float_of_decimal false 25 (-1))) Hrun) as (_ & Hoor & _).
  - by apply (bool_decide_unpack _).
  - apply Hoor. exists 2%Z. split; [reflexivity|]. right. reflexivity.
Defined.

(** X7: the Performance report lists the records rule after rule: the
    row-level Missing records, then those on Marks, then those on
    Effort_Hours, then the Duplicate Pair records; within each rule the
    records are on rows of strictly increasing index, and no record is
    listed twice. *)
Theorem performance_report_is_in_rule_and_row_order (engine : Engine) :
  exists o ms ma ef ps,
    run_part2_etl engine = Ok o
    /\ perf_report o = ms ++ ma ++ ef ++ ps
    /\ Forall (fun e => column e = "(row)" /\ issue_type e = "Missing") ms
    /\ Forall (fun e => column e = "Marks") ma
    /\ Forall (fun e => column e = "Effort_Hours") ef
    /\ Forall (fun e => column e = "Student_ID,Paper_ID" /\ issue_type e = "Duplicate Pair") ps
    /\ in_row_order ms /\ in_row_order ma /\ in_row_order ef /\ in_row_order ps
    /\ NoDup (perf_report o).
Proof.
  destruct (run_spec engine)
    as (o & ms & ks & vs & ids & es & kept & Hrun & _ & _ & Hperf & _).
  destruct Hperf as (Hex & Hes & _).
  set (perf := read_sql (Student_Performance_Data engine)) in *.
  pose proof (read_sql_range_index (Student_Performance_Data engine)) as Hidx. fold perf in Hidx.
  destruct (pair_records_column _ _ Hes) as [Hcol Hiss].
  assert (Hms : Forall (fun e => column e = "(row)")
                  ((fun r => mkEx r "(row)" "Missing" "Missing values in row")
                     <$> miss_rows perf)) by by apply Forall_fmap, Forall_true.
  assert (Hma : Forall (fun e => column e = "Marks")
                  (omap marks_verdict (column_items perf "Marks"))).
  { apply omap_column. intros rv e He. by apply marks_verdict_shape in He as (_ & ? & _). }
  assert (Hef : Forall (fun e => column e = "Effort_Hours")
                  (omap effort_verdict (column_items perf "Effort_Hours"))).
  { apply omap_column. intros rv e He. by apply effort_verdict_shape in He as (_ & ? & _). }
  assert (Oms : in_row_order ((fun r => mkEx r "(row)" "Missing" "Missing values in row")
                                <$> miss_rows perf)).
  { unfold in_row_order. rewrite row_missing_rows. by apply index_where_sorted. }
  assert (Oma : in_row_order (omap marks_verdict (column_items perf "Marks"))).
  { apply in_row_order_verdicts; [exact Hidx|].
    intros rv e He. by apply marks_verdict_shape in He as (? & _). }
  assert (Oef : in_row_order (omap effort_verdict (column_items perf "Effort_Hours"))).
  { apply in_row_order_verdicts; [exact Hidx|].
    intros rv e He. by apply effort_verdict_shape in He as (? & _). }
  assert (Ops : in_row_order es).
  { eapply in_row_order_pair_records; [exact Hes|]. by apply pair_rows_sorted. }
  eexists o, _, _, _, es. split; [exact Hrun|]. split; [exact Hex|].
  split; [by apply Forall_fmap, Forall_true|].
  split; [exact Hma|]. split; [exact Hef|].
  split. { apply Forall_forall. intros e He. rewrite Forall_forall in Hcol, Hiss. auto. }
  split; [exact Oms|]. split; [exact Oma|]. split; [exact Oef|]. split; [exact Ops|].
  rewrite Hex. rewrite !NoDup_app.
  split; [by apply in_row_order_NoDup|]. split.
  { intros x Hx. rewrite !elem_of_app. intros [H|[H|H]]; revert H.
    - by apply (other_column_disjoint _ _ _ _ Hms Hma).
    - by apply (other_column_disjoint _ _ _ _ Hms Hef).
    - by apply (other_column_disjoint _ _ _ _ Hms Hcol). }
  split; [by apply in_row_order_NoDup|]. split.
  { intros x Hx. rewrite !elem_of_app. intros [H|H]; revert H.
    - by apply (other_column_disjoint _ _ _ _ Hma Hef).
    - by apply (other_column_disjoint _ _ _ _ Hma Hcol). }
  split; [by apply in_row_order_NoDup|]. split.
  { intros x Hx. by apply (other_column_disjoint _ _ _ _ Hef Hcol). }
  by apply in_row_order_NoDup.
Qed.

(** X8: the Department report lists the records rule after rule: one
    Missing record per null cell, the cells [cs] taken row by row and,
    within a row, column by column; then the Duplicate Key records, the
    Duplicate Value records and the records on DOE, each of these three
    groups on rows of strictly increasing index. *)
Theorem department_report_is_in_rule_and_row_order (engine : Engine) :
  let dept := read_sql (Department_Information engine) in
  exists o cs ms ks vs ds,
    run_part2_etl engine = Ok o
    /\ dept_ex o = ms ++ ks ++ vs ++ ds
    /\ Forall2 (missing_record dept) cs ms
    /\ StronglySorted cell_lt cs
    /\ (forall r j, (r, j) ∈ cs
                    <-> exists row, data dept !! r = Some row /\ j < length (columns dept)
                                    /\ isna (cell row j) = true)
    /\ Forall (fun e => column e = "Department_ID" /\ issue_type e = "Duplicate Key") ks
    /\ Forall (fun e => column e = "Department_Name" /\ issue_type e = "Duplicate Value") vs
    /\ Forall (fun e => column e = "DOE"
                        /\ (issue_type e = "Out-of-Range" \/ issue_type e = "Invalid Type")) ds
    /\ in_row_order ks /\ in_row_order vs /\ in_row_order ds.
Proof.
  intros dept.
  destruct (run_part2_etl_Ok engine) as (dex & sex & st & c & _ & _ & _ & _ & Hrun).
  pose proof (read_sql_range_index (Department_Information engine)) as Hidx. fold dept in Hidx.
  destruct (dept_ex_rows engine _ Hrun) as (ms & ks & vs & Hex & Hms & Hks & Hvs).
  fold dept in Hex, Hms, Hks, Hvs.
  eexists _, (isna_nonzero dept), ms, ks, vs, _. split; [exact Hrun|]. split; [exact Hex|].
  split; [exact Hms|]. split; [apply isna_nonzero_sorted|].
  split; [intros r j; apply elem_of_isna_nonzero|].
  split.
  { destruct (rule_records_shape _ _ _ _ Hks) as [H1 H2].
    apply Forall_forall. intros e He. rewrite Forall_forall in H1, H2. auto. }
  split.
  { destruct (rule_records_shape _ _ _ _ Hvs) as [H1 H2].
    apply Forall_forall. intros e He. rewrite Forall_forall in H1, H2. auto. }
  split.
  { apply Forall_forall. intros e He. apply list_elem_of_omap in He as (rv & _ & He).
    by apply doe_verdict_shape in He as (_ & ? & ?). }
  split; [|split].
  - eapply in_row_order_rule_records; [exact Hks|]. by apply dup_rows_sorted.
  - eapply in_row_order_rule_records; [exact Hvs|]. by apply dup_rows_sorted.
  - apply in_row_order_verdicts; [exact Hidx|].
    intros rv e He. by apply doe_verdict_shape in He as (? & _).
Qed.

(** X9: the Counseling report lists the Missing records first and the FK
    Violation records after them, all on Department_Admission, each group
    on rows of strictly increasing index, and no record is listed twice. *)
Theorem counseling_report_is_in_rule_and_row_order (engine : Engine) :
  exists o ms fs,
    run_part2_etl engine = Ok o
    /\ stud_ex o = ms ++ fs
    /\ Forall (fun e => column e = "Department_Admission" /\ issue_type e = "Missing") ms
    /\ Forall (fun e => column e = "Department_Admission" /\ issue_type e = "FK Violation") fs
    /\ in_row_order ms /\ in_row_order fs
    /\ NoDup (stud_ex o).
Proof.
  destruct (run_spec engine)
    as (o & ms & ks & vs & ids & es & kept & Hrun & _ & Hstud & _).
  destruct Hstud as (_ & Hex).
  set (stud := read_sql (Student_Counceling_Information engine)) in *.
  pose proof (read_sql_range_index (Student_Counceling_Information engine)) as Hidx.
  fold stud in Hidx.
  assert (Hms : Forall (fun e => column e = "Department_Admission" /\ issue_type e = "Missing")
                  (omap stud_missing_verdict (column_items stud "Department_Admission"))).
  { apply Forall_forall. intros e He. apply list_elem_of_omap in He as (rv & _ & He).
    by apply stud_missing_verdict_shape in He as (_ & ? & ?). }
  assert (Hfs : Forall (fun e => column e = "Department_Admission"
                                 /\ issue_type e = "FK Violation")
                  (omap (stud_fk_verdict ids) (column_items stud "Department_Admission"))).
  { apply Forall_forall. intros e He. apply list_elem_of_omap in He as (rv & _ & He).
    by apply stud_fk_verdict_shape in He as (_ & ? & ?). }
  assert (Oms : in_row_order
                  (omap stud_missing_verdict (column_items stud "Department_Admission"))).
  { apply in_row_order_verdicts; [exact Hidx|].
    intros rv e He. by apply stud_missing_verdict_shape in He as (? & _). }
  assert (Ofs : in_row_order
                  (omap (stud_fk_verdict ids) (column_items stud "Department_Admission"))).
  { apply in_row_order_verdicts; [exact Hidx|].
    intros rv e He. by apply stud_fk_verdict_shape in He as (? & _). }
  eexists o, _, _. split; [exact Hrun|]. split; [exact Hex|].
  split; [exact Hms|]. split; [exact Hfs|]. split; [exact Oms|]. split; [exact Ofs|].
  rewrite Hex. apply NoDup_app. split; [by apply in_row_order_NoDup|].
  split; [|by apply in_row_order_NoDup].
  eapply (other_issue_disjoint "Missing" "FK Violation"); [| |done].
  - eapply Forall_impl; [exact Hms|]. by intros e [_ ?].
  - eapply Forall_impl; [exact Hfs|]. by intros e [_ ?].
Qed.

(** X10: every record points at a row of its own table and carries one
    of the issue types of that table's rules; a Department or Counseling
    record names a column of its table; and every index of the discard
    set is a row of the Performance table. *)
Theorem records_point_into_their_table (engine : Engine) :
  let dept := Department_Information engine in
  let stud := Student_Counceling_Information engine in
  let perf := Student_Performance_Data engine in
  exists o,
    run_part2_etl engine = Ok o
    /\ Forall (fun e => row_index e < length (rs_rows dept)
                        /\ column e ∈ rs_columns dept
                        /\ issue_type e ∈ dept_issues) (dept_ex o)
    /\ Forall (fun e => row_index e < length (rs_rows stud)
                        /\ column e ∈ rs_columns stud
                        /\ issue_type e ∈ stud_issues) (stud_ex o)
    /\ Forall (fun e => row_index e < length (rs_rows perf)
                        /\ issue_type e ∈ perf_issues) (perf_report o)
    /\ (forall r, r ∈ perf_discard o -> r < length (rs_rows perf)).
Proof.
  intros dept stud perf.
  destruct (run_spec engine)
    as (o & ms0 & ks0 & vs0 & ids & es & kept & Hrun & _ & Hstud & Hperf & _).
  pose proof (read_sql_range_index dept) as Hd.
  pose proof (read_sql_range_index stud) as Hs.
  pose proof (read_sql_range_index perf) as Hp.
  destruct (dept_ex_rows engine _ Hrun) as (ms & ks & vs & Hex & Hms & Hks & Hvs).
  fold dept in Hex, Hms, Hks, Hvs.
  destruct Hstud as (_ & Hsex). fold stud in Hsex.
  destruct Hperf as (Hpex & Hes & HD). fold perf in Hpex, Hes, HD.
  exists o. split; [exact Hrun|]. split; [|split; [|split]].
  - rewrite Hex, !Forall_app. split; [|split; [|split]]; apply Forall_forall; intros e He.
    + apply list_elem_of_lookup in He as [k Hk].
      destruct (Forall2_lookup_r _ _ _ _ _ Hms Hk) as ([r c] & Hrc & Hr & Hc & Hi).
      apply list_elem_of_lookup_2, elem_of_isna_nonzero in Hrc as (row & Hrow & _).
      simpl in *. split; [rewrite Hr; by eapply lookup_lt_Some|].
      split; [by eapply list_elem_of_lookup_2|]. rewrite Hi. by apply (bool_decide_unpack _).
    + pose proof (elem_of_rule_rows _ _ _ _ _ Hks He) as Hr.
      apply (dup_rows_row _ _ _ Hd) in Hr as [Hr Hc].
      apply list_elem_of_lookup in He as [k Hk].
      destruct (Forall2_lookup_r _ _ _ _ _ Hks Hk) as (r & _ & _ & -> & ->).
      split; [exact Hr|]. split; [exact Hc|]. by apply (bool_decide_unpack _).
    + pose proof (elem_of_rule_rows _ _ _ _ _ Hvs He) as Hr.
      apply (dup_rows_row _ _ _ Hd) in Hr as [Hr Hc].
      apply list_elem_of_lookup in He as [k Hk].
      destruct (Forall2_lookup_r _ _ _ _ _ Hvs Hk) as (r & _ & _ & -> & ->).
      split; [exact Hr|]. split; [exact Hc|]. by apply (bool_decide_unpack _).
    + apply list_elem_of_omap in He as ([r v] & Hrv & He).
      apply (column_items_row _ _ _ _ Hd) in Hrv as [Hr Hc].
      apply doe_verdict_shape in He as (-> & -> & Hi).
      split; [exact Hr|]. split; [exact Hc|]. destruct Hi as [-> | ->]; by apply (bool_decide_unpack _).
  - rewrite Hsex, !Forall_app. split; apply Forall_forall; intros e He.
    + apply list_elem_of_omap in He as ([r v] & Hrv & He).
      apply (column_items_row _ _ _ _ Hs) in Hrv as [Hr Hc].
      apply stud_missing_verdict_shape in He as (-> & -> & ->).
      split; [exact Hr|]. split; [exact Hc|]. by apply (bool_decide_unpack _).
    + apply list_elem_of_omap in He as ([r v] & Hrv & He).
      apply (column_items_row _ _ _ _ Hs) in Hrv as [Hr Hc].
      apply stud_fk_verdict_shape in He as (-> & -> & ->).
      split; [exact Hr|]. split; [exact Hc|]. by apply (bool_decide_unpack _).
  - rewrite Hpex, !Forall_app. split; [|split; [|split]]; apply Forall_forall; intros e He.
    + apply list_elem_of_fmap in He as (r & -> & Hr).
      apply (miss_rows_row _ _ Hp) in Hr. split; [exact Hr|]. by apply (bool_decide_unpack _).
    + apply list_elem_of_omap in He as ([r v] & Hrv & He).
      apply (column_items_row _ _ _ _ Hp) in Hrv as [Hr _].
      apply marks_verdict_shape in He as (-> & _ & Hi).
      split; [exact Hr|]. destruct Hi as [-> | ->]; by apply (bool_decide_unpack _).
    + apply list_elem_of_omap in He as ([r v] & Hrv & He).
      apply (column_items_row _ _ _ _ Hp) in Hrv as [Hr _].
      apply effort_verdict_shape in He as (-> & _ & Hi).
      split; [exact Hr|]. destruct Hi as [-> | ->]; by apply (bool_decide_unpack _).
    + apply list_elem_of_lookup in He as [k Hk].
      destruct (Forall2_lookup_r _ _ _ _ _ Hes Hk) as (r & Hr & <- & _ & ->).
      apply list_elem_of_lookup_2, (pair_rows_row _ _ Hp) in Hr.
      split; [exact Hr|]. by apply (bool_decide_unpack _).
  - intros r Hr. apply HD in Hr as [Hr|[(v & Hv & _)|(v & Hv & _)]].
    + by apply (miss_rows_row _ _ Hp).
    + by apply (column_items_row _ _ _ _ Hp) in Hv as [? _].
    + by apply (column_items_row _ _ _ _ Hp) in Hv as [? _].
Qed.

(** X11: the Department report holds a Missing record for a row and a
    column name exactly when the cell of that row in a column of that
    name is null. *)
Theorem null_department_cells_are_reported (engine : Engine) :
  let dept := Department_Information engine in
  exists o,
    run_part2_etl engine = Ok o
    /\ forall r c,
         recorded (dept_ex o) r c "Missing" = true
         <-> exists row j, rs_rows dept !! r = Some row /\ rs_columns dept !! j = Some c
                           /\ isna (cell row j) = true.
Proof.
  intros dept.
  destruct (run_part2_etl_Ok engine) as (dex & sex & st & c0 & _ & _ & _ & _ & Hrun).
  destruct (dept_ex_rows engine _ Hrun) as (ms & ks & vs & Hex & Hms & Hks & Hvs).
  eexists. split; [exact Hrun|]. intros r c. rewrite Hex, !recorded_app.
  destruct (rule_records_shape _ _ _ _ Hks) as [_ Hki].
  destruct (rule_records_shape _ _ _ _ Hvs) as [_ Hvi].
  rewrite (recorded_other_issue ks "Duplicate Key"); [|done|done].
  rewrite (recorded_other_issue vs "Duplicate Value"); [|done|done].
  rewrite (recorded_no_issue (omap doe_verdict _)); [|by apply doe_records_issue].
  simpl. rewrite !orb_false_r, (recorded_missing_records _ _ _ _ _ Hms). split.
  - intros (j & Hrj & Hj). apply elem_of_isna_nonzero in Hrj as (row & Hrow & _ & Hna).
    by exists row, j.
  - intros (row & j & Hrow & Hj & Hna). exists j. split; [|exact Hj].
    apply elem_of_isna_nonzero. exists row. split; [exact Hrow|]. split; [|exact Hna].
    by eapply lookup_lt_Some.
Qed.

(** X12: the Department report holds a Duplicate Key record for a row
    exactly when another row has an equal Department_ID, and a Duplicate
    Value record exactly when another row has an equal Department_Name;
    so two rows that share a key or a name are reported, the one and the
    other. *)
Theorem shared_department_values_are_reported_on_each_row (engine : Engine) :
  let dept := read_sql (Department_Information engine) in
  exists o,
    run_part2_etl engine = Ok o
    /\ (forall r, recorded (dept_ex o) r "Department_ID" "Duplicate Key" = true
                  <-> exists r', shares_value dept "Department_ID" r r')
    /\ (forall r, recorded (dept_ex o) r "Department_Name" "Duplicate Value" = true
                  <-> exists r', shares_value dept "Department_Name" r r')
    /\ (forall r r', shares_value dept "Department_ID" r r' ->
          recorded (dept_ex o) r "Department_ID" "Duplicate Key" = true
          /\ recorded (dept_ex o) r' "Department_ID" "Duplicate Key" = true)
    /\ (forall r r', shares_value dept "Department_Name" r r' ->
          recorded (dept_ex o) r "Department_Name" "Duplicate Value" = true
          /\ recorded (dept_ex o) r' "Department_Name" "Duplicate Value" = true).
Proof.
  intros dept.
  destruct (run_part2_etl_Ok engine) as (dex & sex & st & c0 & _ & _ & _ & _ & Hrun).
  pose proof (read_sql_range_index (Department_Information engine)) as Hidx. fold dept in Hidx.
  assert (Hrows : forall c r, r ∈ dup_rows dept c <-> exists r', shares_value dept c r r').
  { intros c r. rewrite (elem_of_dup_rows _ _ _ Hidx). unfold shares_value. split.
    - intros (v & r' & v' & H). exists r', v, v'. exact H.
    - intros (r' & v & v' & H). exists v, r', v'. exact H. }
  assert (Hsym : forall c r r', shares_value dept c r r' -> shares_value dept c r' r).
  { intros c r r' (v & v' & Hv & Hv' & Hne & Heq). exists v', v.
    split; [exact Hv'|]. split; [exact Hv|]. split; [congruence|].
    by rewrite value_eqb_sym. }
  eexists. split; [exact Hrun|].
  assert (Hk : forall r, recorded dex r "Department_ID" "Duplicate Key" = true
                         <-> exists r', shares_value dept "Department_ID" r r').
  { intros r. rewrite <- Hrows. apply (recorded_duplicates engine _ r Hrun). }
  assert (Hv : forall r, recorded dex r "Department_Name" "Duplicate Value" = true
                         <-> exists r', shares_value dept "Department_Name" r r').
  { intros r. rewrite <- Hrows. apply (recorded_duplicates engine _ r Hrun). }
  simpl. split; [exact Hk|]. split; [exact Hv|]. split.
  - intros r r' H. split; apply Hk; eauto.
  - intros r r' H. split; apply Hv; eauto.
Qed.

(** X13: the Performance report holds a Duplicate Pair record for a row
    exactly when another row has the same Student_ID and the same
    Paper_ID, two nulls counting as the same; so two rows with the same
    pair are reported, the one and the other. *)
Theorem duplicate_pairs_are_reported_on_each_row (engine : Engine) :
  let perf := read_sql (Student_Performance_Data engine) in
  exists o,
    run_part2_etl engine = Ok o
    /\ (forall r, recorded (perf_report o) r "Student_ID,Paper_ID" "Duplicate Pair" = true
                  <-> exists r', same_pair perf r r')
    /\ (forall r r', same_pair perf r r' ->
          recorded (perf_report o) r "Student_ID,Paper_ID" "Duplicate Pair" = true
          /\ recorded (perf_report o) r' "Student_ID,Paper_ID" "Duplicate Pair" = true).
Proof.
  intros perf.
  destruct (run_part2_etl_Ok engine) as (dex & sex & st & c0 & _ & _ & _ & _ & Hrun).
  pose proof (read_sql_range_index (Student_Performance_Data engine)) as Hidx.
  fold perf in Hidx.
  assert (Hrows : forall r, r ∈ pair_rows perf <-> exists r', same_pair perf r r').
  { intros r. rewrite (elem_of_pair_rows _ _ Hidx). unfold same_pair. split.
    - intros (a & b & r' & a' & b' & H). exists r', a, b, a', b'. exact H.
    - intros (r' & a & b & a' & b' & H). exists a, b, r', a', b'. exact H. }
  assert (Hsym : forall r r', same_pair perf r r' -> same_pair perf r' r).
  { intros r r' (a & b & a' & b' & Ha & Hb & Ha' & Hb' & Hne & Hea & Heb).
    exists a', b', a, b. do 4 (split; [done|]). split; [congruence|].
    by rewrite (na_eqb_sym a'), (na_eqb_sym b'). }
  assert (Hp : forall r, recorded (perf_ex st) r "Student_ID,Paper_ID" "Duplicate Pair" = true
                         <-> exists r', same_pair perf r r').
  { intros r. rewrite <- Hrows. apply (recorded_pair engine _ r Hrun). }
  eexists. split; [exact Hrun|]. simpl. split; [exact Hp|].
  intros r r' H. split; apply Hp; eauto.
Qed.

(** X14: the Counseling rules on a Department_Admission cell, in terms
    of the cells of the Department table. With [s] the text of the cell,
    stripped: a Missing record is there exactly when the cell is null or
    [s] is empty; an FK Violation record exactly when [s] is not empty,
    the Department table has a non-null Department_ID and none of them
    prints as [s]; and without a non-null Department_ID no FK Violation
    is recorded. *)
Theorem admission_is_looked_up_among_the_department_keys (engine : Engine) (o : outputs)
    (r : nat) (v : value) :
  let dept := read_sql (Department_Information engine) in
  let stud := read_sql (Student_Counceling_Information engine) in
  let s := strip (py_str v) in
  run_part2_etl engine = Ok o ->
  (r, v) ∈ column_items stud "Department_Admission" ->
  (recorded (stud_ex o) r "Department_Admission" "Missing" = true
   <-> isna v = true \/ s = "")
  /\ (recorded (stud_ex o) r "Department_Admission" "FK Violation" = true
      <-> s <> "" /\ (exists w, department_key dept w)
          /\ forall w, department_key dept w -> py_str w <> s)
  /\ ((forall w, ~ department_key dept w) ->
      recorded (stud_ex o) r "Department_Admission" "FK Violation" = false).
Proof.
  intros dept stud s Hrun Hrv.
  destruct (department_ids_Ok dept) as [ids Hids].
  pose proof (read_sql_range_index (Department_Information engine)) as Hidx. fold dept in Hidx.
  destruct (recorded_admission engine o ids r v Hrun Hids Hrv) as [Hm Hf].
  fold dept stud in Hm, Hf.
  assert (Hfk : recorded (stud_ex o) r "Department_Admission" "FK Violation" = true
                <-> s <> "" /\ (exists w, department_key dept w)
                    /\ forall w, department_key dept w -> py_str w <> s).
  { rewrite Hf. unfold stud_fk_verdict. simpl. fold s.
    rewrite <- (department_ids_nonempty _ _ Hidx Hids).
    destruct (String.eqb_spec s "") as [Hs|Hs]; simpl.
    { split; [intros [x Hx]; discriminate | intros (H & _); done]. }
    destruct (decide (ids = ∅)) as [He|He].
    { rewrite (bool_decide_eq_true_2 _ He). simpl.
      split; [intros [x Hx]; discriminate | intros (_ & H & _); done]. }
    rewrite (bool_decide_eq_false_2 _ He). simpl.
    destruct (decide (s ∈ ids)) as [Hin|Hin].
    - rewrite (bool_decide_eq_true_2 _ Hin). simpl.
      split; [intros [x Hx]; discriminate|]. intros (_ & _ & H).
      apply (department_ids_keys _ _ _ Hidx Hids) in Hin as (w & Hw & Hs'). by apply H in Hw.
    - rewrite (bool_decide_eq_false_2 _ Hin). simpl. split; [|intros _; by eexists].
      intros _. split; [exact Hs|]. split; [exact He|]. intros w Hw Hs'. apply Hin.
      apply (department_ids_keys _ _ _ Hidx Hids). eauto. }
  split; [|split; [exact Hfk|]].
  - rewrite Hm. unfold stud_missing_verdict. simpl. fold s.
    destruct (isna v); simpl; [split; [auto | intros _; by eexists]|].
    destruct (String.eqb_spec s "") as [Hs|Hs].
    + split; [auto | intros _; by eexists].
    + split; [intros [x Hx]; discriminate | intros [H|H]; [discriminate|done]].
  - intros Hno. apply not_true_iff_false. intros H. apply Hfk in H as (_ & [w Hw] & _).
    by apply (Hno w).
Qed.

(** X14 at [unknown_admission_run], scenario E of the specification:
    admission "99" with the Department keys 1, 2 and 3. *)
Lemma unknown_admission_run_lookup :
  exists o,
    run_part2_etl unknown_admission_run = Ok o
    /\ (recorded (stud_ex o) 0 "Department_Admission" "Missing" = true
        <-> isna (VStr "99") = true \/ strip (py_str (VStr "99")) = "").
Proof.
  eexists. split; [vm_compute; reflexivity|].
  eapply (admission_is_looked_up_among_the_department_keys unknown_admission_run _ 0
            (VStr "99")).
  - vm_compute. reflexivity.
  - by apply (bool_decide_unpack _).
Defined.

(** X15: a table read without rows, or without columns, gets an empty
    report; for the Performance table the discard set is then empty too
    and the cleaned frame has the rows of the input. The Employee report
    is empty whatever the Employee table holds. *)
Theorem tables_without_rows_or_columns_get_empty_reports (engine : Engine) :
  let dept := Department_Information engine in
  let stud := Student_Counceling_Information engine in
  let perf := Student_Performance_Data engine in
  exists o,
    run_part2_etl engine = Ok o
    /\ (rs_rows dept = [] \/ rs_columns dept = [] -> dept_ex o = [])
    /\ (rs_rows stud = [] \/ rs_columns stud = [] -> stud_ex o = [])
    /\ (rs_rows perf = [] \/ rs_columns perf = [] ->
        perf_report o = [] /\ perf_discard o = ∅ /\ data (perf_clean o) = rs_rows perf)
    /\ emp_ex o = [].
Proof.
  intros dept stud perf.
  destruct (run_part2_etl_Ok engine) as (dex & sex & st & c & Hd & Hs & Hp & Hc & Hrun).
  fold dept stud perf in Hd, Hs, Hp, Hc.
  eexists. split; [exact Hrun|]. simpl. split; [|split; [|split; [|reflexivity]]].
  - intros He. apply empty_read_sql in He. unfold department_checks in Hd.
    rewrite He in Hd. by injection Hd as <-.
  - intros He. apply empty_read_sql in He. unfold counseling_checks in Hs.
    rewrite He in Hs. simpl in Hs. by injection Hs as <-.
  - intros He. apply empty_read_sql in He. unfold performance_checks in Hp.
    rewrite He in Hp. injection Hp as <-. simpl in *.
    rewrite (clean_nothing _ (read_sql_range_index perf)) in Hc. by injection Hc as <-.
Qed.

(** X16: a Performance row that passes every rule is kept: when it has
    no null, its Marks cell converts to a float within [[0, 100]] and its
    Effort_Hours cell to a whole number that is not negative, its index
    is not in the discard set, the row is in the cleaned frame, and the
    report has no record for it other than Duplicate Pair records. *)
Theorem rows_that_pass_every_rule_are_kept (engine : Engine) :
  let perf := read_sql (Student_Performance_Data engine) in
  exists o,
    run_part2_etl engine = Ok o
    /\ forall i row,
         data perf !! i = Some row ->
         has_null perf row = false ->
         (forall v, (i, v) ∈ column_items perf "Marks" -> marks_valid v) ->
         (forall v, (i, v) ∈ column_items perf "Effort_Hours" -> effort_valid v) ->
         (i ∉ perf_discard o)
         /\ row ∈ data (perf_clean o)
         /\ forall e, e ∈ perf_report o -> row_index e = i ->
                      issue_type e = "Duplicate Pair".
Proof.
  intros perf.
  destruct (run_spec engine)
    as (o & ms & ks & vs & ids & es & kept & Hrun & _ & _ & Hperf & Hclean).
  fold perf in Hperf, Hclean. destruct Hperf as (Hex & Hes & HD).
  destruct Hclean as (_ & _ & _ & _ & Hkept & Hrows & _).
  pose proof (read_sql_range_index (Student_Performance_Data engine)) as Hidx.
  fold perf in Hidx.
  exists o. split; [exact Hrun|]. intros i row Hrow Hnull Hmarks Heffort.
  assert (Hgood : ~ disqualified perf i).
  { intros [Hi|[(v & Hv & Hs)|(v & Hv & Hs)]].
    - apply (elem_of_miss_rows _ _ Hidx) in Hi as (row' & Hrow' & Hna).
      rewrite Hrow in Hrow'. injection Hrow' as <-. unfold has_null in Hnull. congruence.
    - rewrite (marks_valid_verdict i v (Hmarks v Hv)) in Hs. by destruct Hs.
    - rewrite (effort_valid_verdict i v (Heffort v Hv)) in Hs. by destruct Hs. }
  assert (Hout : i ∉ perf_discard o) by (intros Hi; by apply HD in Hi).
  split; [exact Hout|]. split.
  - assert (Hi : i ∈ kept).
    { apply Hkept. split; [by eapply lookup_lt_Some|exact Hout]. }
    apply list_elem_of_lookup in Hi as [k Hk].
    destruct (Forall2_lookup_l _ _ _ _ _ Hrows Hk) as (row' & Hk' & Hrow').
    rewrite Hrow in Hrow'. injection Hrow' as <-. by eapply list_elem_of_lookup_2.
  - intros e He Hi. destruct (decide (issue_type e = "Duplicate Pair")) as [|Hne]; [done|].
    exfalso. apply Hgood. rewrite <- Hi. rewrite Hex in He.
    by apply (record_disqualifies perf es e Hes He).
Qed.
